(** * ESLint repair loop: a shallow embedding of [eslint-helper.py] and
      [eslint-automation.py]

    The development follows the two Python scripts function by function.

    - Text is a [string] of 8-bit characters; the character classes of the
      [re] module ([\s], [\d], [\w]) are the ones Python uses on the ASCII
      range.  Patterns and replacement templates are kept as the strings
      the scripts write and are read by [PyRe.re_compile] and
      [PyRe.parse_template].
    - The file system is reduced to the two paths a session touches: the
      file under repair and its [.bak] sibling.
    - Every effect (spawning the checker, reading, writing, copying,
      removing, printing) is logged in a trace, so that statements such as
      "no write occurs" or "two measurements precede the rewrite" are
      statements about the trace.
    - Python exceptions are an explicit [Raise] result; [try/except] is
      [try_except].  The checker's answers and the failures of file
      operations come from an environment ([Py.Env]); printing never
      fails. *)

From Stdlib Require Import Bool Arith Lia List String Ascii ZArith.
Import ListNotations.
Local Open Scope string_scope.
Local Open Scope list_scope.
Local Open Scope nat_scope.

Set Implicit Arguments.

(* ================================================================== *)
(** * Part I. Python strings *)
(* ================================================================== *)

Module PyStr.

Definition nl : ascii := "010"%char.
Definition cr : ascii := "013"%char.

(** [str.isspace] on the ASCII range: TAB..CR, FS..US and SPACE. *)
Definition is_space (c : ascii) : bool :=
  let n := nat_of_ascii c in
  ((9 <=? n) && (n <=? 13)) || ((28 <=? n) && (n <=? 32)).

Definition is_digit (c : ascii) : bool :=
  let n := nat_of_ascii c in (48 <=? n) && (n <=? 57).

(** [\w]: letters, digits and the underscore. *)
Definition is_word (c : ascii) : bool :=
  let n := nat_of_ascii c in
  ((48 <=? n) && (n <=? 57)) || ((65 <=? n) && (n <=? 90))
  || ((97 <=? n) && (n <=? 122)) || (n =? 95).

Fixpoint startswith (p s : string) : bool :=
  match p with
  | EmptyString => true
  | String a p' =>
      match s with
      | EmptyString => false
      | String b s' => Ascii.eqb a b && startswith p' s'
      end
  end.

Fixpoint drop (n : nat) (s : string) : string :=
  match n with
  | 0 => s
  | S n' => match s with EmptyString => EmptyString | String _ s' => drop n' s' end
  end.

Fixpoint take (n : nat) (s : string) : string :=
  match n with
  | 0 => EmptyString
  | S n' => match s with EmptyString => EmptyString | String c s' => String c (take n' s') end
  end.

(** [needle in hay]. *)
Fixpoint contains (needle hay : string) : bool :=
  startswith needle hay ||
  match hay with
  | EmptyString => false
  | String _ hay' => contains needle hay'
  end.

Definition endswith (suffix s : string) : bool :=
  (String.length suffix <=? String.length s) &&
  String.eqb (drop (String.length s - String.length suffix) s) suffix.

(** [s.replace(old, new)]: leftmost non-overlapping occurrences.  The
    counter [skip] steps over the characters of an occurrence that has
    just been replaced. *)
Fixpoint replace_from (old new : string) (skip : nat) (s : string) : string :=
  match s with
  | EmptyString => EmptyString
  | String c s' =>
      match skip with
      | S k => replace_from old new k s'
      | 0 =>
          if startswith old s
          then (new ++ replace_from old new (String.length old - 1) s')%string
          else String c (replace_from old new 0 s')
      end
  end.

(** With an empty [old], Python inserts [new] before every character and
    at the end. *)
Fixpoint intersperse (new s : string) : string :=
  match s with
  | EmptyString => new
  | String c s' => (new ++ String c (intersperse new s'))%string
  end.

Definition replace (old new s : string) : string :=
  match old with
  | EmptyString => intersperse new s
  | _ => replace_from old new 0 s
  end.

Fixpoint lstrip (s : string) : string :=
  match s with
  | EmptyString => EmptyString
  | String c s' => if is_space c then lstrip s' else s
  end.

Fixpoint rstrip (s : string) : string :=
  match s with
  | EmptyString => EmptyString
  | String c s' =>
      match rstrip s' with
      | EmptyString => if is_space c then EmptyString else String c EmptyString
      | r => String c r
      end
  end.

Definition strip (s : string) : string := rstrip (lstrip s).

(** [s.split(sep)] for a one-character separator: never the empty list. *)
Fixpoint split (sep : ascii) (s : string) : list string :=
  match s with
  | EmptyString => [EmptyString]
  | String c s' =>
      if Ascii.eqb c sep then EmptyString :: split sep s'
      else match split sep s' with
           | [] => [String c EmptyString]
           | h :: t => String c h :: t
           end
  end.

(** [sep.join(parts)]. *)
Fixpoint join (sep : string) (parts : list string) : string :=
  match parts with
  | [] => EmptyString
  | [p] => p
  | p :: rest => (p ++ sep ++ join sep rest)%string
  end.

(** [''.join(parts)]. *)
Definition concat (parts : list string) : string :=
  fold_right String.append EmptyString parts.

(** Universal-newline translation of text-mode reads: CR LF and a lone
    CR both become LF. *)
Fixpoint universal_newlines (s : string) : string :=
  match s with
  | EmptyString => EmptyString
  | String c s' =>
      if Ascii.eqb c cr then
        match s' with
        | String d s'' =>
            if Ascii.eqb d nl then String nl (universal_newlines s'')
            else String nl (universal_newlines s')
        | EmptyString => String nl EmptyString
        end
      else String c (universal_newlines s')
  end.

(** [str.splitlines(keepends=True)] restricted to LF, which is what
    [readlines] yields after newline translation. *)
Fixpoint lines_keepends (s : string) : list string :=
  match s with
  | EmptyString => []
  | String c s' =>
      if Ascii.eqb c nl then String c EmptyString :: lines_keepends s'
      else match lines_keepends s' with
           | [] => [String c EmptyString]
           | h :: t => String c h :: t
           end
  end.

(** [int(s)] on a run of decimal digits. *)
Fixpoint int_acc (acc : N) (s : string) : N :=
  match s with
  | EmptyString => acc
  | String c s' => int_acc (acc * 10 + (N_of_ascii c - 48))%N s'
  end.

Definition int (s : string) : N := int_acc 0%N s.

End PyStr.

(* ================================================================== *)
(** * Part II. The fragment of Python's [re] the scripts use *)
(* ================================================================== *)

Module PyRe.

(** One-character matchers. *)
Inductive cclass : Type :=
| CAny                              (* [.]    anything but a newline *)
| CSpace                            (* [\s] *)
| CDigit                            (* [\d] *)
| CWord                             (* [\w] *)
| CSet (ranges : list (ascii * ascii))  (* [[...]], each member a range *)
| CNot (ranges : list (ascii * ascii)). (* [[^...]] *)

Inductive regex : Type :=
| Eps
| Lit (s : string)                  (* a run of literal characters *)
| Cls (c : cclass)
| Seq (r1 r2 : regex)
| Alt (r1 r2 : regex)               (* [r1|r2] *)
| Star (r : regex)                  (* greedy [r*] *)
| Plus (r : regex)                  (* greedy [r+] *)
| Group (i : nat) (r : regex)       (* the [i]-th capturing group *)
| WordB                             (* [\b] *)
| Eol.                              (* [$] *)

Definition in_range (c : ascii) (r : ascii * ascii) : bool :=
  (nat_of_ascii (fst r) <=? nat_of_ascii c) && (nat_of_ascii c <=? nat_of_ascii (snd r)).

Definition class_matches (k : cclass) (c : ascii) : bool :=
  match k with
  | CAny => negb (Ascii.eqb c PyStr.nl)
  | CSpace => PyStr.is_space c
  | CDigit => PyStr.is_digit c
  | CWord => PyStr.is_word c
  | CSet rs => existsb (in_range c) rs
  | CNot rs => negb (existsb (in_range c) rs)
  end.

(** Captured groups, most recent first. *)
Definition captures := list (nat * string).

Fixpoint lookup (i : nat) (cs : captures) : option string :=
  match cs with
  | [] => None
  | (j, s) :: cs' => if i =? j then Some s else lookup i cs'
  end.

(** The text between two positions of the same subject, each position
    given by what is left to read. *)
Definition consumed (from to : string) : string :=
  PyStr.take (String.length from - String.length to) from.

Definition opt_is_word (c : option ascii) : bool :=
  match c with Some a => PyStr.is_word a | None => false end.

Definition head (s : string) : option ascii :=
  match s with EmptyString => None | String c _ => Some c end.

(** A position is the character just read ([prev], for [\b]) and the
    rest of the subject. *)
Section Matcher.
Variable R : Type.

Definition cont := option ascii -> string -> captures -> option R.

(** Greedy iteration: take one more round of [step] when that round
    makes progress and the rest of the pattern then succeeds, else stop
    here.  [fuel] bounds the rounds by the length of the subject. *)
Fixpoint star_loop (step : option ascii -> string -> captures -> cont -> option R)
         (k : cont) (fuel : nat) (prev : option ascii) (s : string) (cs : captures)
  : option R :=
  match fuel with
  | 0 => k prev s cs
  | S fuel' =>
      match step prev s cs
              (fun prev' s' cs' =>
                 if String.length s' <? String.length s
                 then star_loop step k fuel' prev' s' cs'
                 else None) with
      | Some x => Some x
      | None => k prev s cs
      end
  end.

Fixpoint last_char (prev : option ascii) (s : string) : option ascii :=
  match s with
  | EmptyString => prev
  | String c s' => last_char (Some c) s'
  end.

(** Backtracking matcher in continuation-passing style: [k] is the rest
    of the pattern. *)
Fixpoint rmatch (r : regex) (prev : option ascii) (s : string) (cs : captures)
         (k : cont) {struct r} : option R :=
  match r with
  | Eps => k prev s cs
  | Lit l =>
      if PyStr.startswith l s
      then k (last_char prev l) (PyStr.drop (String.length l) s) cs
      else None
  | Cls c =>
      match s with
      | String a s' => if class_matches c a then k (Some a) s' cs else None
      | EmptyString => None
      end
  | Seq r1 r2 =>
      rmatch r1 prev s cs (fun prev' s' cs' => rmatch r2 prev' s' cs' k)
  | Alt r1 r2 =>
      match rmatch r1 prev s cs k with
      | Some x => Some x
      | None => rmatch r2 prev s cs k
      end
  | Star r' => star_loop (rmatch r') k (S (String.length s)) prev s cs
  | Plus r' =>
      rmatch r' prev s cs
        (fun prev' s' cs' => star_loop (rmatch r') k (S (String.length s')) prev' s' cs')
  | Group i r' =>
      rmatch r' prev s cs (fun prev' s' cs' => k prev' s' ((i, consumed s s') :: cs'))
  | WordB =>
      if xorb (opt_is_word prev) (opt_is_word (head s)) then k prev s cs else None
  | Eol =>
      if String.eqb s EmptyString || String.eqb s (String PyStr.nl EmptyString)
      then k prev s cs else None
  end.
End Matcher.

(** A match object: the matched text and the groups. *)
Record pymatch : Type := MkMatch { whole : string; groups : captures }.

(** [m.group(i)]; a group that did not take part yields the empty
    string, as it does in a replacement template. *)
Definition group (m : pymatch) (i : nat) : string :=
  match i with
  | 0 => whole m
  | _ => match lookup i (groups m) with Some s => s | None => EmptyString end
  end.

(** The match starting exactly at this position, with what follows it. *)
Definition match_at (r : regex) (prev : option ascii) (s : string)
  : option (pymatch * string) :=
  rmatch r prev s [] (fun _ rest cs => Some (MkMatch (consumed s rest) cs, rest)).

(** [re.match(r, s)]. *)
Definition re_match (r : regex) (s : string) : option pymatch :=
  option_map fst (match_at r None s).

(** [re.search(r, s)]: the leftmost position with a match. *)
Fixpoint search_from (r : regex) (prev : option ascii) (s : string) : option pymatch :=
  match match_at r prev s with
  | Some (m, _) => Some m
  | None =>
      match s with
      | EmptyString => None
      | String c s' => search_from r (Some c) s'
      end
  end.

Definition re_search (r : regex) (s : string) : option pymatch := search_from r None s.

(** [re.sub(r, repl, s)] with [repl] a function of the match object (a
    template is the function that expands it).  After a non-empty match
    the scan resumes where the match ended ([skip] steps over it); after
    an empty match one character is copied. *)
Fixpoint sub_from (r : regex) (repl : pymatch -> string) (prev : option ascii)
         (skip : nat) (s : string) {struct s} : string :=
  match skip with
  | S n =>
      match s with
      | EmptyString => EmptyString
      | String c s' => sub_from r repl (Some c) n s'
      end
  | 0 =>
      match match_at r prev s with
      | Some (m, _) =>
          match s with
          | EmptyString => repl m
          | String c s' =>
              if String.length (whole m) =? 0
              then (repl m ++ String c (sub_from r repl (Some c) 0 s'))%string
              else (repl m ++ sub_from r repl (Some c) (String.length (whole m) - 1) s')%string
          end
      | None =>
          match s with
          | EmptyString => EmptyString
          | String c s' => String c (sub_from r repl (Some c) 0 s')
          end
      end
  end.

Definition re_sub (r : regex) (repl : pymatch -> string) (s : string) : string :=
  sub_from r repl None 0 s.

(** [list(re.finditer(r, s))]: the non-overlapping matches, left to
    right. *)
Fixpoint finditer_from (r : regex) (prev : option ascii) (skip : nat) (s : string)
         {struct s} : list pymatch :=
  match skip with
  | S n =>
      match s with
      | EmptyString => []
      | String c s' => finditer_from r (Some c) n s'
      end
  | 0 =>
      match match_at r prev s with
      | Some (m, _) =>
          m :: match s with
               | EmptyString => []
               | String c s' => finditer_from r (Some c) (String.length (whole m) - 1) s'
               end
      | None =>
          match s with
          | EmptyString => []
          | String c s' => finditer_from r (Some c) 0 s'
          end
      end
  end.

Definition re_finditer (r : regex) (s : string) : list pymatch := finditer_from r None 0 s.

(** Replacement templates such as [r'): Promise<\1> {']. *)
Inductive titem : Type := TLit (s : string) | TRef (i : nat).

Definition template := list titem.

Fixpoint expand (t : template) (m : pymatch) : string :=
  match t with
  | [] => EmptyString
  | TLit s :: t' => (s ++ expand t' m)%string
  | TRef i :: t' => (group m i ++ expand t' m)%string
  end.

(** ** [re.compile]: reading a pattern

    A recursive-descent reader for the syntax the scripts' patterns are
    written in: literals, [\s \d \w \b], escaped punctuation, [.], [$],
    bracketed sets with ranges and negation, groups, [|], [*] and [+].
    Groups are numbered by their opening parenthesis. *)

Definition seq (r1 r2 : regex) : regex :=
  match r2 with Eps => r1 | _ => Seq r1 r2 end.

(** The members of a bracketed set, up to the closing bracket. *)
Fixpoint parse_set (fuel : nat) (s : string) (acc : list (ascii * ascii))
  : option (list (ascii * ascii) * string) :=
  match fuel with
  | 0 => None
  | S f =>
      match s with
      | EmptyString => None
      | String "]" s' => Some (rev acc, s')
      | String a (String "-" (String "]" s')) => Some (rev (("-", "-") :: (a, a) :: acc)%char, s')
      | String a (String "-" (String b s')) => parse_set f s' ((a, b) :: acc)
      | String a s' => parse_set f s' ((a, a) :: acc)
      end
  end.

Definition escape (c : ascii) : regex :=
  match c with
  | "s"%char => Cls CSpace
  | "d"%char => Cls CDigit
  | "w"%char => Cls CWord
  | "b"%char => WordB
  | _ => Lit (String c EmptyString)
  end.

(** A postfix [*] or [+] binds to the atom just read. *)
Definition postfix (a : regex) (s : string) : regex * string :=
  match s with
  | String "*" s' => (Star a, s')
  | String "+" s' => (Plus a, s')
  | _ => (a, s)
  end.

Fixpoint parse_alt (fuel : nat) (s : string) (n : nat) {struct fuel}
  : option (regex * string * nat) :=
  match fuel with
  | 0 => None
  | S f =>
      match parse_seq f s n with
      | Some (r1, String "|" s', n') =>
          match parse_alt f s' n' with
          | Some (r2, s'', n'') => Some (Alt r1 r2, s'', n'')
          | None => None
          end
      | other => other
      end
  end
with parse_seq (fuel : nat) (s : string) (n : nat) {struct fuel}
  : option (regex * string * nat) :=
  match fuel with
  | 0 => None
  | S f =>
      match s with
      | EmptyString => Some (Eps, s, n)
      | String "|" _ => Some (Eps, s, n)
      | String ")" _ => Some (Eps, s, n)
      | _ =>
          match parse_atom f s n with
          | Some (a, s', n') =>
              let (a', s'') := postfix a s' in
              match parse_seq f s'' n' with
              | Some (r, s3, n3) => Some (seq a' r, s3, n3)
              | None => None
              end
          | None => None
          end
      end
  end
with parse_atom (fuel : nat) (s : string) (n : nat) {struct fuel}
  : option (regex * string * nat) :=
  match fuel with
  | 0 => None
  | S f =>
      match s with
      | EmptyString => None
      | String "(" s' =>
          match parse_alt f s' (S n) with
          | Some (r, String ")" s'', n') => Some (Group n r, s'', n')
          | _ => None
          end
      | String "[" (String "^" s') =>
          match parse_set (String.length s') s' [] with
          | Some (rs, s'') => Some (Cls (CNot rs), s'', n)
          | None => None
          end
      | String "[" s' =>
          match parse_set (String.length s') s' [] with
          | Some (rs, s'') => Some (Cls (CSet rs), s'', n)
          | None => None
          end
      | String "\" (String c s') => Some (escape c, s', n)
      | String "." s' => Some (Cls CAny, s', n)
      | String "$" s' => Some (Eol, s', n)
      | String c s' => Some (Lit (String c EmptyString), s', n)
      end
  end.

(** A regex that matches nowhere, for a pattern that cannot be read.
    Python raises [re.error] on such a pattern; the patterns the two
    scripts contain are all read to their end, and what is proved of a
    rule table other than theirs holds of tables written with the
    constructs read here. *)
Definition never : regex := Cls (CSet []).

Definition re_compile (pattern : string) : regex :=
  match parse_alt (3 * String.length pattern + 3) pattern 1 with
  | Some (r, EmptyString, _) => r
  | _ => never
  end.

(** Reading a replacement template: [\1]..[\9] are group references. *)
Fixpoint parse_template (s : string) : template :=
  match s with
  | EmptyString => []
  | String "\" (String d s') =>
      if PyStr.is_digit d then TRef (nat_of_ascii d - 48) :: parse_template s'
      else TLit (String "\" EmptyString) :: TLit (String d EmptyString) :: parse_template s'
  | String c s' => TLit (String c EmptyString) :: parse_template s'
  end.

(** [re.sub(pattern, replacement, content)] with the pattern and the
    template given as written in the source. *)
Definition sub (pattern replacement content : string) : string :=
  re_sub (re_compile pattern) (expand (parse_template replacement)) content.

End PyRe.

(* ================================================================== *)
(** * Part III. Effects: exceptions, the two files, the trace *)
(* ================================================================== *)

Module Py.

Inductive exn : Type :=
| OSError | IndexError | TypeError | AttributeError | JSONDecodeError.

Inductive result (A : Type) : Type :=
| Ok (a : A)
| Raise (e : exn).
Arguments Ok {A} a.
Arguments Raise {A} e.

(** What the scripts print, one constructor per [print] statement. *)
Inductive message : Type :=
| MsgAutoCleaning (file_path : string)
| MsgInitialFileErrors (n : nat)
| MsgAlreadyClean
| MsgCreatedBackup
| MsgIteration (i : nat)
| MsgFileIsClean
| MsgErrorCountIncreased (initial current : nat)
| MsgRevertingChanges
| MsgFileHasErrors (n : nat)
| MsgErrorLine (line : Z) (text : string)
| MsgAndMore (n : nat)
| MsgNoAutomaticFixes
| MsgAppliedFixes
| MsgFixesCreatedMoreErrors (current post : nat)
| MsgRevertingIteration
| MsgFinalResult (initial final : nat)
| MsgSuccess
| MsgImprovement (n : nat)
| MsgHitMaxIterations (n : nat)
| MsgErrorDuringProcessing (e : exn)
| MsgRestoringBackup
| MsgErrorGettingFileErrors (e : exn)
| MsgErrorApplyingFixes (e : exn)
| MsgFixedLine (line : Z) (text : string)
| MsgErrorReading (e : exn)
| MsgErrorWriting (e : exn)
| MsgApplyingFix (pattern : string)
| MsgFixedOnLine (what : string) (line : Z).

Inductive event : Type :=
| Spawn                    (* [subprocess.run] of the checker *)
| OpenRead                 (* [open(file_path, 'r')] and the read *)
| OpenWrite                (* [open(file_path, 'w')]: truncates *)
| Write (content : string) (* [f.write(content)] *)
| CopyToBak                (* [shutil.copy2(file_path, backup_path)] *)
| CopyFromBak              (* [shutil.copy2(backup_path, file_path)] *)
| RemoveBak                (* [os.remove(backup_path)] *)
| ExistsBak                (* [os.path.exists(backup_path)] *)
| Print (m : message).

(** The file under repair, its [.bak] sibling ([None]: no such file),
    the number of checker runs so far, and the trace, latest event
    first. *)
Record World : Type := MkWorld {
  file : option string;
  bak : option string;
  spawns : nat;
  trace : list event
}.

(** What [subprocess.run] does: it raises, or the checker ran and left
    its two streams. *)
Inductive proc : Type :=
| ProcRaise (e : exn)
| ProcDone (stdout stderr : string).

(** The surroundings of a run.  [checker k f] is the outcome of the
    [k]-th checker run when the file holds [f]; [fault n] tells whether
    the file-system operation logged as event number [n] fails with
    [OSError]; [linesep] is [os.linesep]. *)
Record Env : Type := MkEnv {
  checker : nat -> option string -> proc;
  fault : nat -> bool;
  linesep : string
}.

Definition M (A : Type) : Type := World -> result A * World.

Definition ret {A} (a : A) : M A := fun w => (Ok a, w).

Definition raise {A} (e : exn) : M A := fun w => (Raise e, w).

Definition bind {A B} (m : M A) (k : A -> M B) : M B :=
  fun w =>
    match m w with
    | (Ok a, w') => k a w'
    | (Raise e, w') => (Raise e, w')
    end.

(** [try: m / except Exception as e: h e]. *)
Definition try_except {A} (m : M A) (h : exn -> M A) : M A :=
  fun w =>
    match m w with
    | (Ok a, w') => (Ok a, w')
    | (Raise e, w') => h e w'
    end.

Definition log (e : event) (w : World) : World :=
  MkWorld (file w) (bak w) (spawns w) (e :: trace w).

Definition set_file (f : option string) (w : World) : World :=
  MkWorld f (bak w) (spawns w) (trace w).

Definition set_bak (b : option string) (w : World) : World :=
  MkWorld (file w) b (spawns w) (trace w).

Definition print (m : message) : M unit := fun w => (Ok tt, log (Print m) w).

Section Primitives.
Variable env : Env.

(** Does the operation about to be logged fail? *)
Definition faulty (w : World) : bool := fault env (List.length (trace w)).

Definition subprocess_run : M (string * string) :=
  fun w =>
    let w' := MkWorld (file w) (bak w) (S (spawns w)) (Spawn :: trace w) in
    match checker env (spawns w) (file w) with
    | ProcRaise e => (Raise e, w')
    | ProcDone out err => (Ok (out, err), w')
    end.

(** [with open(file_path, 'r', encoding='utf-8') as f: f.read()]. *)
Definition read_text : M string :=
  fun w =>
    let w' := log OpenRead w in
    if faulty w then (Raise OSError, w')
    else match file w with
         | None => (Raise OSError, w')
         | Some c => (Ok (PyStr.universal_newlines c), w')
         end.

(** [with open(file_path, 'w', encoding='utf-8') as f: f.write(content)]:
    opening truncates the file, writing translates LF to [os.linesep].
    A failure of the write leaves the file truncated. *)
Definition write_text (content : string) : M unit :=
  fun w =>
    let w1 := log OpenWrite w in
    if faulty w then (Raise OSError, w1)
    else
      let w2 := log (Write content) (set_file (Some EmptyString) w1) in
      if faulty w1 then (Raise OSError, w2)
      else (Ok tt, set_file (Some (PyStr.replace (String PyStr.nl EmptyString)
                                                 (linesep env) content)) w2).

Definition copy_to_bak : M unit :=
  fun w =>
    let w' := log CopyToBak w in
    if faulty w then (Raise OSError, w')
    else match file w with
         | None => (Raise OSError, w')
         | Some c => (Ok tt, set_bak (Some c) w')
         end.

Definition copy_from_bak : M unit :=
  fun w =>
    let w' := log CopyFromBak w in
    if faulty w then (Raise OSError, w')
    else match bak w with
         | None => (Raise OSError, w')
         | Some c => (Ok tt, set_file (Some c) w')
         end.

Definition remove_bak : M unit :=
  fun w =>
    let w' := log RemoveBak w in
    if faulty w then (Raise OSError, w')
    else match bak w with
         | None => (Raise OSError, w')
         | Some _ => (Ok tt, set_bak None w')
         end.

(** [os.path.exists] never raises. *)
Definition exists_bak : M bool :=
  fun w => (Ok (match bak w with Some _ => true | None => false end), log ExistsBak w).
End Primitives.

(** [l[i]] and [l[i] = v] with Python's negative indices. *)
Definition norm_index {A} (l : list A) (i : Z) : option nat :=
  let n := Z.of_nat (List.length l) in
  if (0 <=? i)%Z && (i <? n)%Z then Some (Z.to_nat i)
  else if (i <? 0)%Z && (0 <=? i + n)%Z then Some (Z.to_nat (i + n))
  else None.

Definition getitem {A} (l : list A) (i : Z) : M A :=
  match norm_index l i with
  | Some k => match nth_error l k with Some a => ret a | None => raise IndexError end
  | None => raise IndexError
  end.

Fixpoint update {A} (l : list A) (k : nat) (v : A) : list A :=
  match l, k with
  | [], _ => []
  | _ :: t, 0 => v :: t
  | h :: t, S k' => h :: update t k' v
  end.

Definition setitem {A} (l : list A) (i : Z) (v : A) : M (list A) :=
  match norm_index l i with
  | Some k => ret (update l k v)
  | None => raise IndexError
  end.

End Py.

Declare Scope py_scope.
Delimit Scope py_scope with py.
Notation "x <- m ;; k" := (Py.bind m (fun x => k))
  (at level 61, m at next level, right associativity) : py_scope.
Notation "' pat <- m ;; k" := (Py.bind m (fun x => match x with pat => k end))
  (at level 61, pat pattern, m at next level, right associativity) : py_scope.
Notation "m ;; k" := (Py.bind m (fun _ => k))
  (at level 61, right associativity) : py_scope.
Local Open Scope py_scope.

(* ================================================================== *)
(** * Part IV. [eslint-helper.py] *)
(* ================================================================== *)

Module ESLintHelper.
Import Py.

(** [class ESLintError]. *)
Record ESLintError : Type := MkError {
  file_path : string;
  line : Z;
  column : Z;
  message : string;
  rule : string
}.

(** The attributes [__init__] sets. *)
Record t : Type := MkHelper {
  project_dir : string;
  max_iterations : nat;
  parsing_fixes : list (string * string)
}.

(** [ESLintHelper.__init__]. *)
Definition init (project_dir : string) : t :=
  MkHelper project_dir 20
    [ ("\): Promise<([^>]+)>\s*=>\s*\{", "): Promise<\1> {");
      ("\): Promise<\s*=>\s*\{", "): Promise<{");
      ("}\s*>\s*=>\s*\{", "}> {");
      ("async (\w+) \{", "async \1 => {");
      ("async \(\) \{", "async () => {");
      ("response: async \(\) \{", "response: async () => {");
      ("} catch \(\) \{", "} catch (error) {");
      ("catch \(\) \{", "catch (error) {");
      ("\): Promise< =>", "): Promise<{");
      ("Promise<= =>", "Promise<{") ].

(** ** [get_file_errors] *)

(** The rule name cut off the end of a message (lines 109-115). *)
Definition extract_rule (msg : string) : string * string :=
  if PyStr.endswith ")" (PyStr.strip msg) then
    match PyRe.re_search (PyRe.re_compile "\s+([a-z-/@]+)$") msg with
    | Some m =>
        let rule := PyRe.group m 1 in
        (PyStr.strip (PyStr.replace rule "" msg), rule)
    | None => (msg, "")
    end
  else (msg, "").

(** The body of the loop over the lines of the checker's output: the
    file name seen last and the errors so far, in reverse. *)
Definition parse_line (st : option string * list ESLintError) (ln : string)
  : option string * list ESLintError :=
  let (current_file, errors) := st in
  if PyStr.endswith ".ts" (PyStr.strip ln) && negb (PyStr.startswith " " (PyStr.strip ln))
  then (Some (PyStr.strip ln), errors)
  else
    match PyRe.re_match (PyRe.re_compile "\s*(\d+):(\d+)\s+(error|warning)\s+(.+)") ln,
          current_file with
    | Some m, Some cf =>
        let line_num := Z.of_N (PyStr.int (PyRe.group m 1)) in
        let col_num := Z.of_N (PyStr.int (PyRe.group m 2)) in
        let (msg, rule) := extract_rule (PyRe.group m 4) in
        (current_file, MkError cf line_num col_num msg rule :: errors)
    | _, _ => (current_file, errors)
    end.

Definition parse_output (output : string) : list ESLintError :=
  rev (snd (fold_left parse_line (PyStr.split PyStr.nl output) (None, []))).

Section Methods.
Variable env : Env.
Variable self : t.

(** [get_file_errors]: whatever goes wrong inside the [try] ends in
    the empty list. *)
Definition get_file_errors (path : string) : M (list ESLintError) :=
  try_except
    ('(out, err) <- subprocess_run env ;;
     ret (parse_output (out ++ err)%string))
    (fun e => print (MsgErrorGettingFileErrors e) ;; ret []).

(** ** [apply_parsing_fixes] *)

(** The message-specific rewrite of one line (lines 146-165). *)
Definition fix_line (msg line_content : string) : string :=
  if PyStr.contains "'=>' expected" msg then
    if PyStr.contains "async (" line_content && PyStr.contains " {" line_content then
      PyRe.re_sub (PyRe.re_compile "async \([^)]*\) \{")
                  (fun m => PyStr.replace " {" " => {" (PyRe.group m 0)) line_content
    else if PyStr.contains "response: async ()" line_content
            && PyStr.contains " {" line_content then
      PyRe.sub "response: async \(\) \{" "response: async () => {" line_content
    else line_content
  else if PyStr.contains "'{' or ';' expected" msg then
    if PyStr.contains "): Promise<" line_content && PyStr.contains " => {" line_content then
      PyRe.sub "\): Promise<([^>]+)>\s*=>\s*\{" "): Promise<\1> {" line_content
    else line_content
  else if PyStr.contains "Identifier expected" msg then line_content
  else if PyStr.contains "Declaration or statement expected" msg then line_content
  else line_content.

(** The loop over the errors (lines 135-171), on the pair
    [(lines, changes_made)]. *)
Fixpoint fix_error_lines (errors : list ESLintError) (lines : list string)
         (changes_made : bool) : M (list string * bool) :=
  match errors with
  | [] => ret (lines, changes_made)
  | error :: rest =>
      if negb (PyStr.contains "Parsing error" (message error))
      then fix_error_lines rest lines changes_made
      else
        let line_idx := (line error - 1)%Z in
        if (Z.of_nat (List.length lines) <=? line_idx)%Z
        then fix_error_lines rest lines changes_made
        else
          original_line <- getitem lines line_idx ;;
          let line_content := fix_line (message error) original_line in
          if negb (String.eqb line_content original_line) then
            lines' <- setitem lines line_idx line_content ;;
            print (MsgFixedLine (line error) (message error)) ;;
            fix_error_lines rest lines' true
          else fix_error_lines rest lines changes_made
  end.

(** The loop over [self.parsing_fixes] (lines 174-179). *)
Fixpoint apply_general_fixes (fixes : list (string * string)) (content : string)
         (changes_made : bool) : string * bool :=
  match fixes with
  | [] => (content, changes_made)
  | (pattern, replacement) :: rest =>
      let new_content := PyRe.sub pattern replacement content in
      if negb (String.eqb new_content content)
      then apply_general_fixes rest new_content true
      else apply_general_fixes rest content changes_made
  end.

Definition apply_parsing_fixes (path : string) (errors : list ESLintError) : M bool :=
  try_except
    (text <- read_text env ;;
     let lines := PyStr.lines_keepends text in
     '(lines, changes_made) <- fix_error_lines errors lines false ;;
     let '(content, changes_made) :=
       apply_general_fixes (parsing_fixes self) (PyStr.concat lines) changes_made in
     if changes_made then
       write_text env content ;;
       ret true
     else ret false)
    (fun e => print (MsgErrorApplyingFixes e) ;; ret false).

(** ** Backups *)

Definition create_backup (path : string) : M string :=
  copy_to_bak env ;;
  ret (path ++ ".bak")%string.

Definition restore_backup (path backup_path : string) : M unit :=
  copy_from_bak env ;;
  remove_bak env.

(** ** [clean_file_automatically] *)

(** How the [while] loop is left: by one of its two [return]
    statements, or by a [break] or a false loop condition, with the
    value of [iteration] at that point. *)
Inductive loop_exit : Type :=
| Returned (counts : nat * nat)
| Left (iteration : nat).

Fixpoint print_errors (errors : list ESLintError) : M unit :=
  match errors with
  | [] => ret tt
  | error :: rest =>
      print (MsgErrorLine (line error) (message error)) ;;
      print_errors rest
  end.

(** [while iteration < self.max_iterations]: [remaining] is
    [self.max_iterations - iteration], the number of times the loop
    condition can still hold. *)
Fixpoint while_loop (path backup_path : string) (initial_error_count : nat)
         (remaining iteration : nat) : M loop_exit :=
  match remaining with
  | 0 => ret (Left iteration)
  | S remaining' =>
      let iteration := S iteration in
      print (MsgIteration iteration) ;;
      current_errors <- get_file_errors path ;;
      let current_error_count := List.length current_errors in
      if current_error_count =? 0 then
        print MsgFileIsClean ;;
        ret (Left iteration)
      else if initial_error_count <? current_error_count then
        print (MsgErrorCountIncreased initial_error_count current_error_count) ;;
        print MsgRevertingChanges ;;
        restore_backup path backup_path ;;
        ret (Returned (initial_error_count, initial_error_count))
      else
        print (MsgFileHasErrors current_error_count) ;;
        print_errors (firstn 3 current_errors) ;;
        (if 3 <? List.length current_errors
         then print (MsgAndMore (List.length current_errors - 3))
         else ret tt) ;;
        changes_made <- apply_parsing_fixes path current_errors ;;
        if negb changes_made then
          print MsgNoAutomaticFixes ;;
          ret (Left iteration)
        else
          print MsgAppliedFixes ;;
          post_fix_errors <- get_file_errors path ;;
          let post_fix_count := List.length post_fix_errors in
          if current_error_count <? post_fix_count then
            print (MsgFixesCreatedMoreErrors current_error_count post_fix_count) ;;
            print MsgRevertingIteration ;;
            restore_backup path backup_path ;;
            ret (Returned (initial_error_count, initial_error_count))
          else while_loop path backup_path initial_error_count remaining' iteration
  end.

(** Lines 292-309, after the loop. *)
Definition final_results (path : string) (initial_error_count iteration : nat)
  : M (nat * nat) :=
  final_errors <- get_file_errors path ;;
  let final_error_count := List.length final_errors in
  print (MsgFinalResult initial_error_count final_error_count) ;;
  (if final_error_count =? 0 then print MsgSuccess
   else if final_error_count <? initial_error_count
        then print (MsgImprovement (initial_error_count - final_error_count))
   else if max_iterations self <=? iteration
        then print (MsgHitMaxIterations (max_iterations self))
   else ret tt) ;;
  backup_there <- exists_bak ;;
  (if backup_there then remove_bak env else ret tt) ;;
  ret (initial_error_count, final_error_count).

(** The [try] block: the loop, then lines 292-309 unless the loop
  returned. *)
Definition try_block (path backup_path : string) (initial_error_count : nat)
: M (nat * nat) :=
exit <- while_loop path backup_path initial_error_count (max_iterations self) 0 ;;
match exit with
| Returned counts => ret counts
| Left iteration => final_results path initial_error_count iteration
end.

(** The [except Exception as e] clause (lines 311-317). *)
Definition except_clause (path backup_path : string) (initial_error_count : nat)
(e : exn) : M (nat * nat) :=
print (MsgErrorDuringProcessing e) ;;
backup_there <- exists_bak ;;
(if backup_there
 then print MsgRestoringBackup ;; restore_backup path backup_path
 else ret tt) ;;
ret (initial_error_count, initial_error_count).

Definition clean_file_automatically (path : string) : M (nat * nat) :=
print (MsgAutoCleaning path) ;;
initial_errors <- get_file_errors path ;;
let initial_error_count := List.length initial_errors in
print (MsgInitialFileErrors initial_error_count) ;;
if initial_error_count =? 0 then
  print MsgAlreadyClean ;;
  ret (0, 0)
else
  backup_path <- create_backup path ;;
  print MsgCreatedBackup ;;
  try_except (try_block path backup_path initial_error_count)
             (except_clause path backup_path initial_error_count).
End Methods.

(** ** The runs over the whole project *)

(** The loop of [run_lint_count] over the lines of the output
    (lines 66-71): the number on the first line that holds the word
    with a number before it, [0] when there is no such line. *)
Fixpoint problem_count (lines : list string) : N :=
  match lines with
  | [] => 0%N
  | ln :: rest =>
      if PyStr.contains "problems" ln then
        match PyRe.re_search (PyRe.re_compile "(\d+) problems") ln with
        | Some m => PyStr.int (PyRe.group m 1)
        | None => problem_count rest
        end
      else problem_count rest
  end.

(** The loop of [get_problem_files] (lines 208-210): the stripped
    header lines, appended to [files] in the order of the output. *)
Fixpoint problem_lines (lines files : list string) : list string :=
  match lines with
  | [] => files
  | ln :: rest =>
      if PyStr.endswith ".ts" (PyStr.strip ln) && negb (PyStr.startswith " " (PyStr.strip ln))
      then problem_lines rest (files ++ [PyStr.strip ln])
      else problem_lines rest files
  end.

Section Project.
Variable env : Env.

(** [list(set(files))]: the language leaves open in which order a set
    yields its elements. *)
Variable list_of_set : list string -> list string.

(** [run_lint_count].  Its one message is logged under the tag of the
    report [get_file_errors] prints for the same failure. *)
Definition run_lint_count : M N :=
  try_except
    ('(out, err) <- subprocess_run env ;;
     ret (problem_count (PyStr.split PyStr.nl (out ++ err)%string)))
    (fun e => print (MsgErrorGettingFileErrors e) ;; ret 0%N).

(** [get_problem_files], with its message logged the same way. *)
Definition get_problem_files : M (list string) :=
  try_except
    ('(out, err) <- subprocess_run env ;;
     ret (list_of_set (problem_lines (PyStr.split PyStr.nl (out ++ err)%string) [])))
    (fun e => print (MsgErrorGettingFileErrors e) ;; ret []).
End Project.

(** [test_single_file]: a session of a helper made for the current
    directory; the counts are dropped. *)
Definition test_single_file (env : Env) (file_path : string) : M unit :=
  clean_file_automatically env (init ".") file_path ;;
  ret tt.

End ESLintHelper.

(* ================================================================== *)
(** * Part V. [eslint-automation.py] *)
(* ================================================================== *)

Module ESLintAutomation.
Import Py.

(** What [json.loads] yields.  Numbers are the integers: the checker's
    JSON report holds no others. *)
#[warnings="-register-all"]
Inductive json : Type :=
| JNull
| JBool (b : bool)
| JInt (n : Z)
| JStr (s : string)
| JArr (items : list json)
| JObj (fields : list (string * json)).

(** [@dataclass class LintError].  The dataclass does not check its
    annotations: [get_file_errors] stores whatever the report holds, so
    the four fields read from the report are [json] values. *)
Record LintError : Type := MkLintError {
  file_path : string;
  line : json;
  column : json;
  rule : json;
  message : json;
  severity : string
}.

Fixpoint assoc (key : string) (fields : list (string * json)) : option json :=
  match fields with
  | [] => None
  | (k, v) :: rest => if String.eqb k key then Some v else assoc key rest
  end.

(** [d.get(key, default)]: only a dict has [get]. *)
Definition py_get (d : json) (key : string) (default : json) : M json :=
  match d with
  | JObj fields => ret (match assoc key fields with Some v => v | None => default end)
  | _ => raise AttributeError
  end.

Fixpoint chars (s : string) : list json :=
  match s with
  | EmptyString => []
  | String c s' => JStr (String c EmptyString) :: chars s'
  end.

(** [for x in v]: a list yields its items, a dict its keys, a string
    its characters; nothing else iterates. *)
Definition py_iter (v : json) : M (list json) :=
  match v with
  | JArr items => ret items
  | JObj fields => ret (map (fun kv => JStr (fst kv)) fields)
  | JStr s => ret (chars s)
  | _ => raise TypeError
  end.

Definition is_str (s : string) (v : json) : bool :=
  match v with JStr s' => String.eqb s s' | _ => false end.

(** [needle in v] for a string [needle]. *)
Definition py_in (needle : string) (v : json) : M bool :=
  match v with
  | JStr s => ret (PyStr.contains needle s)
  | JArr items => ret (existsb (is_str needle) items)
  | JObj fields => ret (existsb (fun kv => String.eqb needle (fst kv)) fields)
  | _ => raise TypeError
  end.

(** [v - 1]; [bool] is a subclass of [int]. *)
Definition py_minus_one (v : json) : M Z :=
  match v with
  | JInt n => ret (n - 1)%Z
  | JBool b => ret ((if b then 1 else 0) - 1)%Z
  | _ => raise TypeError
  end.

(** [message.get('severity') == 2]. *)
Definition is_two (v : json) : bool :=
  match v with JInt n => (n =? 2)%Z | _ => false end.

(** [self.common_fixes], in insertion order: a pattern and what its
    lambda makes of a match and the content. *)
Definition common_fixes : list (string * (PyRe.pymatch -> string -> string)) :=
  [ ("} catch \(\) \{",
     fun m content => PyStr.replace (PyRe.group m 0) "} catch (error) {" content);
    ("async \w+ \{",
     fun m content => PyStr.replace (PyRe.group m 0)
                        (PyStr.replace " {" " => {" (PyRe.group m 0)) content);
    ("\): Promise<[^>]+>\s*=>\s*\{",
     fun m content => PyStr.replace " => {" " {" content);
    ("\): Promise<\s*=>\s*\{([^}]+)\}>\s*\{",
     fun m content => PyStr.replace (PyRe.group m 0)
                        ("): Promise<{" ++ PyRe.group m 1 ++ "}> {")%string content);
    (": any\b", fun m content => PyStr.replace ": any" ": unknown" content);
    (" as any\b", fun m content => PyStr.replace " as any" " as unknown" content);
    ("=> any\b", fun m content => PyStr.replace "=> any" "=> unknown" content) ].

Section Methods.
Variable env : Env.
Variable json_loads : string -> option json.   (* [None]: [JSONDecodeError] *)

(** The inner loop of [get_file_errors]: one [LintError] per message. *)
Fixpoint read_messages (path : string) (messages : list json) (errors : list LintError)
  : M (list LintError) :=
  match messages with
  | [] => ret errors
  | msg :: rest =>
      ln <- py_get msg "line" (JInt 0) ;;
      col <- py_get msg "column" (JInt 0) ;;
      rl <- py_get msg "ruleId" (JStr "unknown") ;;
      text <- py_get msg "message" (JStr "") ;;
      sev <- py_get msg "severity" JNull ;;
      read_messages path rest
        (errors ++ [MkLintError path ln col rl text
                      (if is_two sev then "error" else "warning")])
  end.

(** The outer loop, over the files of the report. *)
Fixpoint read_results (path : string) (results : list json) (errors : list LintError)
  : M (list LintError) :=
  match results with
  | [] => ret errors
  | file_result :: rest =>
      messages <- py_get file_result "messages" (JArr []) ;;
      items <- py_iter messages ;;
      errors' <- read_messages path items errors ;;
      read_results path rest errors'
  end.

(** [get_file_errors]: a report that is not JSON leaves the list empty;
    any other exception ends in the empty list. *)
Definition get_file_errors (path : string) : M (list LintError) :=
  try_except
    ('(out, _) <- subprocess_run env ;;
     match json_loads out with
     | None => ret []
     | Some lint_output =>
         results <- py_iter lint_output ;;
         read_results path results []
     end)
    (fun e => print (MsgErrorGettingFileErrors e) ;; ret []).

(** [read_file]: [None] when the read fails. *)
Definition read_file (path : string) : M (option string) :=
  try_except
    (text <- read_text env ;; ret (Some text))
    (fun e => print (MsgErrorReading e) ;; ret None).

Definition write_file (path content : string) : M bool :=
  try_except
    (write_text env content ;; ret true)
    (fun e => print (MsgErrorWriting e) ;; ret false).

(** [if not content]: [None] and the empty string are false. *)
Definition falsy (content : option string) : bool :=
  match content with
  | None => true
  | Some s => String.eqb s EmptyString
  end.

(** One entry of [common_fixes]: its lambda is applied to every match
    found beforehand, the last match first. *)
Definition apply_fix (entry : string * (PyRe.pymatch -> string -> string))
  (content : string) : M string :=
  let (pattern, fix_func) := entry in
  let matches := PyRe.re_finditer (PyRe.re_compile pattern) content in
  match matches with
  | [] => ret content
  | _ =>
      print (MsgApplyingFix pattern) ;;
      ret (fold_left (fun c m => fix_func m c) (rev matches) content)
  end.

Fixpoint apply_fixes (fixes : list (string * (PyRe.pymatch -> string -> string)))
         (content : string) : M string :=
  match fixes with
  | [] => ret content
  | entry :: rest =>
      content' <- apply_fix entry content ;;
      apply_fixes rest content'
  end.

Definition apply_common_fixes (path : string) : M bool :=
  content <- read_file path ;;
  if falsy content then ret false
  else
    let original_content := match content with Some s => s | None => EmptyString end in
    content' <- apply_fixes common_fixes original_content ;;
    if negb (String.eqb content' original_content)
    then write_file path content'
    else ret false.

(** The comprehension [[e for e in errors if 'Parsing error' in e.message]]. *)
Fixpoint parsing_errors_of (errors : list LintError) : M (list LintError) :=
  match errors with
  | [] => ret []
  | e :: rest =>
      keep <- py_in "Parsing error" (message e) ;;
      kept <- parsing_errors_of rest ;;
      ret (if keep then e :: kept else kept)
  end.

(** The body of the loop of [fix_parsing_errors] for one error
    (lines 180-207). *)
Definition fix_error (lines : list string) (error : LintError) : M (list string) :=
  line_idx <- py_minus_one (line error) ;;
  if (0 <=? line_idx)%Z && (line_idx <? Z.of_nat (List.length lines))%Z then
    ln <- getitem lines line_idx ;;
    is_sig <- py_in "'{' or ';' expected" (message error) ;;
    if is_sig then
      if PyStr.contains " => {" ln then
        lines' <- setitem lines line_idx (PyStr.replace " => {" " {" ln) ;;
        print (MsgFixedOnLine "method signature" (line_idx + 1)) ;;
        ret lines'
      else ret lines
    else
      is_arrow <- py_in "'=>' expected" (message error) ;;
      if is_arrow then
        match PyRe.re_search (PyRe.re_compile "async \w+ \{") ln with
        | Some _ =>
            lines' <- setitem lines line_idx
                        (PyRe.sub "(async \w+) \{" "\1 => {" ln) ;;
            print (MsgFixedOnLine "missing arrow" (line_idx + 1)) ;;
            ret lines'
        | None => ret lines
        end
      else
        is_gt <- py_in "'>' expected" (message error) ;;
        if is_gt then
          if PyStr.contains "Promise< =>" ln then
            lines' <- setitem lines line_idx
                        (PyRe.sub "Promise<\s*=>\s*\{([^}]+)\}>" "Promise<{\1}>" ln) ;;
            print (MsgFixedOnLine "Promise type" (line_idx + 1)) ;;
            ret lines'
          else ret lines
        else
          is_ident <- py_in "Identifier expected" (message error) ;;
          if is_ident then
            if PyStr.contains "} catch () {" ln then
              lines' <- setitem lines line_idx
                          (PyStr.replace "} catch () {" "} catch (error) {" ln) ;;
              print (MsgFixedOnLine "catch block" (line_idx + 1)) ;;
              ret lines'
            else ret lines
          else ret lines
  else ret lines.

Fixpoint fix_errors (errors : list LintError) (lines : list string) : M (list string) :=
  match errors with
  | [] => ret lines
  | error :: rest =>
      lines' <- fix_error lines error ;;
      fix_errors rest lines'
  end.

Definition fix_parsing_errors (path : string) (errors : list LintError) : M bool :=
  parsing_errors <- parsing_errors_of errors ;;
  match parsing_errors with
  | [] => ret false
  | _ =>
      content <- read_file path ;;
      if falsy content then ret false
      else
        let original_content := match content with Some s => s | None => EmptyString end in
        let lines := PyStr.split PyStr.nl original_content in
        lines' <- fix_errors parsing_errors lines ;;
        let new_content := PyStr.join (String PyStr.nl EmptyString) lines' in
        if negb (String.eqb new_content original_content)
        then write_file path new_content
        else ret false
  end.
(** ** [clean_single_file] *)

(** [while iterations < max_iterations] (lines 234-261): [remaining] is
    [max_iterations - iterations].  The loop yields [changes_made].
    Its messages are logged under the tags of the helper's messages of
    the same kind, without the counts these do not carry. *)
Fixpoint single_file_loop (path : string) (remaining iterations : nat)
         (changes_made : bool) : M bool :=
  match remaining with
  | 0 => ret changes_made
  | S remaining' =>
      let iterations := S iterations in
      current_errors <- get_file_errors path ;;
      match current_errors with
      | [] =>
          print MsgFileIsClean ;;
          ret changes_made
      | _ =>
          print (MsgIteration iterations) ;;
          fixed <- fix_parsing_errors path current_errors ;;
          (if fixed then print MsgAppliedFixes else ret tt) ;;
          common <- apply_common_fixes path ;;
          (if common then print MsgAppliedFixes else ret tt) ;;
          let iteration_changes := fixed || common in
          let changes_made := changes_made || iteration_changes in
          if negb iteration_changes then
            print MsgNoAutomaticFixes ;;
            ret changes_made
          else single_file_loop path remaining' iterations changes_made
      end
  end.

(** [clean_single_file]: [max_iterations] is the local constant 10. *)
Definition clean_single_file (path : string) : M (bool * nat * nat) :=
  print (MsgAutoCleaning path) ;;
  initial_errors <- get_file_errors path ;;
  let initial_count := List.length initial_errors in
  if initial_count =? 0 then
    print MsgAlreadyClean ;;
    ret (true, 0, 0)
  else
    print (MsgInitialFileErrors initial_count) ;;
    changes_made <- single_file_loop path 10 0 false ;;
    final_errors <- get_file_errors path ;;
    let final_count := List.length final_errors in
    print (MsgFinalResult initial_count final_count) ;;
    ret (changes_made, initial_count, final_count).
End Methods.

End ESLintAutomation.

(* ================================================================== *)
(** * Part VI. Observing a run *)
(* ================================================================== *)

Module Obs.
Import Py.

(** The diagnostics [ESLintHelper.get_file_errors] makes of one run of
    the checker. *)
Definition measure (p : proc) : list ESLintHelper.ESLintError :=
  match p with
  | ProcRaise _ => []
  | ProcDone out err => ESLintHelper.parse_output (out ++ err)%string
  end.

Definition is_spawn (e : event) : bool :=
  match e with Spawn => true | _ => false end.

Definition is_read (e : event) : bool :=
  match e with OpenRead => true | _ => false end.

(** Opening the file for writing, or writing to it. *)
Definition is_write (e : event) : bool :=
  match e with OpenWrite | Write _ => true | _ => false end.

(** Any operation that changes a file: writes, copies, removals. *)
Definition is_mutation (e : event) : bool :=
  match e with
  | OpenWrite | Write _ | CopyToBak | CopyFromBak | RemoveBak => true
  | _ => false
  end.

(** The two messages that announce a detected regression. *)
Definition is_regression (e : event) : bool :=
  match e with
  | Print (MsgErrorCountIncreased _ _) | Print (MsgFixesCreatedMoreErrors _ _) => true
  | _ => false
  end.

(** The message the [except] clause of a session prints first. *)
Definition is_handler (e : event) : bool :=
  match e with Print (MsgErrorDuringProcessing _) => true | _ => false end.

(** The message that opens a loop iteration. *)
Definition is_iteration (e : event) : bool :=
  match e with Print (MsgIteration _) => true | _ => false end.

(** What [apply_parsing_fixes] logs after it has opened the file for
    reading. *)
Definition is_rewrite_tail (e : event) : bool :=
  match e with
  | OpenWrite | Write _ | Print (MsgFixedLine _ _) | Print (MsgErrorApplyingFixes _) => true
  | _ => false
  end.

(** The report of an exception caught inside [apply_parsing_fixes]. *)
Definition is_rewrite_failure (e : event) : bool :=
  match e with Print (MsgErrorApplyingFixes _) => true | _ => false end.

(** The one message [get_file_errors] may print. *)
Definition is_measure_tail (e : event) : bool :=
  match e with Print (MsgErrorGettingFileErrors _) => true | _ => false end.

(** The one message the loop over the diagnostics prints. *)
Definition is_fixed_line (e : event) : bool :=
  match e with Print (MsgFixedLine _ _) => true | _ => false end.

(** Event classes of the operations a session is made of. *)
Definition is_measure_event (e : event) : bool :=
  match e with Spawn | Print (MsgErrorGettingFileErrors _) => true | _ => false end.

Definition is_rewrite_event (e : event) : bool :=
  match e with
  | OpenRead | OpenWrite | Write _
  | Print (MsgFixedLine _ _) | Print (MsgErrorApplyingFixes _) => true
  | _ => false
  end.

Definition is_restore_event (e : event) : bool :=
  match e with CopyFromBak | RemoveBak => true | _ => false end.

Definition is_listing (e : event) : bool :=
  match e with Print (MsgErrorLine _ _) => true | _ => false end.

(** Everything an iteration logs apart from its opening message and the
    announcement of a regression. *)
Definition is_quiet (e : event) : bool :=
  match e with
  | Spawn | OpenRead | OpenWrite | Write _ | CopyFromBak | RemoveBak => true
  | Print m =>
      match m with
      | MsgErrorGettingFileErrors _ | MsgFileIsClean | MsgRevertingChanges
      | MsgFileHasErrors _ | MsgErrorLine _ _ | MsgAndMore _ | MsgNoAutomaticFixes
      | MsgAppliedFixes | MsgRevertingIteration | MsgFixedLine _ _
      | MsgErrorApplyingFixes _ => true
      | _ => false
      end
  | _ => false
  end.

(** Everything the loop logs. *)
Definition is_loop_event (e : event) : bool :=
  is_quiet e || is_iteration e || is_regression e.

(** Everything lines 292-309 log, after the loop. *)
Definition is_final_event (e : event) : bool :=
  match e with
  | Spawn | ExistsBak | RemoveBak => true
  | Print m =>
      match m with
      | MsgErrorGettingFileErrors _ | MsgFinalResult _ _ | MsgSuccess
      | MsgImprovement _ | MsgHitMaxIterations _ => true
      | _ => false
      end
  | _ => false
  end.

(** Everything the [try] block logs. *)
Definition is_try_event (e : event) : bool := is_loop_event e || is_final_event e.

(** Everything the [except] clause logs. *)
Definition is_except_event (e : event) : bool :=
  match e with
  | ExistsBak | CopyFromBak | RemoveBak
  | Print (MsgErrorDuringProcessing _) | Print MsgRestoringBackup => true
  | _ => false
  end.

(** Everything a session logs before it enters the [try] block. *)
Definition is_prelude_event (e : event) : bool :=
  match e with
  | Spawn | CopyToBak => true
  | Print m =>
      match m with
      | MsgAutoCleaning _ | MsgErrorGettingFileErrors _ | MsgInitialFileErrors _
      | MsgAlreadyClean | MsgCreatedBackup => true
      | _ => false
      end
  | _ => false
  end.

Definition occurrences (P : event -> bool) (tr : list event) : nat :=
  List.length (filter P tr).

(** [w'] is [w] after some more events, all of them in [P]. *)
Definition grows (P : event -> bool) (w w' : World) : Prop :=
  exists evs, trace w' = evs ++ trace w /\ forallb P evs = true.

(** On a trace in the order of time: the number of checker runs before
    the file is first opened for reading, if it ever is. *)
Fixpoint spawns_until_read (chronological : list event) (seen : nat) : option nat :=
  match chronological with
  | [] => None
  | OpenRead :: _ => Some seen
  | Spawn :: rest => spawns_until_read rest (S seen)
  | _ :: rest => spawns_until_read rest seen
  end.

(** The rewrite step begins by reading the file: the measurements that
    precede the first rewrite of a session. *)
Definition measurements_before_rewrite (tr : list event) : option nat :=
  spawns_until_read (rev tr) 0.

(** The line a diagnostic points [apply_parsing_fixes] at, if its loop
    gets as far as reading one: the diagnostic is a parsing error, its
    index is below [len(lines)], and Python's indexing finds a line. *)
Definition target (lines : list string) (error : ESLintHelper.ESLintError)
  : option string :=
  if negb (PyStr.contains "Parsing error" (ESLintHelper.message error)) then None
  else if (Z.of_nat (List.length lines) <=? ESLintHelper.line error - 1)%Z then None
  else match norm_index lines (ESLintHelper.line error - 1)%Z with
       | Some k => nth_error lines k
       | None => None
       end.

(** The pattern the message-specific part of [apply_parsing_fixes]
    tries on a line, if the guards let it try one. *)
Definition line_pattern (msg line_content : string) : option string :=
  if PyStr.contains "'=>' expected" msg then
    if PyStr.contains "async (" line_content && PyStr.contains " {" line_content
    then Some "async \([^)]*\) \{"
    else if PyStr.contains "response: async ()" line_content
            && PyStr.contains " {" line_content
    then Some "response: async \(\) \{"
    else None
  else if PyStr.contains "'{' or ';' expected" msg then
    if PyStr.contains "): Promise<" line_content && PyStr.contains " => {" line_content
    then Some "\): Promise<([^>]+)>\s*=>\s*\{"
    else None
  else None.

Definition matches (pattern text : string) : bool :=
  match PyRe.re_search (PyRe.re_compile pattern) text with
  | Some _ => true
  | None => false
  end.

(** No rule of the rewrite step matches: neither the pattern a
    diagnostic selects for the line it points at, nor a pattern of the
    rule table anywhere in the text. *)
Definition no_rule_matches (fixes : list (string * string))
  (errors : list ESLintHelper.ESLintError) (text : string) : Prop :=
  (forall error ln pattern,
      In error errors ->
      target (PyStr.lines_keepends text) error = Some ln ->
      line_pattern (ESLintHelper.message error) ln = Some pattern ->
      matches pattern ln = false)
  /\ (forall pattern replacement,
         In (pattern, replacement) fixes -> matches pattern text = false).

(** No rule of the rewrite step changes anything: the message-specific
    fix leaves every line a diagnostic points at as it is, and no entry
    of the rule table changes the text. *)
Definition no_rule_changes (fixes : list (string * string))
  (errors : list ESLintHelper.ESLintError) (text : string) : Prop :=
  (forall error ln,
      In error errors ->
      target (PyStr.lines_keepends text) error = Some ln ->
      ESLintHelper.fix_line (ESLintHelper.message error) ln = ln)
  /\ (forall pattern replacement,
         In (pattern, replacement) fixes -> PyRe.sub pattern replacement text = text).

(** A replacement template with [T] standing for what its group
    captured. *)
Definition replacement_text (replacement : string) : string :=
  PyRe.expand (PyRe.parse_template replacement) (PyRe.MkMatch EmptyString [(1, "T")]).

(** No rule of the table, and no later one, matches the text a rule
    puts in. *)
Fixpoint replacements_at_rest (fixes : list (string * string)) : bool :=
  match fixes with
  | [] => true
  | (pattern, replacement) :: rest =>
      forallb (fun rule => negb (matches (fst rule) (replacement_text replacement)))
              ((pattern, replacement) :: rest)
      && replacements_at_rest rest
  end.

(** What one entry of [common_fixes] makes of a text: its lambda
    applied to every match, the last match first. *)
Definition common_fix_result (entry : string * (PyRe.pymatch -> string -> string))
  (content : string) : string :=
  fold_left (fun c m => snd entry m c)
            (rev (PyRe.re_finditer (PyRe.re_compile (fst entry)) content)) content.

(** What [apply_common_fixes] logs before it writes. *)
Definition is_common_event (e : event) : bool :=
  match e with
  | OpenRead | Print (MsgErrorReading _) | Print (MsgApplyingFix _) => true
  | _ => false
  end.

(** The state in which a session enters its [try] block: the backup
    holds the content the file had at the start, and still has. *)
Definition at_try_entry (w w5 : World) : Prop :=
  file w5 = file w /\ bak w5 = file w /\ file w <> None
  /\ spawns w5 = S (spawns w) /\ grows is_prelude_event w w5
  /\ occurrences is_spawn (trace w5) = S (occurrences is_spawn (trace w)).

(** Either the file was never opened for reading, or exactly [k] checker
    runs precede the first time it was. *)
Definition first_read (k : nat) (tr : list event) : Prop :=
  occurrences is_read tr = 0
  \/ exists post pre,
      tr = post ++ OpenRead :: pre
      /\ occurrences is_read pre = 0 /\ occurrences is_spawn pre = k.

(** Taking the snapshot. *)
Definition is_snapshot (e : event) : bool :=
  match e with CopyToBak => true | _ => false end.

(** The message of the check at the start of an iteration. *)
Definition is_start_regression (e : event) : bool :=
  match e with Print (MsgErrorCountIncreased _ _) => true | _ => false end.

(** Any operation on the backup path. *)
Definition is_backup_event (e : event) : bool :=
  match e with CopyToBak | CopyFromBak | RemoveBak | ExistsBak => true | _ => false end.

(** What the two rewrite steps of [eslint-automation.py] log. *)
Definition is_edit_event (e : event) : bool :=
  match e with
  | OpenRead | OpenWrite | Write _ => true
  | Print m =>
      match m with
      | MsgErrorReading _ | MsgErrorWriting _ | MsgApplyingFix _ | MsgFixedOnLine _ _ => true
      | _ => false
      end
  | _ => false
  end.

(** What [write_file] logs. *)
Definition is_write_file_event (e : event) : bool :=
  match e with
  | OpenWrite | Write _ | Print (MsgErrorWriting _) => true
  | _ => false
  end.

(** Writing this very text. *)
Definition writes (content : string) (e : event) : bool :=
  match e with Write c => String.eqb c content | _ => false end.

(** A computation that leaves both files and the count of checker runs
    alone and logs only events of the class [P]. *)
Definition only_logs {A} (P : event -> bool) (m : M A) : Prop :=
  forall w, exists r evs,
    m w = (r, MkWorld (file w) (bak w) (spawns w) (evs ++ trace w))
    /\ forallb P evs = true.

(** What the loop over the diagnostics of [fix_parsing_errors] logs. *)
Definition is_fixed_on_line (e : event) : bool :=
  match e with Print (MsgFixedOnLine _ _) => true | _ => false end.

(** A diagnostic of the JSON report with a text for a message and an
    integer for a line. *)
Definition well_typed (error : ESLintAutomation.LintError) : Prop :=
  (exists s, ESLintAutomation.message error = ESLintAutomation.JStr s)
  /\ (exists n, ESLintAutomation.line error = ESLintAutomation.JInt n).

(** A computation that neither looks at the world nor changes it. *)
Definition answers {A} (m : M A) (r : result A) : Prop := forall w, m w = (r, w).

(** The diagnostics [ESLintAutomation.get_file_errors] makes of one run
    of the checker: the body of its inner [try], run where there is
    nothing to see. *)
Definition report_errors (json_loads : string -> option ESLintAutomation.json)
  (path : string) (p : proc) : list ESLintAutomation.LintError :=
  match p with
  | ProcRaise _ => []
  | ProcDone out _ =>
      match json_loads out with
      | None => []
      | Some lint_output =>
          match (results <- ESLintAutomation.py_iter lint_output ;;
                 ESLintAutomation.read_results path results [])
                  (MkWorld None None 0 []) with
          | (Ok errors, _) => errors
          | (Raise _, _) => []
          end
      end
  end.

(** On a trace in the order of time: every message that opens a loop
    iteration is followed at once by a run of the checker. *)
Fixpoint iterations_measure (chronological : list event) : bool :=
  match chronological with
  | [] => true
  | Print (MsgIteration _) :: rest =>
      match rest with
      | Spawn :: _ => iterations_measure rest
      | _ => false
      end
  | _ :: rest => iterations_measure rest
  end.

(** The same on a trace as it is kept, latest event first: wherever the
    trace splits at the opening message of an iteration, the event
    logged next is a run of the checker. *)
Definition each_iteration_measures (tr : list event) : Prop :=
  forall post i pre,
    tr = post ++ Print (MsgIteration i) :: pre -> exists post', post = post' ++ [Spawn].

(** A pattern [PyRe.re_compile] reads to its end. *)
Definition readable (pattern : string) : bool :=
  match PyRe.parse_alt (3 * String.length pattern + 3) pattern 1 with
  | Some (_, EmptyString, _) => true
  | _ => false
  end.

End Obs.

(* ================================================================== *)
(** * Part VII. Scenarios *)
(* ================================================================== *)

Module Scenarios.
Import Py.

Definition NL : string := String PyStr.nl EmptyString.

(** The lines of a text report that carry [k] diagnostics, all of them
    parsing errors on line 1. *)
Fixpoint diagnostics (k : nat) : string :=
  match k with
  | 0 => EmptyString
  | S k' => ("  1:7  error  Parsing error: '=>' expected" ++ NL ++ diagnostics k')%string
  end.

(** A run of the checker that reports [k] diagnostics for [src/a.ts]. *)
Definition report (k : nat) : proc :=
  ProcDone ("src/a.ts" ++ NL ++ diagnostics k)%string EmptyString.

(** A checker for which a file is clean once it holds an arrow. *)
Definition arrow_lint (f : option string) : proc :=
  match f with
  | Some c => if PyStr.contains "=>" c then report 0 else report 1
  | None => ProcRaise OSError
  end.

(** The checker is a function of the file; nothing fails. *)
Definition sound : Env := MkEnv (fun _ => arrow_lint) (fun _ => false) NL.

(** The checker follows a script: its [k]-th run reports [counts[k]]
    diagnostics; nothing fails. *)
Definition scripted (counts : list nat) : Env :=
  MkEnv (fun k _ => report (nth k counts 0)) (fun _ => false) NL.

(** The file operation logged as event number [n] fails. *)
Definition failing_at (n : nat) : Env :=
  MkEnv (fun _ => arrow_lint) (fun k => k =? n) NL.


(** The checker reports one diagnostic on its first two runs and cannot
    be started afterwards. *)
Definition checker_lost : Env :=
  MkEnv (fun k _ => if k <? 2 then report 1 else ProcRaise OSError) (fun _ => false) NL.


Definition helper : ESLintHelper.t := ESLintHelper.init ".".

(** A rule table that needs two passes to come to rest. *)
Definition two_pass : ESLintHelper.t :=
  ESLintHelper.MkHelper "." 20 [("b", "c"); ("a", "b")].

(** A rule table that swaps two contents for ever. *)
Definition cycling : ESLintHelper.t :=
  ESLintHelper.MkHelper "." 20 [("x", "t"); ("y", "x"); ("t", "y")].

(** A world with the file, no backup, no checker run yet and an empty
    trace. *)
Definition fresh (content : string) : World := MkWorld (Some content) None 0 [].

Definition missing_arrow : string := ("x = async y {" ++ NL)%string.
Definition with_arrow : string := ("x = async y => {" ++ NL)%string.
Definition plain : string := ("x = 1" ++ NL)%string.

(** The diagnostic the checker of these scenarios reports. *)
Definition arrow_expected : ESLintHelper.ESLintError :=
  ESLintHelper.MkError "src/a.ts" 1 7 "Parsing error: '=>' expected" "".

(** A session on [src/a.ts], from a fresh world. *)
Definition session (env : Env) (self : ESLintHelper.t) (content : string)
  : result (nat * nat) * World :=
  ESLintHelper.clean_file_automatically env self "src/a.ts" (fresh content).

(** A diagnostic from the JSON report that points at line 5. *)
Definition on_line_five : ESLintAutomation.LintError :=
  ESLintAutomation.MkLintError "src/a.ts" (ESLintAutomation.JInt 5) (ESLintAutomation.JInt 1)
    ESLintAutomation.JNull (ESLintAutomation.JStr "Parsing error: '=>' expected") "error".

(** A report on a [.tsx] file: its header does not end in [.ts]. *)
Definition tsx_only : Env :=
  MkEnv (fun _ _ => ProcDone ("src/App.tsx" ++ NL ++ diagnostics 2)%string EmptyString)
        (fun _ => false) NL.

(** A report whose summary line counts a single problem. *)
Definition one_problem : Env :=
  MkEnv (fun _ _ => ProcDone ("src/a.ts" ++ NL ++ diagnostics 1 ++ NL
                              ++ "1 problem (1 error, 0 warnings)" ++ NL)%string EmptyString)
        (fun _ => false) NL.



(** A parsing diagnostic the checker puts on line 0. *)
Definition on_line_zero : ESLintHelper.ESLintError :=
  ESLintHelper.MkError "src/a.ts" 0 0 "Parsing error: '=>' expected" "".

(** The checker follows a script and the file operations logged as
    events number [m] and [n] fail. *)
Definition scripted_failing_twice (counts : list nat) (m n : nat) : Env :=
  MkEnv (fun k _ => report (nth k counts 0)) (fun k => (k =? m) || (k =? n)) NL.

(** The JSON report of one parsing error on line 1. *)
Definition one_diagnostic : ESLintAutomation.json :=
  ESLintAutomation.JArr
    [ESLintAutomation.JObj
       [("filePath", ESLintAutomation.JStr "/work/src/a.ts");
        ("messages",
         ESLintAutomation.JArr
           [ESLintAutomation.JObj
              [("line", ESLintAutomation.JInt 1);
               ("column", ESLintAutomation.JInt 7);
               ("ruleId", ESLintAutomation.JNull);
               ("message", ESLintAutomation.JStr "Parsing error: '=>' expected");
               ("severity", ESLintAutomation.JInt 2)]])]].

(** A checker with a JSON report: one parsing error until the file
    holds an arrow. *)
Definition arrow_lint_json (f : option string) : proc :=
  match f with
  | Some c => if PyStr.contains "=>" c then ProcDone "[]" EmptyString
              else ProcDone "[1]" EmptyString
  | None => ProcRaise OSError
  end.

Definition sound_json : Env := MkEnv (fun _ => arrow_lint_json) (fun _ => false) NL.

(** What [json.loads] makes of the two reports of [arrow_lint_json]. *)
Definition loads (out : string) : option ESLintAutomation.json :=
  if String.eqb out "[]" then Some (ESLintAutomation.JArr [])
  else if String.eqb out "[1]" then Some one_diagnostic
  else None.

(** A diagnostic of the JSON report that is no parsing error. *)
Definition any_warning : ESLintAutomation.LintError :=
  ESLintAutomation.MkLintError "src/a.ts" (ESLintAutomation.JInt 1) (ESLintAutomation.JInt 4)
    (ESLintAutomation.JStr "@typescript-eslint/no-explicit-any")
    (ESLintAutomation.JStr "Unexpected any. Specify a different type") "warning".

(** A diagnostic of the JSON report without a line. *)
Definition without_line : ESLintAutomation.LintError :=
  ESLintAutomation.MkLintError "src/a.ts" ESLintAutomation.JNull ESLintAutomation.JNull
    ESLintAutomation.JNull (ESLintAutomation.JStr "Parsing error: '=>' expected") "error".

(** A report that names the same file twice and ends in a summary. *)
Definition twelve_problems : Env :=
  MkEnv (fun _ _ => ProcDone ("src/a.ts" ++ NL ++ diagnostics 2 ++ NL
                              ++ "src/a.ts" ++ NL ++ diagnostics 1 ++ NL
                              ++ "x 12 problems (10 errors, 2 warnings)" ++ NL)%string
                             EmptyString)
        (fun _ => false) NL.

(** One of the orders in which [list(set(files))] can come out. *)
Definition in_order (files : list string) : list string := nodup string_dec files.

(** A checker for which a file with an arrow is clean, an empty file
    has two diagnostics, and any other file one. *)
Definition strict_lint (f : option string) : proc :=
  match f with
  | Some c => if PyStr.contains "=>" c then report 0
              else if String.eqb c EmptyString then report 2
              else report 1
  | None => ProcRaise OSError
  end.

(** The checker is a function of the file, and the operation logged as
    event number [n] fails. *)
Definition strict_failing_at (n : nat) : Env :=
  MkEnv (fun _ => strict_lint) (fun k => k =? n) NL.

End Scenarios.

(* ================================================================== *)
(** * Part VIII. Properties *)
(* ================================================================== *)

Import Py Obs.

Unset Implicit Arguments.

(** ** Strings and patterns *)

Lemma concat_lines_keepends (s : string) :
  PyStr.concat (PyStr.lines_keepends s) = s.
Proof.
  induction s as [|c s IH]; [reflexivity|].
  cbn [PyStr.lines_keepends].
  destruct (Ascii.eqb c PyStr.nl).
  - cbn. unfold PyStr.concat in IH. now rewrite IH.
  - destruct (PyStr.lines_keepends s) as [|h t].
    + cbn in *. now subst.
    + cbn in *. now rewrite IH.
Qed.

(** Where a pattern matches nowhere, [re.sub] returns its subject. *)
Lemma sub_from_no_match (r : PyRe.regex) (repl : PyRe.pymatch -> string) :
  forall s prev, PyRe.search_from r prev s = None -> PyRe.sub_from r repl prev 0 s = s.
Proof.
  induction s as [|c s IH]; intros prev H; cbn [PyRe.search_from PyRe.sub_from] in *.
  - destruct (PyRe.match_at r prev "") as [[m rest]|]; [discriminate|reflexivity].
  - destruct (PyRe.match_at r prev (String c s)) as [[m rest]|]; [discriminate|].
    now rewrite IH.
Qed.

Lemma sub_no_match (pattern replacement text : string) :
  matches pattern text = false -> PyRe.sub pattern replacement text = text.
Proof.
  unfold matches, PyRe.sub, PyRe.re_sub, PyRe.re_search. intros H.
  apply sub_from_no_match.
  now destruct (PyRe.search_from (PyRe.re_compile pattern) None text).
Qed.

Lemma re_sub_no_match (pattern : string) (repl : PyRe.pymatch -> string) (text : string) :
  matches pattern text = false -> PyRe.re_sub (PyRe.re_compile pattern) repl text = text.
Proof.
  unfold matches, PyRe.re_sub, PyRe.re_search. intros H.
  apply sub_from_no_match.
  now destruct (PyRe.search_from (PyRe.re_compile pattern) None text).
Qed.

(** A line on which the selected pattern does not match comes back from
    [fix_line] as it was. *)
Lemma fix_line_no_match (msg ln : string) :
  (forall pattern, line_pattern msg ln = Some pattern -> matches pattern ln = false) ->
  ESLintHelper.fix_line msg ln = ln.
Proof.
  unfold line_pattern, ESLintHelper.fix_line. intros H.
  destruct (PyStr.contains "'=>' expected" msg).
  - destruct (PyStr.contains "async (" ln && PyStr.contains " {" ln).
    + apply re_sub_no_match. now apply H.
    + destruct (PyStr.contains "response: async ()" ln && PyStr.contains " {" ln);
        [|reflexivity].
      apply sub_no_match. now apply H.
  - destruct (PyStr.contains "'{' or ';' expected" msg).
    + destruct (PyStr.contains "): Promise<" ln && PyStr.contains " => {" ln);
        [|reflexivity].
      apply sub_no_match. now apply H.
    + now destruct (PyStr.contains "Identifier expected" msg),
                   (PyStr.contains "Declaration or statement expected" msg).
Qed.

Lemma no_rule_matches_changes fixes errors text :
  no_rule_matches fixes errors text -> no_rule_changes fixes errors text.
Proof.
  intros [Hl Hg]. split.
  - intros error ln Hin Ht. apply fix_line_no_match.
    intros pattern Hp. exact (Hl error ln pattern Hin Ht Hp).
  - intros pattern replacement Hin. apply sub_no_match. exact (Hg _ _ Hin).
Qed.

(** ** The monad *)

Lemma bind_ok {A B} (m : M A) (k : A -> M B) w a w1 :
  m w = (Ok a, w1) -> bind m k w = k a w1.
Proof. unfold bind. now intros ->. Qed.

Lemma bind_raise {A B} (m : M A) (k : A -> M B) w e w1 :
  m w = (Raise e, w1) -> bind m k w = (Raise e, w1).
Proof. unfold bind. now intros ->. Qed.

Lemma try_ok {A} (m : M A) (h : exn -> M A) w a w1 :
  m w = (Ok a, w1) -> try_except m h w = (Ok a, w1).
Proof. unfold try_except. now intros ->. Qed.

Lemma try_raise {A} (m : M A) (h : exn -> M A) w e w1 :
  m w = (Raise e, w1) -> try_except m h w = h e w1.
Proof. unfold try_except. now intros ->. Qed.

Lemma bind_print {B} (msg : message) (k : unit -> M B) w :
  bind (print msg) k w = k tt (log (Print msg) w).
Proof. reflexivity. Qed.

Lemma bind_ret {A B} (a : A) (k : A -> M B) w : bind (ret a) k w = k a w.
Proof. reflexivity. Qed.

(** ** Traces *)

Lemma grows_refl P w : grows P w w.
Proof. now exists []. Qed.

Lemma grows_trans P w1 w2 w3 : grows P w1 w2 -> grows P w2 w3 -> grows P w1 w3.
Proof.
  intros (e1 & H1 & F1) (e2 & H2 & F2). exists (e2 ++ e1). split.
  - now rewrite H2, H1, app_assoc.
  - rewrite forallb_app. now rewrite F1, F2.
Qed.

Lemma grows_weaken (P Q : event -> bool) w w' :
  (forall e, P e = true -> Q e = true) -> grows P w w' -> grows Q w w'.
Proof.
  intros HPQ (evs & H & F). exists evs. split; [exact H|].
  rewrite forallb_forall in *. auto.
Qed.

Lemma grows_any P w w' : grows P w w' -> grows (fun _ => true) w w'.
Proof. apply grows_weaken. reflexivity. Qed.

Lemma occurrences_app P l1 l2 :
  occurrences P (l1 ++ l2) = occurrences P l1 + occurrences P l2.
Proof. unfold occurrences. now rewrite filter_app, length_app. Qed.

Lemma occurrences_none (P Q : event -> bool) evs :
  (forall e, Q e = true -> P e = false) -> forallb Q evs = true -> occurrences P evs = 0.
Proof.
  intros HQP F. unfold occurrences. induction evs as [|e evs IH]; [reflexivity|].
  cbn in *. apply andb_prop in F as [Fe F]. rewrite (HQP e Fe). auto.
Qed.

Lemma grows_occurrences (P Q : event -> bool) w w' :
  (forall e, Q e = true -> P e = false) -> grows Q w w' ->
  occurrences P (trace w') = occurrences P (trace w).
Proof.
  intros HQP (evs & H & F). rewrite H, occurrences_app.
  now rewrite (occurrences_none P Q evs HQP F).
Qed.

(** ** [get_file_errors] *)

(** A measurement never raises: it returns what [measure] makes of the
    checker's run, leaves both files alone and logs one [Spawn]. *)
Lemma get_file_errors_run env path w :
  exists evs,
    ESLintHelper.get_file_errors env path w
    = (Ok (measure (checker env (spawns w) (file w))),
       MkWorld (file w) (bak w) (S (spawns w)) (evs ++ Spawn :: trace w))
    /\ forallb is_measure_tail evs = true.
Proof.
  unfold ESLintHelper.get_file_errors, try_except, bind, subprocess_run, measure.
  destruct (checker env (spawns w) (file w)) as [e|out err].
  - exists [Print (MsgErrorGettingFileErrors e)]. split; reflexivity.
  - exists []. split; reflexivity.
Qed.

(** ** [apply_parsing_fixes] *)

Lemma fix_error_lines_run :
  forall errors lines changes w,
  exists r evs,
    ESLintHelper.fix_error_lines errors lines changes w
    = (r, MkWorld (file w) (bak w) (spawns w) (evs ++ trace w))
    /\ forallb is_fixed_line evs = true.
Proof.
  induction errors as [|error rest IH]; intros lines changes w;
    cbn [ESLintHelper.fix_error_lines].
  - exists (Ok (lines, changes)), []. destruct w; split; reflexivity.
  - destruct (negb (PyStr.contains "Parsing error" (ESLintHelper.message error)));
      [apply IH|].
    destruct (Z.of_nat (List.length lines) <=? ESLintHelper.line error - 1)%Z; [apply IH|].
    unfold getitem, setitem.
    destruct (norm_index lines (ESLintHelper.line error - 1)) as [k|].
    2:{ exists (Raise IndexError), []. destruct w; split; reflexivity. }
    destruct (nth_error lines k) as [original|].
    2:{ exists (Raise IndexError), []. destruct w; split; reflexivity. }
    rewrite bind_ret.
    destruct (negb (ESLintHelper.fix_line (ESLintHelper.message error) original =? original)%string).
    + rewrite bind_ret, bind_print.
      destruct (IH (update lines k (ESLintHelper.fix_line (ESLintHelper.message error) original))
                   true (log (Print (MsgFixedLine (ESLintHelper.line error)
                                                  (ESLintHelper.message error))) w))
        as (r & evs & E & F).
      exists r, (evs ++ [Print (MsgFixedLine (ESLintHelper.line error)
                                             (ESLintHelper.message error))]).
      split.
      * rewrite E. cbn. now rewrite <- app_assoc.
      * rewrite forallb_app, F. reflexivity.
    + apply IH.
Qed.

Ltac no_fault H :=
  let Hnf := fresh in
  intros Hnf; unfold faulty in H; rewrite Hnf in H; discriminate.

Ltac settle :=
  repeat split; cbn [file bak spawns trace log set_file set_bak forallb existsb
                     is_rewrite_tail is_write app andb orb];
  try reflexivity; try discriminate; try assumption; try congruence.

(** The rewrite step never raises; it leaves the backup and the spawn
    count alone; its first event is the read; the file changes only if
    it was opened for writing. *)
Lemma apply_parsing_fixes_run env self path errors w :
  exists b w' evs,
    ESLintHelper.apply_parsing_fixes env self path errors w = (Ok b, w')
    /\ bak w' = bak w /\ spawns w' = spawns w
    /\ trace w' = evs ++ OpenRead :: trace w
    /\ forallb is_rewrite_tail evs = true
    /\ (existsb is_write evs = false -> file w' = file w)
    /\ (b = true -> exists c, file w' = Some c)
    /\ ((forall n, fault env n = false) -> b = false -> file w' = file w).
Proof.
  unfold ESLintHelper.apply_parsing_fixes, try_except.
  unfold bind at 1. unfold read_text.
  destruct (faulty env w) eqn:Ef.
  { exists false, (log (Print (MsgErrorApplyingFixes OSError)) (log OpenRead w)),
      [Print (MsgErrorApplyingFixes OSError)]. settle. }
  destruct (file w) as [c|] eqn:Efile.
  2:{ exists false, (log (Print (MsgErrorApplyingFixes OSError)) (log OpenRead w)),
        [Print (MsgErrorApplyingFixes OSError)]. settle. }
  unfold bind at 1.
  destruct (fix_error_lines_run errors (PyStr.lines_keepends (PyStr.universal_newlines c))
              false (log OpenRead w)) as (r & evs & E & F).
  rewrite E. cbn [file bak spawns trace log] in *.
  assert (Frw : forallb is_rewrite_tail evs = true).
  { rewrite forallb_forall in *. intros e He. specialize (F e He).
    destruct e as [| | | | | | | |[]]; try discriminate; reflexivity. }
  assert (Fnw : existsb is_write evs = false).
  { apply not_true_is_false. intros H. apply existsb_exists in H as (e & He & Hw).
    rewrite forallb_forall in F. specialize (F e He).
    destruct e as [| | | | | | | |[]]; discriminate. }
  rewrite Efile.
  destruct r as [[lines changes]|e].
  2:{ exists false, (log (Print (MsgErrorApplyingFixes e))
                       (MkWorld (Some c) (bak w) (spawns w) (evs ++ OpenRead :: trace w))),
        (Print (MsgErrorApplyingFixes e) :: evs). settle. }
  destruct (ESLintHelper.apply_general_fixes (ESLintHelper.parsing_fixes self)
              (PyStr.concat lines) changes) as [content changes'].
  destruct changes'.
  2:{ exists false, (MkWorld (Some c) (bak w) (spawns w) (evs ++ OpenRead :: trace w)), evs.
      settle. }
  unfold bind, write_text.
  set (w1 := MkWorld (Some c) (bak w) (spawns w) (evs ++ OpenRead :: trace w)).
  destruct (faulty env w1) eqn:Ef1.
  { exists false, (log (Print (MsgErrorApplyingFixes OSError)) (log OpenWrite w1)),
      (Print (MsgErrorApplyingFixes OSError) :: OpenWrite :: evs).
    settle. }
  destruct (faulty env (log OpenWrite w1)) eqn:Ef2.
  { exists false,
      (log (Print (MsgErrorApplyingFixes OSError))
           (log (Write content) (set_file (Some EmptyString) (log OpenWrite w1)))),
      (Print (MsgErrorApplyingFixes OSError) :: Write content :: OpenWrite :: evs).
    settle. no_fault Ef2. }
  exists true,
    (set_file (Some (PyStr.replace (String PyStr.nl EmptyString) (linesep env) content))
              (log (Write content) (set_file (Some EmptyString) (log OpenWrite w1)))),
    (Write content :: OpenWrite :: evs).
  settle. intros _. eexists. reflexivity.
Qed.

Lemma target_tail lines error ln :
  PyStr.contains "Parsing error" (ESLintHelper.message error) = true ->
  (Z.of_nat (List.length lines) <=? ESLintHelper.line error - 1)%Z = false ->
  forall k, norm_index lines (ESLintHelper.line error - 1)%Z = Some k ->
  nth_error lines k = Some ln ->
  target lines error = Some ln.
Proof.
  intros Hp Hi k Hk Hn. unfold target. now rewrite Hp, Hi, Hk.
Qed.

(** When the message-specific fix changes none of the lines the
    diagnostics point at, the loop over the diagnostics hands the lines
    back untouched and silently, or stops at an [IndexError]. *)
Lemma fix_error_lines_no_change :
  forall errors lines changes w,
    (forall error ln, In error errors -> target lines error = Some ln ->
                      ESLintHelper.fix_line (ESLintHelper.message error) ln = ln) ->
    ESLintHelper.fix_error_lines errors lines changes w = (Ok (lines, changes), w)
    \/ ESLintHelper.fix_error_lines errors lines changes w = (Raise IndexError, w).
Proof.
  induction errors as [|error rest IH]; intros lines changes w H;
    cbn [ESLintHelper.fix_error_lines].
  - now left.
  - assert (Hrest : forall e ln, In e rest -> target lines e = Some ln ->
                                 ESLintHelper.fix_line (ESLintHelper.message e) ln = ln).
    { intros e ln Hin. apply H. now right. }
    destruct (PyStr.contains "Parsing error" (ESLintHelper.message error)) eqn:Hp;
      cbn [negb]; [|now apply IH].
    destruct (Z.of_nat (List.length lines) <=? ESLintHelper.line error - 1)%Z eqn:Hi;
      [now apply IH|].
    unfold getitem.
    destruct (norm_index lines (ESLintHelper.line error - 1)) as [k|] eqn:Hk; [|now right].
    destruct (nth_error lines k) as [original|] eqn:Hn; [|now right].
    rewrite bind_ret.
    rewrite (H error original (or_introl eq_refl) (target_tail lines error original Hp Hi k Hk Hn)).
    rewrite String.eqb_refl. cbn [negb]. now apply IH.
Qed.

Lemma apply_general_fixes_no_change fixes content changes :
  (forall pattern replacement,
      In (pattern, replacement) fixes -> PyRe.sub pattern replacement content = content) ->
  ESLintHelper.apply_general_fixes fixes content changes = (content, changes).
Proof.
  induction fixes as [|[pattern replacement] rest IH]; intros H;
    cbn [ESLintHelper.apply_general_fixes]; [reflexivity|].
  rewrite (H pattern replacement (or_introl eq_refl)), String.eqb_refl. cbn [negb].
  apply IH. intros p r Hin. apply H. now right.
Qed.

(** A rewrite step in which no rule changes anything: it answers
    [False], and after the read nothing is logged but, possibly, the
    report of an exception. *)
Lemma apply_parsing_fixes_no_change env self path errors w :
  (forall c, file w = Some c ->
             no_rule_changes (ESLintHelper.parsing_fixes self) errors
                             (PyStr.universal_newlines c)) ->
  exists w' evs,
    ESLintHelper.apply_parsing_fixes env self path errors w = (Ok false, w')
    /\ file w' = file w /\ bak w' = bak w
    /\ trace w' = evs ++ OpenRead :: trace w
    /\ existsb is_mutation evs = false.
Proof.
  intros H.
  unfold ESLintHelper.apply_parsing_fixes, try_except.
  unfold bind at 1. unfold read_text.
  destruct (faulty env w).
  { exists (log (Print (MsgErrorApplyingFixes OSError)) (log OpenRead w)),
      [Print (MsgErrorApplyingFixes OSError)]. repeat split. }
  destruct (file w) as [c|] eqn:Efile.
  2:{ exists (log (Print (MsgErrorApplyingFixes OSError)) (log OpenRead w)),
        [Print (MsgErrorApplyingFixes OSError)]. repeat split. cbn. now rewrite Efile. }
  destruct (H c eq_refl) as [Hl Hg].
  unfold bind at 1.
  destruct (fix_error_lines_no_change errors
              (PyStr.lines_keepends (PyStr.universal_newlines c)) false (log OpenRead w) Hl)
    as [E|E]; rewrite E.
  - rewrite concat_lines_keepends, (apply_general_fixes_no_change _ _ false Hg).
    exists (log OpenRead w), []. repeat split. cbn. now rewrite Efile.
  - exists (log (Print (MsgErrorApplyingFixes IndexError)) (log OpenRead w)),
      [Print (MsgErrorApplyingFixes IndexError)]. repeat split. cbn. now rewrite Efile.
Qed.

(** ** Event classes *)

Ltac by_cases_on_event :=
  let e := fresh "e" in
  intros e; destruct e as [| | | | | | | |[]]; cbn; intros; congruence.

Lemma grows_log P e w : P e = true -> grows P w (log e w).
Proof. intros H. exists [e]. cbn. now rewrite H. Qed.

Lemma get_file_errors_grows env path w r w' :
  ESLintHelper.get_file_errors env path w = (r, w') -> grows is_measure_event w w'.
Proof.
  destruct (get_file_errors_run env path w) as (evs & E & F). rewrite E.
  intros [= <- <-]. exists (evs ++ [Spawn]). cbn. split.
  - now rewrite <- app_assoc.
  - rewrite forallb_app. cbn. rewrite andb_true_r.
    rewrite forallb_forall in *. intros e He. specialize (F e He).
    destruct e as [| | | | | | | |[]]; try discriminate; reflexivity.
Qed.

Lemma apply_parsing_fixes_grows env self path errors w r w' :
  ESLintHelper.apply_parsing_fixes env self path errors w = (r, w') ->
  grows is_rewrite_event w w'.
Proof.
  destruct (apply_parsing_fixes_run env self path errors w)
    as (b & w1 & evs & E & _ & _ & Ht & F & _).
  rewrite E. intros [= <- <-]. exists (evs ++ [OpenRead]). split.
  - now rewrite Ht, <- app_assoc.
  - rewrite forallb_app. cbn. rewrite andb_true_r.
    rewrite forallb_forall in *. intros e He. specialize (F e He).
    destruct e as [| | | | | | | |[]]; try discriminate; reflexivity.
Qed.

(** ** Backups *)

(** [restore_backup]: on success the file holds what the backup held
    and the backup is gone; on failure the backup is still there. *)
Lemma restore_backup_run env path backup_path w :
  exists r w',
    ESLintHelper.restore_backup env path backup_path w = (r, w')
    /\ spawns w' = spawns w
    /\ grows is_restore_event w w'
    /\ match r with
       | Ok _ => file w' = bak w /\ bak w' = None /\ bak w <> None
       | Raise _ => bak w' = bak w /\ hd Spawn (trace w') <> Spawn
                    /\ is_restore_event (hd Spawn (trace w')) = true
       end
    /\ ((forall n, fault env n = false) -> bak w <> None -> r = Ok tt).
Proof.
  unfold ESLintHelper.restore_backup, bind, copy_from_bak.
  destruct (faulty env w) eqn:Ef.
  { exists (Raise OSError), (log CopyFromBak w). repeat split; try discriminate.
    - now apply grows_log.
    - intros Hnf. unfold faulty in Ef. now rewrite Hnf in Ef. }
  destruct (bak w) as [c|] eqn:Eb.
  2:{ exists (Raise OSError), (log CopyFromBak w). repeat split; try discriminate.
      - now apply grows_log.
      - cbn. exact Eb.
      - intros _ H. now elim H. }
  unfold remove_bak.
  destruct (faulty env (set_file (Some c) (log CopyFromBak w))) eqn:Ef1.
  { eexists (Raise OSError), _. split; [reflexivity|]. repeat split; try discriminate.
    - exists [RemoveBak; CopyFromBak]. now split.
    - cbn. exact Eb.
    - intros Hnf. unfold faulty in Ef1. now rewrite Hnf in Ef1. }
  cbn [bak set_file log]. rewrite Eb.
  eexists (Ok tt), _. split; [reflexivity|]. repeat split; try discriminate.
  exists [RemoveBak; CopyFromBak]. now split.
Qed.

Lemma print_errors_run errors w :
  exists evs,
    ESLintHelper.print_errors errors w
    = (Ok tt, MkWorld (file w) (bak w) (spawns w) (evs ++ trace w))
    /\ forallb is_listing evs = true.
Proof.
  revert w. induction errors as [|error rest IH]; intros w; cbn [ESLintHelper.print_errors].
  - exists []. destruct w. now split.
  - rewrite bind_print.
    destruct (IH (log (Print (MsgErrorLine (ESLintHelper.line error)
                                           (ESLintHelper.message error))) w))
      as (evs & E & F).
    exists (evs ++ [Print (MsgErrorLine (ESLintHelper.line error)
                                        (ESLintHelper.message error))]).
    rewrite E. cbn. split.
    + now rewrite <- app_assoc.
    + rewrite forallb_app, F. reflexivity.
Qed.

(** ** One step at a time *)

Lemma get_file_errors_step env path w :
  exists w',
    ESLintHelper.get_file_errors env path w
    = (Ok (measure (checker env (spawns w) (file w))), w')
    /\ file w' = file w /\ bak w' = bak w /\ spawns w' = S (spawns w)
    /\ grows is_measure_event w w'.
Proof.
  destruct (get_file_errors_run env path w) as (evs & E & F).
  eexists. split; [exact E|]. repeat split.
  exact (get_file_errors_grows env path w _ _ E).
Qed.

Lemma get_file_errors_counts env path w r w' :
  ESLintHelper.get_file_errors env path w = (r, w') ->
  occurrences is_spawn (trace w') = S (occurrences is_spawn (trace w))
  /\ occurrences is_read (trace w') = occurrences is_read (trace w).
Proof.
  destruct (get_file_errors_run env path w) as (evs & E & F). rewrite E.
  intros [= <- <-]. cbn [trace].
  rewrite !occurrences_app.
  rewrite (occurrences_none is_spawn is_measure_tail evs ltac:(by_cases_on_event) F).
  rewrite (occurrences_none is_read is_measure_tail evs ltac:(by_cases_on_event) F).
  split; reflexivity.
Qed.

Lemma print_errors_step errors w :
  exists w',
    ESLintHelper.print_errors errors w = (Ok tt, w')
    /\ file w' = file w /\ bak w' = bak w /\ spawns w' = spawns w
    /\ grows is_listing w w'.
Proof.
  destruct (print_errors_run errors w) as (evs & E & F).
  eexists. split; [exact E|]. repeat split. now exists evs.
Qed.

Lemma apply_parsing_fixes_step env self path errors w :
  exists b w',
    ESLintHelper.apply_parsing_fixes env self path errors w = (Ok b, w')
    /\ bak w' = bak w /\ spawns w' = spawns w
    /\ grows is_rewrite_event w w'
    /\ (b = true -> exists c, file w' = Some c)
    /\ ((forall n, fault env n = false) -> b = false -> file w' = file w).
Proof.
  destruct (apply_parsing_fixes_run env self path errors w)
    as (b & w' & evs & E & Hb & Hs & Ht & F & _ & Htrue & Hfalse).
  exists b, w'. repeat split; try assumption.
  exact (apply_parsing_fixes_grows env self path errors w _ _ E).
Qed.

Lemma grows_set_bak P w w' b : grows P w w' -> grows P w (set_bak b w').
Proof. intros (evs & H & F). now exists evs. Qed.

Lemma grows_set_file P w w' f : grows P w w' -> grows P w (set_file f w').
Proof. intros (evs & H & F). now exists evs. Qed.

Ltac grows_tac :=
  match goal with
  | |- grows _ ?w ?w => apply grows_refl
  | |- grows _ _ (set_bak _ _) => apply grows_set_bak; grows_tac
  | |- grows _ _ (set_file _ _) => apply grows_set_file; grows_tac
  | |- grows ?P ?w (log ?e ?w') =>
      apply grows_trans with w'; [grows_tac | apply grows_log; reflexivity]
  | H : grows ?Q ?w' ?w'' |- grows ?P ?w ?w'' =>
      apply grows_trans with w';
      [grows_tac | apply (grows_weaken Q P); [by_cases_on_event | exact H]]
  end.

Lemma occurrences_log P e w :
  occurrences P (trace (log e w)) = (if P e then 1 else 0) + occurrences P (trace w).
Proof. unfold occurrences. cbn. now destruct (P e). Qed.

Section Loop.
Variable env : Env.
Variable self : ESLintHelper.t.
Variables path backup_path : string.
Variable initial : nat.

Let loop := ESLintHelper.while_loop env self path backup_path initial.

(** The loop under any checker and any faults. *)
Lemma while_loop_run :
  forall remaining iteration w,
  exists r w',
    loop remaining iteration w = (r, w')
    /\ spawns w' <= spawns w + 2 * remaining
    /\ grows is_loop_event w w'
    /\ occurrences is_iteration (trace w')
       <= occurrences is_iteration (trace w) + remaining
    /\ match r with
       | Ok (ESLintHelper.Returned counts) =>
           counts = (initial, initial) /\ file w' = bak w /\ bak w' = None /\ bak w <> None
       | Ok (ESLintHelper.Left it) =>
           bak w' = bak w /\ it <= iteration + remaining
           /\ occurrences is_regression (trace w') = occurrences is_regression (trace w)
       | Raise _ =>
           bak w' = bak w /\ is_restore_event (hd Spawn (trace w')) = true
       end
    /\ ((forall n, fault env n = false) -> bak w <> None -> exists x, r = Ok x).
Proof.
  unfold loop.
  induction remaining as [|remaining IH]; intros iteration w;
    cbn [ESLintHelper.while_loop].
  { exists (Ok (ESLintHelper.Left iteration)), w.
    repeat split; try lia; try apply grows_refl. intros _ _. now eexists. }
  rewrite bind_print.
  set (w1 := log (Print (MsgIteration (S iteration))) w).
  destruct (get_file_errors_step env path w1) as (w2 & E2 & Hf2 & Hb2 & Hs2 & G2).
  rewrite (bind_ok _ _ _ _ _ E2).
  set (current := measure (checker env (spawns w1) (file w1))) in *.
  assert (I1 : occurrences is_iteration (trace w1) = S (occurrences is_iteration (trace w)))
    by (unfold w1; now rewrite occurrences_log).
  assert (R1 : occurrences is_regression (trace w1) = occurrences is_regression (trace w))
    by (unfold w1; now rewrite occurrences_log).
  destruct (List.length current =? 0).
  { (* break: the file is clean *)
    rewrite bind_print.
    eexists _, _. split; [reflexivity|].
    assert (G : grows is_quiet w1 (log (Print MsgFileIsClean) w2)) by grows_tac.
    repeat split.
    - cbn. rewrite Hs2. cbn. lia.
    - unfold w1 in *. grows_tac.
    - rewrite (grows_occurrences is_iteration is_quiet _ _ ltac:(by_cases_on_event) G). lia.
    - cbn. now rewrite Hb2.
    - lia.
    - rewrite (grows_occurrences is_regression is_quiet _ _ ltac:(by_cases_on_event) G).
      exact R1.
    - intros _ _. now eexists. }
  destruct (initial <? List.length current).
  { (* the count is above the initial one: restore and return *)
    rewrite !bind_print.
    set (w3 := log (Print MsgRevertingChanges)
                   (log (Print (MsgErrorCountIncreased initial (List.length current))) w2)).
    destruct (restore_backup_run env path backup_path w3)
      as (r4 & w4 & E4 & Hs4 & G4 & Hr4 & Hff4).
    assert (G : grows is_loop_event w w4) by (unfold w3, w1 in *; grows_tac).
    assert (I : occurrences is_iteration (trace w4) = S (occurrences is_iteration (trace w))).
    { rewrite <- I1.
      apply (grows_occurrences is_iteration (fun e => is_quiet e || is_regression e)).
      - by_cases_on_event.
      - unfold w3 in *. grows_tac. }
    destruct r4 as [[]|e].
    - rewrite (bind_ok _ _ _ _ _ E4).
      eexists _, _. split; [reflexivity|].
      destruct Hr4 as (Hr & Hn & Hne).
      repeat split; try assumption.
      + rewrite Hs4. cbn. rewrite Hs2. cbn. lia.
      + lia.
      + rewrite Hr. cbn. now rewrite Hb2.
      + cbn in Hne. now rewrite Hb2 in Hne.
      + intros _ _. now eexists.
    - rewrite (bind_raise _ _ _ _ _ E4).
      eexists _, _. split; [reflexivity|].
      destruct Hr4 as (Hr & _ & Hhd).
      repeat split; try assumption.
      + rewrite Hs4. cbn. rewrite Hs2. cbn. lia.
      + lia.
      + rewrite Hr. cbn. now rewrite Hb2.
      + intros Hnf Hne. exfalso.
        assert (Raise e = Ok tt :> result unit); [|discriminate].
        apply Hff4; [exact Hnf|]. cbn. now rewrite Hb2. }
  (* the rewrite step *)
  rewrite bind_print.
  set (w3 := log (Print (MsgFileHasErrors (List.length current))) w2).
  destruct (print_errors_step (firstn 3 current) w3) as (w4 & E4 & Hf4 & Hb4 & Hs4 & G4).
  rewrite (bind_ok _ _ _ _ _ E4).
  assert (exists w5, (if 3 <? List.length current
                      then print (MsgAndMore (List.length current - 3)) else ret tt) w4
                     = (Ok tt, w5)
                     /\ file w5 = file w4 /\ bak w5 = bak w4 /\ spawns w5 = spawns w4
                     /\ grows is_quiet w4 w5) as (w5 & E5 & Hf5 & Hb5 & Hs5 & G5).
  { destruct (3 <? List.length current).
    - eexists. split; [reflexivity|]. repeat split. now apply grows_log.
    - eexists. split; [reflexivity|]. repeat split. apply grows_refl. }
  rewrite (bind_ok _ _ _ _ _ E5).
  destruct (apply_parsing_fixes_step env self path current w5)
    as (changed & w6 & E6 & Hb6 & Hs6 & G6 & _ & _).
  rewrite (bind_ok _ _ _ _ _ E6).
  destruct changed; cbn [negb].
  2:{ (* break: nothing to fix *)
    rewrite bind_print.
    eexists _, _. split; [reflexivity|].
    assert (G : grows is_quiet w1 (log (Print MsgNoAutomaticFixes) w6))
      by (unfold w3 in *; grows_tac).
    repeat split.
    - cbn. rewrite Hs6, Hs5, Hs4. cbn. rewrite Hs2. cbn. lia.
    - unfold w3, w1 in *. grows_tac.
    - rewrite (grows_occurrences is_iteration is_quiet _ _ ltac:(by_cases_on_event) G). lia.
    - cbn. rewrite Hb6, Hb5, Hb4. cbn. now rewrite Hb2.
    - lia.
    - rewrite (grows_occurrences is_regression is_quiet _ _ ltac:(by_cases_on_event) G).
      exact R1.
    - intros _ _. now eexists. }
  rewrite bind_print.
  set (w7 := log (Print MsgAppliedFixes) w6).
  destruct (get_file_errors_step env path w7) as (w8 & E8 & Hf8 & Hb8 & Hs8 & G8).
  rewrite (bind_ok _ _ _ _ _ E8).
  set (post := measure (checker env (spawns w7) (file w7))) in *.
  assert (Q8 : grows is_quiet w1 w8) by (unfold w7, w3 in *; grows_tac).
  assert (S8 : spawns w8 = spawns w + 2).
  { rewrite Hs8. cbn. rewrite Hs6, Hs5, Hs4. cbn. rewrite Hs2. cbn. lia. }
  assert (B8 : bak w8 = bak w).
  { rewrite Hb8. cbn. rewrite Hb6, Hb5, Hb4. cbn. now rewrite Hb2. }
  assert (I8 : occurrences is_iteration (trace w8) = S (occurrences is_iteration (trace w))).
  { rewrite (grows_occurrences is_iteration is_quiet _ _ ltac:(by_cases_on_event) Q8).
    exact I1. }
  assert (R8 : occurrences is_regression (trace w8) = occurrences is_regression (trace w)).
  { rewrite (grows_occurrences is_regression is_quiet _ _ ltac:(by_cases_on_event) Q8).
    exact R1. }
  destruct (List.length current <? List.length post).
  { (* the rewrite made things worse: restore and return *)
    rewrite !bind_print.
    set (w9 := log (Print MsgRevertingIteration)
                   (log (Print (MsgFixesCreatedMoreErrors (List.length current)
                                                          (List.length post))) w8)).
    destruct (restore_backup_run env path backup_path w9)
      as (r10 & w10 & E10 & Hs10 & G10 & Hr10 & Hff10).
    assert (G : grows is_loop_event w w10) by (unfold w9, w1 in *; grows_tac).
    assert (I : occurrences is_iteration (trace w10)
                = S (occurrences is_iteration (trace w))).
    { rewrite <- I8.
      apply (grows_occurrences is_iteration (fun e => is_quiet e || is_regression e)).
      - by_cases_on_event.
      - unfold w9 in *. grows_tac. }
    destruct r10 as [[]|e].
    - rewrite (bind_ok _ _ _ _ _ E10).
      eexists _, _. split; [reflexivity|].
      destruct Hr10 as (Hr & Hn & Hne).
      repeat split; try assumption.
      + rewrite Hs10. cbn. lia.
      + lia.
      + rewrite Hr. cbn. exact B8.
      + cbn in Hne. now rewrite B8 in Hne.
      + intros _ _. now eexists.
    - rewrite (bind_raise _ _ _ _ _ E10).
      eexists _, _. split; [reflexivity|].
      destruct Hr10 as (Hr & _ & Hhd).
      repeat split; try assumption.
      + rewrite Hs10. cbn. lia.
      + lia.
      + rewrite Hr. cbn. exact B8.
      + intros Hnf Hne. exfalso.
        assert (Raise e = Ok tt :> result unit); [|discriminate].
        apply Hff10; [exact Hnf|]. cbn. now rewrite B8. }
  (* next iteration *)
  destruct (IH (S iteration) w8) as (r & w' & E & Hs & G & Hi & Hr & Hff).
  exists r, w'. split; [exact E|].
  repeat split.
  - lia.
  - unfold w1 in *. apply grows_trans with w8; [|exact G].
    apply grows_trans with (log (Print (MsgIteration (S iteration))) w).
    + apply grows_log. reflexivity.
    + apply (grows_weaken is_quiet); [by_cases_on_event|exact Q8].
  - lia.
  - destruct r as [[counts|it]|e].
    + destruct Hr as (Hc & Hfile & Hbn & Hne). rewrite B8 in *. auto.
    + destruct Hr as (Hbk & Hit & Hrg). rewrite B8 in *. repeat split; [exact Hbk|lia|].
      now rewrite Hrg.
    + destruct Hr as (Hbk & Hhd). rewrite B8 in *. auto.
  - intros Hnf Hne. apply Hff; [exact Hnf|]. now rewrite B8.
Qed.

End Loop.

(** ** After the loop *)

Lemma final_results_run env self path initial iteration w :
  exists r w',
    ESLintHelper.final_results env self path initial iteration w = (r, w')
    /\ spawns w' = S (spawns w) /\ file w' = file w
    /\ grows is_final_event w w'
    /\ match r with
       | Ok counts =>
           counts = (initial, List.length (measure (checker env (spawns w) (file w))))
           /\ bak w' = None
       | Raise _ => bak w' = bak w /\ is_restore_event (hd Spawn (trace w')) = true
       end
    /\ ((forall n, fault env n = false) -> exists counts, r = Ok counts).
Proof.
  unfold ESLintHelper.final_results.
  destruct (get_file_errors_step env path w) as (w1 & E1 & Hf1 & Hb1 & Hs1 & G1).
  rewrite (bind_ok _ _ _ _ _ E1), bind_print.
  set (final := List.length (measure (checker env (spawns w) (file w)))).
  set (w2 := log (Print (MsgFinalResult initial final)) w1).
  assert (exists w3,
             (if final =? 0 then print MsgSuccess
              else if final <? initial then print (MsgImprovement (initial - final))
              else if ESLintHelper.max_iterations self <=? iteration
                   then print (MsgHitMaxIterations (ESLintHelper.max_iterations self))
              else ret tt) w2 = (Ok tt, w3)
             /\ file w3 = file w2 /\ bak w3 = bak w2 /\ spawns w3 = spawns w2
             /\ grows is_final_event w2 w3) as (w3 & E3 & Hf3 & Hb3 & Hs3 & G3).
  { destruct (final =? 0); [|destruct (final <? initial);
                             [|destruct (ESLintHelper.max_iterations self <=? iteration)]];
      eexists; (split; [reflexivity|]); repeat split;
      try (now apply grows_log); apply grows_refl. }
  rewrite (bind_ok _ _ _ _ _ E3).
  unfold bind at 1. unfold exists_bak.
  assert (B3 : bak w3 = bak w) by (rewrite Hb3; cbn; exact Hb1).
  assert (F3 : file w3 = file w) by (rewrite Hf3; cbn; exact Hf1).
  assert (S3 : spawns w3 = S (spawns w)) by (rewrite Hs3; cbn; exact Hs1).
  destruct (bak w3) as [c|] eqn:Eb.
  2:{ eexists _, _. split; [reflexivity|]. repeat split; try assumption.
      - unfold w2 in *. grows_tac.
      - intros _. now eexists. }
  unfold bind, remove_bak.
  destruct (faulty env (log ExistsBak w3)) eqn:Ef.
  { eexists _, _. split; [reflexivity|]. repeat split; try assumption.
    - unfold w2 in *. grows_tac.
    - cbn. now rewrite Eb.
    - intros Hnf. unfold faulty in Ef. now rewrite Hnf in Ef. }
  cbn [bak log]. rewrite Eb.
  eexists _, _. split; [reflexivity|]. repeat split; try assumption.
  - unfold w2 in *. grows_tac.
  - intros _. now eexists.
Qed.

(** ** The loop when the checker is a function of the file and nothing
       fails *)

Section Deterministic.
Variable lint : option string -> proc.
Variable sep : string.
Variable self : ESLintHelper.t.
Variables path backup_path : string.
Variable initial : nat.

Let env := MkEnv (fun _ => lint) (fun _ => false) sep.

(** The number of diagnostics of a file content. *)
Let count (f : option string) : nat := List.length (measure (lint f)).

Lemma while_loop_keeps_count :
  forall remaining iteration w,
    file w <> None -> bak w <> None -> count (file w) <= initial ->
    exists x w',
      ESLintHelper.while_loop env self path backup_path initial remaining iteration w
      = (Ok x, w')
      /\ match x with
         | ESLintHelper.Returned _ => True
         | ESLintHelper.Left _ => file w' <> None /\ count (file w') <= initial
         end.
Proof.
  assert (Hnf : forall n, fault env n = false) by reflexivity.
  induction remaining as [|remaining IH]; intros iteration w Hfile Hbak Hcount;
    cbn [ESLintHelper.while_loop].
  { eexists _, _. split; [reflexivity|]. now split. }
  rewrite bind_print.
  set (w1 := log (Print (MsgIteration (S iteration))) w).
  destruct (get_file_errors_step env path w1) as (w2 & E2 & Hf2 & Hb2 & Hs2 & _).
  rewrite (bind_ok _ _ _ _ _ E2).
  change (measure (checker env (spawns w1) (file w1))) with (measure (lint (file w))) in *.
  set (current := measure (lint (file w))) in *.
  destruct (List.length current =? 0).
  { rewrite bind_print. eexists _, _. split; [reflexivity|].
    cbn. rewrite Hf2. now split. }
  destruct (initial <? List.length current) eqn:Elt.
  { apply Nat.ltb_lt in Elt. unfold count, current in *. lia. }
  apply Nat.ltb_ge in Elt.
  rewrite bind_print.
  set (w3 := log (Print (MsgFileHasErrors (List.length current))) w2).
  destruct (print_errors_step (firstn 3 current) w3) as (w4 & E4 & Hf4 & Hb4 & Hs4 & _).
  rewrite (bind_ok _ _ _ _ _ E4).
  assert (exists w5, (if 3 <? List.length current
                      then print (MsgAndMore (List.length current - 3)) else ret tt) w4
                     = (Ok tt, w5)
                     /\ file w5 = file w4 /\ bak w5 = bak w4) as (w5 & E5 & Hf5 & Hb5).
  { destruct (3 <? List.length current); eexists; (split; [reflexivity|]); now split. }
  rewrite (bind_ok _ _ _ _ _ E5).
  assert (F5 : file w5 = file w) by (rewrite Hf5, Hf4; cbn; exact Hf2).
  assert (B5 : bak w5 = bak w) by (rewrite Hb5, Hb4; cbn; exact Hb2).
  destruct (apply_parsing_fixes_step env self path current w5)
    as (changed & w6 & E6 & Hb6 & Hs6 & _ & Htrue & Hfalse).
  rewrite (bind_ok _ _ _ _ _ E6).
  destruct changed; cbn [negb].
  2:{ rewrite bind_print. eexists _, _. split; [reflexivity|].
      cbn. rewrite (Hfalse Hnf eq_refl), F5. now split. }
  destruct (Htrue eq_refl) as (c6 & Hc6).
  rewrite bind_print.
  set (w7 := log (Print MsgAppliedFixes) w6).
  destruct (get_file_errors_step env path w7) as (w8 & E8 & Hf8 & Hb8 & Hs8 & _).
  rewrite (bind_ok _ _ _ _ _ E8).
  change (measure (checker env (spawns w7) (file w7))) with (measure (lint (file w6))) in *.
  set (post := measure (lint (file w6))) in *.
  destruct (List.length current <? List.length post) eqn:Eworse.
  { rewrite !bind_print.
    set (w9 := log (Print MsgRevertingIteration)
                   (log (Print (MsgFixesCreatedMoreErrors (List.length current)
                                                          (List.length post))) w8)).
    destruct (restore_backup_run env path backup_path w9)
      as (r10 & w10 & E10 & _ & _ & _ & Hff10).
    assert (r10 = Ok tt) as ->.
    { apply Hff10; [exact Hnf|]. cbn. rewrite Hb8. cbn. now rewrite Hb6, B5. }
    rewrite (bind_ok _ _ _ _ _ E10). eexists _, _. split; [reflexivity|exact I]. }
  apply Nat.ltb_ge in Eworse.
  apply IH.
  - rewrite Hf8. cbn. rewrite Hc6. discriminate.
  - rewrite Hb8. cbn. now rewrite Hb6, B5.
  - rewrite Hf8. cbn. unfold count, post, current in *. lia.
Qed.

End Deterministic.

(** ** The [try] block and the [except] clause *)

Section Session.
Variable env : Env.
Variable self : ESLintHelper.t.
Variables path backup_path : string.
Variable initial : nat.

Lemma try_block_run w :
  exists r w',
    ESLintHelper.try_block env self path backup_path initial w = (r, w')
    /\ spawns w' <= spawns w + 2 * ESLintHelper.max_iterations self + 1
    /\ grows is_try_event w w'
    /\ occurrences is_iteration (trace w')
       <= occurrences is_iteration (trace w) + ESLintHelper.max_iterations self
    /\ match r with
       | Ok counts =>
           bak w' = None
           /\ ((counts = (initial, initial) /\ file w' = bak w /\ bak w <> None)
               \/ occurrences is_regression (trace w')
                  = occurrences is_regression (trace w))
       | Raise _ => bak w' = bak w /\ is_restore_event (hd Spawn (trace w')) = true
       end
    /\ ((forall n, fault env n = false) -> bak w <> None -> exists counts, r = Ok counts).
Proof.
  unfold ESLintHelper.try_block.
  destruct (while_loop_run env self path backup_path initial
              (ESLintHelper.max_iterations self) 0 w)
    as (r & w1 & E & Hs & G & Hi & Hr & Hff).
  destruct r as [[counts|it]|e].
  - rewrite (bind_ok _ _ _ _ _ E). eexists _, _. split; [reflexivity|].
    destruct Hr as (Hc & Hf & Hb & Hne).
    repeat split; try assumption; try lia.
    + grows_tac.
    + left. auto.
    + intros _ _. now eexists.
  - rewrite (bind_ok _ _ _ _ _ E).
    destruct (final_results_run env self path initial it w1)
      as (r2 & w2 & E2 & Hs2 & Hf2 & G2 & Hr2 & Hff2).
    exists r2, w2. split; [exact E2|].
    destruct Hr as (Hb & Hit & Hrg).
    assert (I2 : occurrences is_iteration (trace w2) = occurrences is_iteration (trace w1))
      by (apply (grows_occurrences is_iteration is_final_event); [by_cases_on_event|exact G2]).
    assert (R2 : occurrences is_regression (trace w2) = occurrences is_regression (trace w1))
      by (apply (grows_occurrences is_regression is_final_event); [by_cases_on_event|exact G2]).
    repeat split; try lia.
    + grows_tac.
    + destruct r2 as [counts|e].
      * destruct Hr2 as (_ & Hbn). split; [exact Hbn|]. right. congruence.
      * destruct Hr2 as (Hbk & Hhd). split; [congruence|exact Hhd].
    + intros Hnf _. exact (Hff2 Hnf).
  - rewrite (bind_raise _ _ _ _ _ E). eexists _, _. split; [reflexivity|].
    destruct Hr as (Hb & Hhd).
    repeat split; try assumption; try lia.
    + grows_tac.
    + intros Hnf Hne. destruct (Hff Hnf Hne) as (x & Hx). discriminate.
Qed.

Lemma except_clause_run e w :
  exists r w',
    ESLintHelper.except_clause env path backup_path initial e w = (r, w')
    /\ spawns w' = spawns w
    /\ grows is_except_event w w'
    /\ match r with
       | Ok counts =>
           counts = (initial, initial) /\ bak w' = None
           /\ match bak w with Some c => file w' = Some c | None => file w' = file w end
       | Raise _ => bak w <> None /\ is_restore_event (hd Spawn (trace w')) = true
       end.
Proof.
  unfold ESLintHelper.except_clause. rewrite bind_print.
  unfold bind at 1. unfold exists_bak. cbn [bak log].
  destruct (bak w) as [c|] eqn:Eb.
  2:{ eexists _, _. split; [reflexivity|]. repeat split; try assumption. grows_tac. }
  unfold bind at 1. rewrite bind_print.
  set (w3 := log (Print MsgRestoringBackup)
                 (log ExistsBak (log (Print (MsgErrorDuringProcessing e)) w))).
  destruct (restore_backup_run env path backup_path w3) as (r4 & w4 & E4 & Hs4 & G4 & Hr4 & _).
  rewrite E4. destruct r4 as [[]|e4].
  - eexists _, _. split; [reflexivity|]. destruct Hr4 as (Hf & Hb & _).
    repeat split; try assumption.
    + unfold w3 in *. grows_tac.
    + rewrite Hf. cbn. exact Eb.
  - eexists _, _. split; [reflexivity|]. destruct Hr4 as (Hb & _ & Hhd).
    repeat split; try assumption.
    + unfold w3 in *. grows_tac.
    + discriminate.
Qed.


Lemma create_backup_run w :
  exists r w',
    ESLintHelper.create_backup env path w = (r, w')
    /\ spawns w' = spawns w /\ file w' = file w
    /\ trace w' = CopyToBak :: trace w
    /\ match r with
       | Ok _ => bak w' = file w /\ file w <> None
       | Raise _ => bak w' = bak w
       end
    /\ ((forall n, fault env n = false) -> file w <> None -> exists p, r = Ok p).
Proof.
  unfold ESLintHelper.create_backup, bind, copy_to_bak.
  destruct (faulty env w) eqn:Ef.
  { eexists _, _. split; [reflexivity|]. repeat split.
    intros Hnf. unfold faulty in Ef. now rewrite Hnf in Ef. }
  destruct (file w) as [c|] eqn:Efile.
  - eexists _, _. split; [reflexivity|]. repeat split; try assumption.
    + discriminate.
    + intros _ _. now eexists.
  - eexists _, _. split; [reflexivity|]. repeat split; try assumption.
    intros _ H. now elim H.
Qed.

(** The four ways a session can go. *)
Lemma session_cases w :
  let initial := List.length (measure (checker env (spawns w) (file w))) in
  exists r w',
    ESLintHelper.clean_file_automatically env self path w = (r, w')
    /\ ((initial = 0 /\ r = Ok (0, 0) /\ file w' = file w /\ bak w' = bak w
         /\ spawns w' = S (spawns w)
         /\ grows (fun e => is_prelude_event e && negb (is_mutation e)) w w')
        \/ (initial <> 0 /\ (exists e, r = Raise e) /\ file w' = file w /\ bak w' = bak w
            /\ spawns w' = S (spawns w) /\ grows is_prelude_event w w'
            /\ ((forall n, fault env n = false) -> file w = None))
        \/ (initial <> 0 /\ exists w5 counts,
               at_try_entry w w5
               /\ ESLintHelper.try_block env self path (path ++ ".bak") initial w5
                  = (Ok counts, w')
               /\ r = Ok counts)
        \/ (initial <> 0 /\ exists w5 e wh,
               at_try_entry w w5
               /\ ESLintHelper.try_block env self path (path ++ ".bak") initial w5
                  = (Raise e, wh)
               /\ ESLintHelper.except_clause env path (path ++ ".bak") initial e wh
                  = (r, w'))).
Proof.
  intros init. unfold ESLintHelper.clean_file_automatically.
  rewrite bind_print.
  set (w1 := log (Print (MsgAutoCleaning path)) w).
  destruct (get_file_errors_step env path w1) as (w2 & E2 & Hf2 & Hb2 & Hs2 & G2).
  rewrite (bind_ok _ _ _ _ _ E2).
  change (measure (checker env (spawns w1) (file w1)))
    with (measure (checker env (spawns w) (file w))) in *.
  fold init. rewrite bind_print.
  set (w3 := log (Print (MsgInitialFileErrors init)) w2).
  destruct (init =? 0) eqn:E0.
  { apply Nat.eqb_eq in E0. rewrite bind_print.
    eexists _, _. split; [reflexivity|]. left.
    repeat split; try assumption.
    unfold w3, w1 in *.
    apply grows_trans with w2; [|do 2 (eapply grows_trans; [|apply grows_log; reflexivity]);
                                  apply grows_refl].
    apply grows_trans with (log (Print (MsgAutoCleaning path)) w);
      [apply grows_log; reflexivity|].
    apply (grows_weaken is_measure_event); [by_cases_on_event|exact G2]. }
  apply Nat.eqb_neq in E0.
  destruct (create_backup_run w3) as (r4 & w4 & E4 & Hs4 & Hf4 & Ht4 & Hr4 & Hff4).
  assert (G4 : grows is_prelude_event w w4).
  { apply grows_trans with w3; [unfold w3, w1 in *; grows_tac|].
    exists [CopyToBak]. now split. }
  destruct r4 as [bp|e].
  2:{ rewrite (bind_raise _ _ _ _ _ E4).
      eexists _, _. split; [reflexivity|]. right. left.
      repeat split; try assumption.
      - now eexists.
      - rewrite Hf4. cbn. exact Hf2.
      - rewrite Hr4. cbn. exact Hb2.
      - rewrite Hs4. cbn. exact Hs2.
      - intros Hnf. destruct (file w) eqn:Efile; [|reflexivity].
        destruct (Hff4 Hnf) as (p & Hp); [|discriminate].
        cbn. rewrite Hf2. cbn. rewrite Efile. discriminate. }
  rewrite (bind_ok _ _ _ _ _ E4), bind_print.
  assert (bp = (path ++ ".bak")%string) as ->.
  { revert E4. unfold ESLintHelper.create_backup, bind, ret.
    destruct (copy_to_bak env w3) as [[[]|] ?]; cbn; congruence. }
  set (w5 := log (Print MsgCreatedBackup) w4).
  destruct Hr4 as (Hb4 & Hne4).
  assert (N5 : occurrences is_spawn (trace w5) = S (occurrences is_spawn (trace w))).
  { unfold w5. rewrite occurrences_log, Ht4. cbn [is_spawn plus].
    change (CopyToBak :: trace w3) with (trace (log CopyToBak w3)).
    rewrite occurrences_log. unfold w3. rewrite occurrences_log. cbn [is_spawn plus].
    destruct (get_file_errors_counts env path w1 _ _ E2) as (-> & _).
    unfold w1. now rewrite occurrences_log. }
  assert (A5 : at_try_entry w w5).
  { unfold at_try_entry. split; [|split; [|split; [|split; [|split]]]];
      [| | | | |exact N5]; unfold w5; cbn.
    - rewrite Hf4. cbn. exact Hf2.
    - rewrite Hb4. cbn. rewrite Hf2. reflexivity.
    - cbn in Hne4. rewrite Hf2 in Hne4. exact Hne4.
    - rewrite Hs4. cbn. exact Hs2.
    - grows_tac. }
  destruct (ESLintHelper.try_block env self path (path ++ ".bak") init w5)
    as [[counts|e] wt] eqn:Et.
  - rewrite (try_ok _ _ _ _ _ Et). eexists _, _. split; [reflexivity|].
    right. right. left. split; [exact E0|]. exists w5, counts. auto.
  - rewrite (try_raise _ _ _ _ _ Et).
    destruct (ESLintHelper.except_clause env path (path ++ ".bak") init e wt)
      as [r w'] eqn:Ex.
    exists r, w'. split; [reflexivity|].
    right. right. right. split; [exact E0|]. exists w5, e, wt. auto.
Qed.

End Session.

(** ** How a session ends *)

Section SessionEnd.
Variable env : Env.
Variable self : ESLintHelper.t.
Variables path backup_path : string.
Variable initial : nat.

Lemma except_clause_raise e w e' w' :
  ESLintHelper.except_clause env path backup_path initial e w = (Raise e', w') ->
  bak w' = bak w.
Proof.
  unfold ESLintHelper.except_clause. rewrite bind_print.
  unfold bind at 1. unfold exists_bak. cbn [bak log].
  destruct (bak w) as [c|] eqn:Eb; [|discriminate].
  unfold bind at 1. rewrite bind_print.
  set (w3 := log (Print MsgRestoringBackup)
                 (log ExistsBak (log (Print (MsgErrorDuringProcessing e)) w))).
  destruct (restore_backup_run env path backup_path w3) as (r4 & w4 & E4 & _ & _ & Hr4 & _).
  rewrite E4. destruct r4 as [[]|e4]; [discriminate|].
  intros [= _ <-]. destruct Hr4 as (Hb & _). rewrite Hb. cbn. exact Eb.
Qed.

End SessionEnd.


(* ================================================================== *)
(** * Part IX. The claims *)
(* ================================================================== *)



(** C4.  A file whose first measurement finds no diagnostic: the session
    answers [(0, 0)] after that one measurement, both the file and the
    backup path are as before, and nothing was written, copied or
    removed. *)
Theorem clean_file_is_left_alone env self path w :
  List.length (measure (checker env (spawns w) (file w))) = 0 ->
  exists w',
    ESLintHelper.clean_file_automatically env self path w = (Ok (0, 0), w')
    /\ file w' = file w /\ bak w' = bak w
    /\ spawns w' = S (spawns w)
    /\ grows (fun e => negb (is_mutation e)) w w'.
Proof.
  intros H0.
  destruct (session_cases env self path w) as (r & w' & E & Hc).
  cbv zeta in Hc. rewrite H0 in Hc.
  destruct Hc as [(_ & -> & Hf & Hb & Hs & G)|[(Hn & _)|[(Hn & _)|(Hn & _)]]];
    try now elim Hn.
  exists w'. repeat split; try assumption.
  apply (grows_weaken (fun e => is_prelude_event e && negb (is_mutation e))); [|exact G].
  intros e He. now apply andb_prop in He.
Qed.

(** C3.  Whatever the checker answers, whatever fails and whatever the
    rule table does, a session runs at most [max_iterations] loop
    iterations and at most [2 * max_iterations + 2] measurements. *)
Theorem session_stays_within_budget env self path w :
  exists r w',
    ESLintHelper.clean_file_automatically env self path w = (r, w')
    /\ occurrences is_iteration (trace w')
       <= occurrences is_iteration (trace w) + ESLintHelper.max_iterations self
    /\ spawns w' <= spawns w + 2 * ESLintHelper.max_iterations self + 2.
Proof.
  destruct (session_cases env self path w) as (r & w' & E & Hc).
  exists r, w'. split; [exact E|]. cbv zeta in Hc.
  set (initial := List.length (measure (checker env (spawns w) (file w)))) in *.
  assert (Hp : forall e, is_prelude_event e = true -> is_iteration e = false)
    by by_cases_on_event.
  destruct Hc as [(_ & _ & _ & _ & Hs & G)
                 |[(_ & _ & _ & _ & Hs & G & _)
                  |[(_ & w5 & counts & A & Et & _)
                   |(_ & w5 & e & wh & A & Et & Ex)]]].
  - split; [|lia].
    rewrite (grows_occurrences is_iteration
               (fun e => is_prelude_event e && negb (is_mutation e)) w w'); [lia| |exact G].
    intros e He. apply andb_prop in He. now apply Hp.
  - split; [|lia].
    rewrite (grows_occurrences is_iteration is_prelude_event w w' Hp G). lia.
  - destruct A as (_ & _ & _ & S5 & G5 & _).
    destruct (try_block_run env self path (path ++ ".bak") initial w5)
      as (r1 & w1 & E1 & Hs1 & _ & Hi1 & _).
    rewrite Et in E1. injection E1 as <- <-.
    rewrite (grows_occurrences is_iteration is_prelude_event w w5 Hp G5) in Hi1. lia.
  - destruct A as (_ & _ & _ & S5 & G5 & _).
    destruct (try_block_run env self path (path ++ ".bak") initial w5)
      as (r1 & w1 & E1 & Hs1 & _ & Hi1 & _).
    rewrite Et in E1. injection E1 as <- <-.
    destruct (except_clause_run env path (path ++ ".bak") initial e wh)
      as (r2 & w2 & E2 & Hs2 & G2 & _).
    rewrite Ex in E2. injection E2 as <- <-.
    rewrite (grows_occurrences is_iteration is_prelude_event w w5 Hp G5) in Hi1.
    rewrite (grows_occurrences is_iteration is_except_event wh w'
               ltac:(by_cases_on_event) G2).
    lia.
Qed.

(** The invariant the loop is written for.  When the checker's verdict
    is a function of the file content and no file operation fails, a
    session on any file, with any rule table, returns
    [(initial, final)] where [initial] is the diagnostic count of the
    file as found, [final] is the diagnostic count of the file as left,
    and [final <= initial].  A write that fails breaks it. *)
Lemma no_regression_without_failures lint sep self path c b n tr :
  let env := MkEnv (fun _ => lint) (fun _ => false) sep in
  let count f := List.length (measure (lint f)) in
  exists final w',
    ESLintHelper.clean_file_automatically env self path (MkWorld (Some c) b n tr)
    = (Ok (count (Some c), final), w')
    /\ final = count (file w')
    /\ count (file w') <= count (Some c).
Proof.
  intros env count.
  set (w := MkWorld (Some c) b n tr).
  assert (Hnf : forall k, fault env k = false) by reflexivity.
  destruct (session_cases env self path w) as (r & w' & E & Hc).
  cbv zeta in Hc.
  change (List.length (measure (checker env (spawns w) (file w))))
    with (count (Some c)) in Hc.
  destruct Hc as [(H0 & -> & Hf & _)
                 |[(_ & _ & _ & _ & _ & _ & Habs)
                  |[(_ & w5 & counts & A & Et & ->)
                   |(_ & w5 & e & wh & A & Et & _)]]].
  - exists 0, w'. rewrite H0 in *. rewrite E, Hf. cbn. rewrite H0. auto.
  - discriminate (Habs Hnf).
  - destruct A as (F5 & B5 & _ & _ & _ & _). cbn in F5, B5.
    unfold ESLintHelper.try_block in Et.
    destruct (while_loop_keeps_count lint sep self path (path ++ ".bak") (count (Some c))
                (ESLintHelper.max_iterations self) 0 w5)
      as (x & w6 & E6 & Hx).
    { rewrite F5. discriminate. }
    { rewrite B5. discriminate. }
    { rewrite F5. apply le_n. }
    fold env in E6.
    destruct (while_loop_run env self path (path ++ ".bak") (count (Some c))
                (ESLintHelper.max_iterations self) 0 w5)
      as (r7 & w7 & E7 & _ & _ & _ & Hr7 & _).
    rewrite E6 in E7. injection E7 as <- <-.
    rewrite (bind_ok _ _ _ _ _ E6) in Et.
    destruct x as [p|it].
    + destruct Hr7 as (-> & Hf6 & _). injection Et as <- <-.
      exists (count (Some c)), w6. rewrite E, Hf6, B5. auto.
    + destruct Hx as (_ & Hle).
      destruct (final_results_run env self path (count (Some c)) it w6)
        as (r8 & w8 & E8 & _ & Hf8 & _ & Hr8 & _).
      rewrite Et in E8. injection E8 as <- <-.
      destruct Hr8 as (-> & _).
      exists (List.length (measure (checker env (spawns w6) (file w6)))), w'.
      rewrite E, Hf8. auto.
  - destruct A as (_ & B5 & _ & _ & _ & _). cbn in B5.
    destruct (try_block_run env self path (path ++ ".bak") (count (Some c)) w5)
      as (r1 & w1 & E1 & _ & _ & _ & _ & Hff).
    rewrite Et in E1. injection E1 as <- <-.
    destruct (Hff Hnf) as (p & Hp); [rewrite B5|]; discriminate.
Qed.



(** ** The adapters *)





(** C10.  A diagnostic whose line number lies outside [1..len(lines)]:
    the loop body of [fix_parsing_errors] leaves the lines as they are,
    logs nothing and raises nothing. *)
Theorem out_of_range_line_is_skipped lines error n w :
  ESLintAutomation.line error = ESLintAutomation.JInt n ->
  (n < 1 \/ Z.of_nat (List.length lines) < n)%Z ->
  ESLintAutomation.fix_error lines error w = (Ok lines, w).
Proof.
  intros Hl Hr. unfold ESLintAutomation.fix_error. rewrite Hl.
  cbn [ESLintAutomation.py_minus_one]. rewrite bind_ret.
  assert ((0 <=? n - 1)%Z && (n - 1 <? Z.of_nat (List.length lines))%Z = false) as ->.
  { apply andb_false_iff. destruct Hr; [left; apply Z.leb_gt|right; apply Z.ltb_ge]; lia. }
  reflexivity.
Qed.

(** ** Rewrite steps that change nothing *)

Lemma apply_fix_run entry content w :
  exists evs,
    ESLintAutomation.apply_fix entry content w
    = (Ok (common_fix_result entry content),
       MkWorld (file w) (bak w) (spawns w) (evs ++ trace w))
    /\ forallb is_common_event evs = true.
Proof.
  unfold ESLintAutomation.apply_fix, common_fix_result. destruct entry as [pattern fix_func].
  cbn [fst snd].
  destruct (PyRe.re_finditer (PyRe.re_compile pattern) content) as [|m ms].
  - exists []. destruct w. now split.
  - exists [Print (MsgApplyingFix pattern)]. now split.
Qed.

Lemma apply_fixes_no_change fixes content w :
  (forall entry, In entry fixes -> common_fix_result entry content = content) ->
  exists evs,
    ESLintAutomation.apply_fixes fixes content w
    = (Ok content, MkWorld (file w) (bak w) (spawns w) (evs ++ trace w))
    /\ forallb is_common_event evs = true.
Proof.
  revert w. induction fixes as [|entry rest IH]; intros w H;
    cbn [ESLintAutomation.apply_fixes].
  - exists []. destruct w. now split.
  - destruct (apply_fix_run entry content w) as (evs1 & E1 & F1).
    rewrite (bind_ok _ _ _ _ _ E1), (H entry (or_introl eq_refl)).
    destruct (IH (MkWorld (file w) (bak w) (spawns w) (evs1 ++ trace w))) as (evs2 & E2 & F2).
    { intros e He. apply H. now right. }
    exists (evs2 ++ evs1). rewrite E2. cbn. split.
    + now rewrite app_assoc.
    + rewrite forallb_app. now rewrite F1, F2.
Qed.

Lemma apply_common_fixes_no_change env path w :
  (forall c, file w = Some c ->
     forall entry, In entry ESLintAutomation.common_fixes ->
       common_fix_result entry (PyStr.universal_newlines c) = PyStr.universal_newlines c) ->
  exists w',
    ESLintAutomation.apply_common_fixes env path w = (Ok false, w')
    /\ file w' = file w /\ bak w' = bak w
    /\ grows is_common_event w w'.
Proof.
  intros H. unfold ESLintAutomation.apply_common_fixes, ESLintAutomation.read_file.
  unfold bind at 1, try_except, bind at 1, read_text.
  destruct (faulty env w).
  { eexists. split; [reflexivity|]. repeat split. exists [Print (MsgErrorReading OSError); OpenRead].
    now split. }
  destruct (file w) as [c|] eqn:Efile.
  2:{ eexists. split; [reflexivity|]. repeat split; cbn; try now rewrite Efile.
      exists [Print (MsgErrorReading OSError); OpenRead]. now split. }
  cbv [ret ESLintAutomation.falsy].
  destruct (PyStr.universal_newlines c =? "")%string.
  { eexists. split; [reflexivity|]. repeat split; cbn; try now rewrite Efile.
    exists [OpenRead]. now split. }
  destruct (apply_fixes_no_change ESLintAutomation.common_fixes (PyStr.universal_newlines c)
              (log OpenRead w) (H c eq_refl)) as (evs & E & F).
  rewrite (bind_ok _ _ _ _ _ E), String.eqb_refl. cbn [negb].
  eexists. split; [reflexivity|]. repeat split; cbn; try now rewrite Efile.
  exists (evs ++ [OpenRead]). split.
  - now rewrite <- app_assoc.
  - rewrite forallb_app, F. reflexivity.
Qed.

Lemma apply_parsing_fixes_unchanged env self path errors w c :
  file w = Some c ->
  no_rule_changes (ESLintHelper.parsing_fixes self) errors (PyStr.universal_newlines c) ->
  exists w',
    ESLintHelper.apply_parsing_fixes env self path errors w = (Ok false, w')
    /\ file w' = Some c /\ bak w' = bak w
    /\ grows (fun e => negb (is_mutation e)) w w'.
Proof.
  intros Hfile H.
  destruct (apply_parsing_fixes_no_change env self path errors w)
    as (w' & evs & E & Hf & Hb & Ht & Hm).
  { intros c' Hc'. rewrite Hfile in Hc'. now injection Hc' as <-. }
  exists w'. repeat split; try assumption; [congruence|].
  exists (evs ++ [OpenRead]). split.
  - now rewrite Ht, <- app_assoc.
  - rewrite forallb_app. cbn. rewrite andb_true_r.
    apply forallb_forall. intros e He.
    destruct (is_mutation e) eqn:Em; [|reflexivity].
    assert (existsb is_mutation evs = true) by (apply existsb_exists; eauto).
    congruence.
Qed.

(** C9.  No write when no rule changes anything.  If the
    message-specific fix changes none of the lines the diagnostics point
    at and no entry of the rule table changes the text,
    [apply_parsing_fixes] answers [False] and neither opens the file for
    writing nor touches any file; likewise [apply_common_fixes] when no
    entry of [common_fixes] changes the text. *)
Theorem no_write_without_a_change env self path errors w c :
  file w = Some c ->
  (no_rule_changes (ESLintHelper.parsing_fixes self) errors (PyStr.universal_newlines c) ->
   exists w',
     ESLintHelper.apply_parsing_fixes env self path errors w = (Ok false, w')
     /\ file w' = Some c /\ bak w' = bak w
     /\ grows (fun e => negb (is_mutation e)) w w')
  /\ ((forall entry, In entry ESLintAutomation.common_fixes ->
         common_fix_result entry (PyStr.universal_newlines c) = PyStr.universal_newlines c) ->
      exists w',
        ESLintAutomation.apply_common_fixes env path w = (Ok false, w')
        /\ file w' = Some c /\ bak w' = bak w
        /\ grows (fun e => negb (is_mutation e)) w w').
Proof.
  intros Hfile. split.
  - now apply apply_parsing_fixes_unchanged.
  - intros H.
    destruct (apply_common_fixes_no_change env path w) as (w' & E & Hf & Hb & G).
    { intros c' Hc'. rewrite Hfile in Hc'. now injection Hc' as <-. }
    exists w'. repeat split; try assumption; [congruence|].
    apply (grows_weaken is_common_event); [by_cases_on_event|exact G].
Qed.

(** The loop over the diagnostics reads nothing from the world: its
    result is the same wherever it runs. *)
Lemma fix_error_lines_uniform :
  forall errors lines changes w w',
    fst (ESLintHelper.fix_error_lines errors lines changes w)
    = fst (ESLintHelper.fix_error_lines errors lines changes w').
Proof.
  induction errors as [|error rest IH]; intros lines changes w w';
    cbn [ESLintHelper.fix_error_lines]; [reflexivity|].
  destruct (negb (PyStr.contains "Parsing error" (ESLintHelper.message error)));
    [apply IH|].
  destruct (Z.of_nat (List.length lines) <=? ESLintHelper.line error - 1)%Z; [apply IH|].
  unfold getitem, setitem.
  destruct (norm_index lines (ESLintHelper.line error - 1)) as [k|]; [|reflexivity].
  destruct (nth_error lines k) as [original|]; [|reflexivity].
  rewrite !bind_ret.
  destruct (negb (ESLintHelper.fix_line (ESLintHelper.message error) original =? original)%string).
  - rewrite !bind_ret, !bind_print. apply IH.
  - apply IH.
Qed.

Lemma apply_parsing_fixes_missing env self path errors w :
  (forall n, fault env n = false) ->
  file w = None ->
  ESLintHelper.apply_parsing_fixes env self path errors w
  = (Ok false, log (Print (MsgErrorApplyingFixes OSError)) (log OpenRead w)).
Proof.
  intros Hnf Hfile.
  unfold ESLintHelper.apply_parsing_fixes, try_except.
  unfold bind at 1. unfold read_text, faulty. now rewrite Hnf, Hfile.
Qed.

Lemma apply_parsing_fixes_present env self path errors w c r w1 :
  (forall n, fault env n = false) ->
  file w = Some c ->
  ESLintHelper.fix_error_lines errors (PyStr.lines_keepends (PyStr.universal_newlines c))
    false (log OpenRead w) = (r, w1) ->
  ESLintHelper.apply_parsing_fixes env self path errors w
  = match r with
    | Raise e => (Ok false, log (Print (MsgErrorApplyingFixes e)) w1)
    | Ok (lines, changes) =>
        match ESLintHelper.apply_general_fixes (ESLintHelper.parsing_fixes self)
                (PyStr.concat lines) changes with
        | (content, true) =>
            (Ok true,
             set_file (Some (PyStr.replace (String PyStr.nl EmptyString) (linesep env) content))
               (log (Write content) (set_file (Some EmptyString) (log OpenWrite w1))))
        | (_, false) => (Ok false, w1)
        end
    end.
Proof.
  intros Hnf Hfile E.
  unfold ESLintHelper.apply_parsing_fixes, try_except.
  unfold bind at 1. unfold read_text, faulty. rewrite Hnf, Hfile.
  unfold bind at 1. rewrite E.
  destruct r as [[lines changes]|e]; [|reflexivity].
  destruct (ESLintHelper.apply_general_fixes (ESLintHelper.parsing_fixes self)
              (PyStr.concat lines) changes) as [content changes'].
  destruct changes'; [|reflexivity].
  unfold bind, write_text, faulty. now rewrite !Hnf.
Qed.

(** When no file operation fails, what the rewrite step answers and
    what it leaves in the file depend on the content of the file only;
    and a step that answers [False] has not opened the file for
    writing. *)
Lemma apply_parsing_fixes_pure env self path errors w w0 :
  (forall n, fault env n = false) ->
  file w = file w0 ->
  exists b w' w0',
    ESLintHelper.apply_parsing_fixes env self path errors w = (Ok b, w')
    /\ ESLintHelper.apply_parsing_fixes env self path errors w0 = (Ok b, w0')
    /\ file w' = file w0'
    /\ (b = false ->
        file w' = file w /\ bak w' = bak w
        /\ grows (fun e => negb (is_mutation e)) w w').
Proof.
  intros Hnf Hfile.
  destruct (file w) as [c|] eqn:Efile.
  2:{ rewrite (apply_parsing_fixes_missing env self path errors w Hnf Efile),
        (apply_parsing_fixes_missing env self path errors w0 Hnf (eq_sym Hfile)).
      do 3 eexists. split; [reflexivity|]. split; [reflexivity|].
      split; [cbn; congruence|]. intros _.
      split; [cbn; congruence|]. split; [reflexivity|].
      exists [Print (MsgErrorApplyingFixes OSError); OpenRead]. now split. }
  pose proof (fix_error_lines_uniform errors
                (PyStr.lines_keepends (PyStr.universal_newlines c)) false
                (log OpenRead w) (log OpenRead w0)) as Hu.
  destruct (fix_error_lines_run errors (PyStr.lines_keepends (PyStr.universal_newlines c))
              false (log OpenRead w)) as (r & evs & E & F).
  destruct (fix_error_lines_run errors (PyStr.lines_keepends (PyStr.universal_newlines c))
              false (log OpenRead w0)) as (r0 & evs0 & E0 & _).
  rewrite E, E0 in Hu. cbn [fst] in Hu. subst r0.
  rewrite (apply_parsing_fixes_present env self path errors w c _ _ Hnf Efile E),
    (apply_parsing_fixes_present env self path errors w0 c _ _ Hnf (eq_sym Hfile) E0).
  cbn [file bak spawns trace log] in *.
  assert (G : grows (fun e => negb (is_mutation e)) w
                (MkWorld (file w) (bak w) (spawns w) (evs ++ OpenRead :: trace w))).
  { exists (evs ++ [OpenRead]). cbn. split; [now rewrite <- app_assoc|].
    rewrite forallb_app. cbn. rewrite andb_true_r.
    rewrite forallb_forall in *. intros e He. specialize (F e He).
    destruct e as [| | | | | | | |[]]; try discriminate; reflexivity. }
  destruct r as [[lines changes]|e].
  2:{ do 3 eexists. split; [reflexivity|]. split; [reflexivity|].
      split; [cbn; congruence|]. intros _.
      split; [cbn; congruence|]. split; [reflexivity|].
      apply grows_trans with (1 := G). now apply grows_log. }
  destruct (ESLintHelper.apply_general_fixes (ESLintHelper.parsing_fixes self)
              (PyStr.concat lines) changes) as [content changes'].
  destruct changes'.
  2:{ do 3 eexists. split; [reflexivity|]. split; [reflexivity|].
      split; [cbn; congruence|]. intros _.
      split; [cbn; congruence|]. split; [reflexivity|exact G]. }
  do 3 eexists. split; [reflexivity|]. split; [reflexivity|].
  split; [reflexivity|]. discriminate.
Qed.

(** C5, as amended.  Idempotence of the rewrite step.  Two calls of
    [apply_parsing_fixes] in succession with the same diagnostics:
    if no rule matches the content the first call left, the second
    answers [False], and leaves the content and the backup as they are
    without opening the file for writing; and when no file operation
    fails and the first call answered [False], so does the second, and
    neither call has touched the file or the backup.  (That the first
    call leaves such content is a premise, and not a property of the
    rule table.) *)
Theorem rewrite_step_is_idempotent env self path errors w :
  let first := ESLintHelper.apply_parsing_fixes env self path errors w in
  let w1 := snd first in
  (forall c1,
      file w1 = Some c1 ->
      no_rule_matches (ESLintHelper.parsing_fixes self) errors (PyStr.universal_newlines c1) ->
      exists w2,
        ESLintHelper.apply_parsing_fixes env self path errors w1 = (Ok false, w2)
        /\ file w2 = Some c1 /\ bak w2 = bak w1
        /\ grows (fun e => negb (is_mutation e)) w1 w2)
  /\ ((forall n, fault env n = false) ->
      fst first = Ok false ->
      exists w2,
        ESLintHelper.apply_parsing_fixes env self path errors w1 = (Ok false, w2)
        /\ file w2 = file w /\ bak w2 = bak w
        /\ grows (fun e => negb (is_mutation e)) w w2).
Proof.
  intros first w1. split.
  - intros c1 Hfile Hno.
    apply (apply_parsing_fixes_unchanged env self path errors w1 c1 Hfile).
    now apply no_rule_matches_changes.
  - intros Hnf Hfalse.
    destruct (apply_parsing_fixes_pure env self path errors w w Hnf eq_refl)
      as (b & w' & _ & E & _ & _ & Hq).
    unfold w1, first in *. rewrite E in *. cbn [fst snd] in *.
    injection Hfalse as ->. destruct (Hq eq_refl) as (Hf & Hb & G).
    destruct (apply_parsing_fixes_pure env self path errors w w' Hnf (eq_sym Hf))
      as (b2 & v & w2 & E1 & E2 & _ & _).
    rewrite E in E1. injection E1 as <- <-.
    destruct (apply_parsing_fixes_pure env self path errors w' w' Hnf eq_refl)
      as (b3 & w3 & _ & E3 & _ & _ & Hq3).
    rewrite E2 in E3. injection E3 as <- <-.
    destruct (Hq3 eq_refl) as (Hf2 & Hb2 & G2).
    exists w2. split; [exact E2|]. split; [congruence|]. split; [congruence|].
    exact (grows_trans _ _ _ _ G G2).
Qed.

(** ** Measurements before the first rewrite *)

Lemma occurrences_rev P tr : occurrences P (rev tr) = occurrences P tr.
Proof.
  induction tr as [|e tr IH]; [reflexivity|].
  cbn [rev]. rewrite occurrences_app, IH. unfold occurrences. cbn.
  destruct (P e); cbn; lia.
Qed.

Lemma spawns_until_read_none chronological seen :
  occurrences is_read chronological = 0 -> spawns_until_read chronological seen = None.
Proof.
  revert seen. induction chronological as [|e rest IH]; intros seen H; [reflexivity|].
  unfold occurrences in *.
  destruct e; cbn in *; try discriminate; auto.
Qed.

Lemma spawns_until_read_found before after seen :
  occurrences is_read before = 0 ->
  spawns_until_read (before ++ OpenRead :: after) seen
  = Some (seen + occurrences is_spawn before).
Proof.
  revert seen. induction before as [|e rest IH]; intros seen H.
  - cbn. f_equal. unfold occurrences. cbn. lia.
  - unfold occurrences in *.
    destruct e; cbn in *; try discriminate; rewrite IH by assumption; f_equal; lia.
Qed.

Lemma first_read_measurements k tr :
  first_read k tr ->
  measurements_before_rewrite tr = None \/ measurements_before_rewrite tr = Some k.
Proof.
  unfold measurements_before_rewrite. intros [H|(post & pre & -> & Hr & Hs)].
  - left. apply spawns_until_read_none. now rewrite occurrences_rev.
  - right. rewrite rev_app_distr. cbn [rev]. rewrite <- app_assoc. cbn [app].
    rewrite spawns_until_read_found by now rewrite occurrences_rev.
    now rewrite occurrences_rev, Hs.
Qed.

Lemma first_read_grows (P : event -> bool) k w w' :
  (forall e, P e = true -> is_read e = false) ->
  grows P w w' -> first_read k (trace w) -> first_read k (trace w').
Proof.
  intros HP G [H|(post & pre & Ht & Hr & Hs)].
  - left. now rewrite (grows_occurrences is_read P w w' HP G).
  - right. destruct G as (evs & Hevs & _).
    exists (evs ++ post), pre. rewrite Hevs, Ht, app_assoc. auto.
Qed.

Lemma first_read_later k w w' P :
  grows P w w' ->
  (exists post pre, trace w = post ++ OpenRead :: pre
                    /\ occurrences is_read pre = 0 /\ occurrences is_spawn pre = k) ->
  first_read k (trace w').
Proof.
  intros (evs & Hevs & _) (post & pre & Ht & Hr & Hs). right.
  exists (evs ++ post), pre. rewrite Hevs, Ht, app_assoc. auto.
Qed.

(** In the loop, the first read of the file comes after exactly one
    more measurement. *)
Lemma while_loop_first_read env self path backup_path initial remaining iteration w r w' :
  occurrences is_read (trace w) = 0 ->
  ESLintHelper.while_loop env self path backup_path initial remaining iteration w = (r, w') ->
  first_read (S (occurrences is_spawn (trace w))) (trace w').
Proof.
  intros Hr0. destruct remaining as [|remaining]; cbn [ESLintHelper.while_loop].
  { intros [= <- <-]. now left. }
  rewrite bind_print.
  set (w1 := log (Print (MsgIteration (S iteration))) w).
  destruct (get_file_errors_step env path w1) as (w2 & E2 & _ & _ & _ & G2).
  destruct (get_file_errors_counts env path w1 _ _ E2) as (N2 & R2).
  rewrite (bind_ok _ _ _ _ _ E2).
  set (current := measure (checker env (spawns w1) (file w1))) in *.
  assert (R1 : occurrences is_read (trace w2) = 0)
    by (rewrite R2; unfold w1; now rewrite occurrences_log).
  assert (N1 : occurrences is_spawn (trace w2) = S (occurrences is_spawn (trace w)))
    by (rewrite N2; unfold w1; now rewrite occurrences_log).
  destruct (List.length current =? 0).
  { rewrite bind_print. intros [= <- <-]. left. now rewrite occurrences_log. }
  destruct (initial <? List.length current).
  { rewrite !bind_print.
    set (w3 := log (Print MsgRevertingChanges)
                   (log (Print (MsgErrorCountIncreased initial (List.length current))) w2)).
    destruct (restore_backup_run env path backup_path w3) as (r4 & w4 & E4 & _ & G4 & _).
    assert (occurrences is_read (trace w4) = 0).
    { rewrite (grows_occurrences is_read is_restore_event w3 w4 ltac:(by_cases_on_event) G4).
      unfold w3. now rewrite !occurrences_log. }
    unfold bind. rewrite E4. destruct r4; intros [= <- <-]; now left. }
  rewrite bind_print.
  set (w3 := log (Print (MsgFileHasErrors (List.length current))) w2).
  destruct (print_errors_step (firstn 3 current) w3) as (w4 & E4 & _ & _ & _ & G4).
  rewrite (bind_ok _ _ _ _ _ E4).
  assert (exists w5, (if 3 <? List.length current
                      then print (MsgAndMore (List.length current - 3)) else ret tt) w4
                     = (Ok tt, w5)
                     /\ grows is_quiet w4 w5) as (w5 & E5 & G5).
  { destruct (3 <? List.length current); eexists; (split; [reflexivity|]).
    - now apply grows_log.
    - apply grows_refl. }
  rewrite (bind_ok _ _ _ _ _ E5).
  pose (listing := fun e => is_quiet e && negb (is_read e) && negb (is_spawn e)).
  assert (G25 : grows listing w2 w5).
  { unfold w3 in *.
    apply grows_trans with w4.
    - apply grows_trans with (log (Print (MsgFileHasErrors (List.length current))) w2);
        [apply grows_log; reflexivity|].
      apply (grows_weaken is_listing); [by_cases_on_event|exact G4].
    - destruct (3 <? List.length current); injection E5 as <-;
        [apply grows_log; reflexivity|apply grows_refl]. }
  assert (R5 : occurrences is_read (trace w5) = 0).
  { rewrite (grows_occurrences is_read listing w2 w5 ltac:(by_cases_on_event) G25).
    exact R1. }
  assert (N5 : occurrences is_spawn (trace w5) = S (occurrences is_spawn (trace w))).
  { rewrite (grows_occurrences is_spawn listing w2 w5 ltac:(by_cases_on_event) G25).
    exact N1. }
  destruct (apply_parsing_fixes_run env self path current w5)
    as (changed & w6 & evs & E6 & _ & _ & Ht6 & _).
  rewrite (bind_ok _ _ _ _ _ E6).
  assert (Found : exists post pre,
             trace w6 = post ++ OpenRead :: pre
             /\ occurrences is_read pre = 0
             /\ occurrences is_spawn pre = S (occurrences is_spawn (trace w)))
    by (exists evs, (trace w5); auto).
  destruct changed; cbn [negb].
  2:{ rewrite bind_print. intros [= <- <-].
      apply (first_read_later _ w6 _ (fun _ => true)); [|exact Found].
      now apply grows_log. }
  rewrite bind_print.
  set (w7 := log (Print MsgAppliedFixes) w6).
  destruct (get_file_errors_step env path w7) as (w8 & E8 & _ & _ & _ & G8).
  rewrite (bind_ok _ _ _ _ _ E8).
  assert (G68 : grows (fun _ => true) w6 w8).
  { apply grows_trans with w7; [now apply grows_log|exact (grows_any _ _ _ G8)]. }
  set (post := measure (checker env (spawns w7) (file w7))) in *.
  destruct (List.length current <? List.length post).
  { rewrite !bind_print.
    set (w9 := log (Print MsgRevertingIteration)
                   (log (Print (MsgFixesCreatedMoreErrors (List.length current)
                                                          (List.length post))) w8)).
    destruct (restore_backup_run env path backup_path w9) as (r10 & w10 & E10 & _ & G10 & _).
    assert (G8' : grows (fun _ => true) w8 w10).
    { apply grows_trans with w9; [|exact (grows_any _ _ _ G10)].
      unfold w9. do 2 (eapply grows_trans; [|now apply grows_log]). apply grows_refl. }
    unfold bind. rewrite E10.
    destruct r10; intros [= <- <-];
      apply (first_read_later _ w6 _ (fun _ => true)); try exact Found;
      exact (grows_trans _ _ _ _ G68 G8'). }
  intros El.
  destruct (while_loop_run env self path backup_path initial remaining (S iteration) w8)
    as (r9 & w9 & E9 & _ & G9 & _).
  rewrite El in E9. injection E9 as <- <-.
  apply (first_read_later _ w6 _ (fun _ => true)); [|exact Found].
  exact (grows_trans _ _ _ _ G68 (grows_any _ _ _ G9)).
Qed.

(** In any session that reaches a rewrite step, exactly two
    measurements (the initial one and the one that opens the first
    iteration) precede the first rewrite. *)
Lemma first_rewrite_follows_two_measurements env self path f b n :
  let run := ESLintHelper.clean_file_automatically env self path (MkWorld f b n []) in
  measurements_before_rewrite (trace (snd run)) = None
  \/ measurements_before_rewrite (trace (snd run)) = Some 2.
Proof.
  intros run. apply first_read_measurements.
  set (w := MkWorld f b n []) in *.
  assert (Hp : forall e, is_prelude_event e = true -> is_read e = false)
    by by_cases_on_event.
  destruct (session_cases env self path w) as (r & w' & E & Hc).
  unfold run. rewrite E. cbn [snd]. cbv zeta in Hc.
  set (initial := List.length (measure (checker env (spawns w) (file w)))) in *.
  assert (Htry : forall w5 r5 w6,
             at_try_entry w w5 ->
             ESLintHelper.try_block env self path (path ++ ".bak") initial w5 = (r5, w6) ->
             first_read 2 (trace w6)).
  { intros w5 r5 w6 (_ & _ & _ & _ & G5 & N5) Et.
    assert (R5 : occurrences is_read (trace w5) = 0)
      by now rewrite (grows_occurrences is_read is_prelude_event w w5 Hp G5).
    unfold ESLintHelper.try_block, bind in Et.
    destruct (ESLintHelper.while_loop env self path (path ++ ".bak") initial
                (ESLintHelper.max_iterations self) 0 w5) as [[[counts|it]|e] w7] eqn:El;
      pose proof (while_loop_first_read env self path _ initial _ 0 w5 _ _ R5 El) as F;
      rewrite N5 in F; cbn in F.
    - now injection Et as <- <-.
    - destruct (final_results_run env self path initial it w7) as (r8 & w8 & E8 & _ & _ & G8 & _).
      rewrite Et in E8. injection E8 as <- <-.
      apply (first_read_grows is_final_event 2 w7 w6); [by_cases_on_event|exact G8|exact F].
    - now injection Et as <- <-. }
  destruct Hc as [(_ & _ & _ & _ & _ & G)
                 |[(_ & _ & _ & _ & _ & G & _)
                  |[(_ & w5 & counts & A & Et & _)
                   |(_ & w5 & e & wh & A & Et & Ex)]]].
  - left.
    rewrite (grows_occurrences is_read
               (fun e => is_prelude_event e && negb (is_mutation e)) w w'); [reflexivity| |exact G].
    intros e He. apply andb_prop in He. now apply Hp.
  - left. now rewrite (grows_occurrences is_read is_prelude_event w w' Hp G).
  - exact (Htry w5 _ _ A Et).
  - destruct (except_clause_run env path (path ++ ".bak") initial e wh)
      as (r2 & w2 & E2 & _ & G2 & _).
    rewrite Ex in E2. injection E2 as <- <-.
    apply (first_read_grows is_except_event 2 wh w'); [by_cases_on_event|exact G2|].
    exact (Htry w5 _ _ A Et).
Qed.

(** ** Every iteration measures *)

Lemma in_no_occurrence (P : event -> bool) e evs :
  occurrences P evs = 0 -> In e evs -> P e = false.
Proof.
  unfold occurrences. induction evs as [|a evs IH]; intros H []; cbn in H.
  - subst a. destruct (P e); [discriminate|reflexivity].
  - apply IH; [|assumption]. destruct (P a); [discriminate|exact H].
Qed.

Lemma each_iteration_measures_nil : each_iteration_measures [].
Proof. intros [|e post] i pre H; discriminate. Qed.

Lemma each_iteration_measures_quiet evs tr :
  occurrences is_iteration evs = 0 ->
  each_iteration_measures tr -> each_iteration_measures (evs ++ tr).
Proof.
  intros Hq Htr post i pre H.
  apply app_eq_app in H as (l & [(He & Hl)|(Hp & Hl)]).
  - destruct l as [|e l].
    + cbn in Hl. destruct (Htr [] i pre (eq_sym Hl)) as ([|] & Habs); discriminate.
    + injection Hl as <- _. exfalso.
      assert (Hin : In (Print (MsgIteration i)) evs)
        by (rewrite He; apply in_or_app; right; now left).
      pose proof (in_no_occurrence is_iteration _ _ Hq Hin). discriminate.
  - destruct (Htr l i pre Hl) as (l' & ->). exists (evs ++ l').
    now rewrite Hp, app_assoc.
Qed.

Lemma each_iteration_measures_step evs i tr :
  occurrences is_iteration evs = 0 ->
  each_iteration_measures tr ->
  each_iteration_measures (evs ++ Spawn :: Print (MsgIteration i) :: tr).
Proof.
  intros Hq Htr post j pre H.
  change (evs ++ Spawn :: Print (MsgIteration i) :: tr)
    with (evs ++ [Spawn] ++ Print (MsgIteration i) :: tr) in H.
  rewrite app_assoc in H.
  apply app_eq_app in H as (l & [(He & Hl)|(Hp & Hl)]).
  - destruct l as [|e l].
    + rewrite app_nil_r in He. now exists evs.
    + injection Hl as <- _. exfalso.
      assert (Hin : In (Print (MsgIteration j)) (evs ++ [Spawn]))
        by (rewrite He; apply in_or_app; right; now left).
      apply in_app_or in Hin as [Hin|[Hin|[]]]; [|discriminate].
      pose proof (in_no_occurrence is_iteration _ _ Hq Hin). discriminate.
  - destruct l as [|e l].
    + rewrite app_nil_r in Hp. now exists evs.
    + injection Hl as <- Hl. destruct (Htr l j pre Hl) as (l' & ->).
      exists ((evs ++ [Spawn]) ++ Print (MsgIteration i) :: l').
      rewrite Hp, <- !app_assoc. reflexivity.
Qed.

Lemma each_iteration_measures_grows (P : event -> bool) w w' :
  (forall e, P e = true -> is_iteration e = false) ->
  grows P w w' ->
  each_iteration_measures (trace w) -> each_iteration_measures (trace w').
Proof.
  intros HP (evs & -> & F). apply each_iteration_measures_quiet.
  exact (occurrences_none is_iteration P evs HP F).
Qed.

(** The boolean reading, on the trace in the order of time. *)
Lemma iterations_measure_chronological l :
  (forall pre i post, l = pre ++ Print (MsgIteration i) :: post ->
                      exists post', post = Spawn :: post') ->
  iterations_measure l = true.
Proof.
  induction l as [|e l IH]; intros H; [reflexivity|].
  assert (Hl : forall pre i post, l = pre ++ Print (MsgIteration i) :: post ->
                                  exists post', post = Spawn :: post').
  { intros pre i post ->. exact (H (e :: pre) i post eq_refl). }
  specialize (IH Hl).
  destruct e as [| | | | | | | |m]; try exact IH.
  destruct m; try exact IH.
  destruct (H [] i l eq_refl) as (post' & ->). exact IH.
Qed.

Lemma each_iteration_measures_bool tr :
  each_iteration_measures tr -> iterations_measure (rev tr) = true.
Proof.
  intros H. apply iterations_measure_chronological. intros pre i post Hl.
  apply (f_equal (@rev event)) in Hl. rewrite rev_involutive, rev_app_distr in Hl.
  cbn [rev] in Hl. rewrite <- app_assoc in Hl. cbn [app] in Hl.
  destruct (H _ _ _ Hl) as (post' & Hp).
  apply (f_equal (@rev event)) in Hp. rewrite rev_involutive, rev_app_distr in Hp.
  now exists (rev post').
Qed.

Section IterationsMeasure.
Variable env : Env.
Variable self : ESLintHelper.t.
Variables path backup_path : string.
Variable initial : nat.

Let silent (e : event) : bool := negb (is_iteration e).

Lemma while_loop_measures :
  forall remaining iteration w,
    each_iteration_measures (trace w) ->
    each_iteration_measures
      (trace (snd (ESLintHelper.while_loop env self path backup_path initial
                     remaining iteration w))).
Proof.
  assert (Hs : forall e, silent e = true -> is_iteration e = false)
    by (intros e H; now apply negb_true_iff in H).
  induction remaining as [|remaining IH]; intros iteration w HQ;
    cbn [ESLintHelper.while_loop]; [exact HQ|].
  rewrite bind_print.
  set (w1 := log (Print (MsgIteration (S iteration))) w).
  destruct (get_file_errors_run env path w1) as (evs & E2 & F2).
  rewrite (bind_ok _ _ _ _ _ E2).
  set (w2 := MkWorld (file w1) (bak w1) (S (spawns w1)) (evs ++ Spawn :: trace w1)) in *.
  set (current := measure (checker env (spawns w1) (file w1))) in *.
  assert (Q2 : each_iteration_measures (trace w2)).
  { unfold w2, w1. cbn [trace log]. apply each_iteration_measures_step; [|exact HQ].
    apply (occurrences_none is_iteration is_measure_tail); [by_cases_on_event|exact F2]. }
  assert (Hnext : forall w', grows silent w2 w' -> each_iteration_measures (trace w')).
  { intros w' G. exact (each_iteration_measures_grows silent w2 w' Hs G Q2). }
  destruct (List.length current =? 0).
  { rewrite bind_print. unfold ret. cbn [snd]. apply Hnext. unfold silent. grows_tac. }
  destruct (initial <? List.length current).
  { rewrite !bind_print.
    set (w3 := log (Print MsgRevertingChanges)
                   (log (Print (MsgErrorCountIncreased initial (List.length current))) w2)).
    destruct (restore_backup_run env path backup_path w3) as (r4 & w4 & E4 & _ & G4 & _).
    assert (G : grows silent w2 w4) by (unfold w3 in *; unfold silent; grows_tac).
    unfold bind. rewrite E4. destruct r4; cbn [snd]; now apply Hnext. }
  rewrite bind_print.
  set (w3 := log (Print (MsgFileHasErrors (List.length current))) w2).
  destruct (print_errors_step (firstn 3 current) w3) as (w4 & E4 & _ & _ & _ & G4).
  rewrite (bind_ok _ _ _ _ _ E4).
  assert (exists w5, (if 3 <? List.length current
                      then print (MsgAndMore (List.length current - 3)) else ret tt) w4
                     = (Ok tt, w5)
                     /\ grows is_quiet w4 w5) as (w5 & E5 & G5).
  { destruct (3 <? List.length current); eexists; (split; [reflexivity|]).
    - now apply grows_log.
    - apply grows_refl. }
  rewrite (bind_ok _ _ _ _ _ E5).
  destruct (apply_parsing_fixes_step env self path current w5)
    as (changed & w6 & E6 & _ & _ & G6 & _).
  rewrite (bind_ok _ _ _ _ _ E6).
  assert (G26 : grows silent w2 w6) by (unfold w3 in *; unfold silent; grows_tac).
  destruct changed; cbn [negb].
  2:{ rewrite bind_print. unfold ret. cbn [snd]. apply Hnext. unfold silent in *. grows_tac. }
  rewrite bind_print.
  set (w7 := log (Print MsgAppliedFixes) w6).
  destruct (get_file_errors_step env path w7) as (w8 & E8 & _ & _ & _ & G8).
  rewrite (bind_ok _ _ _ _ _ E8).
  assert (G28 : grows silent w2 w8) by (unfold w7 in *; unfold silent in *; grows_tac).
  set (post := measure (checker env (spawns w7) (file w7))) in *.
  destruct (List.length current <? List.length post).
  { rewrite !bind_print.
    set (w9 := log (Print MsgRevertingIteration)
                   (log (Print (MsgFixesCreatedMoreErrors (List.length current)
                                                          (List.length post))) w8)).
    destruct (restore_backup_run env path backup_path w9) as (r10 & w10 & E10 & _ & G10 & _).
    assert (G : grows silent w2 w10) by (unfold w9 in *; unfold silent in *; grows_tac).
    unfold bind. rewrite E10. destruct r10; cbn [snd]; now apply Hnext. }
  apply IH. now apply Hnext.
Qed.
End IterationsMeasure.

Lemma try_block_measures env self path backup_path initial w r w' :
  each_iteration_measures (trace w) ->
  ESLintHelper.try_block env self path backup_path initial w = (r, w') ->
  each_iteration_measures (trace w').
Proof.
  intros HQ. unfold ESLintHelper.try_block, bind.
  pose proof (while_loop_measures env self path backup_path initial
                (ESLintHelper.max_iterations self) 0 w HQ) as H.
  destruct (ESLintHelper.while_loop env self path backup_path initial
              (ESLintHelper.max_iterations self) 0 w) as [[[counts|it]|e] w7].
  - now intros [= _ <-].
  - cbn [snd] in H.
    destruct (final_results_run env self path initial it w7) as (r8 & w8 & E8 & _ & _ & G8 & _).
    rewrite E8. intros [= _ <-].
    exact (each_iteration_measures_grows is_final_event w7 w8 ltac:(by_cases_on_event) G8 H).
  - now intros [= _ <-].
Qed.

(** Every iteration of a session begins with a run of the checker. *)
Lemma session_iterations_measure env self path w :
  each_iteration_measures (trace w) ->
  each_iteration_measures
    (trace (snd (ESLintHelper.clean_file_automatically env self path w))).
Proof.
  intros HQ.
  assert (Hp : forall e, is_prelude_event e = true -> is_iteration e = false)
    by by_cases_on_event.
  destruct (session_cases env self path w) as (r & w' & E & Hc).
  rewrite E. cbn [snd]. cbv zeta in Hc.
  destruct Hc as [(_ & _ & _ & _ & _ & G)
                 |[(_ & _ & _ & _ & _ & G & _)
                  |[(_ & w5 & counts & A & Et & _)
                   |(_ & w5 & e & wh & A & Et & Ex)]]].
  - apply (each_iteration_measures_grows
             (fun e => is_prelude_event e && negb (is_mutation e)) w w'); [|exact G|exact HQ].
    intros e He. apply andb_prop in He. now apply Hp.
  - exact (each_iteration_measures_grows is_prelude_event w w' Hp G HQ).
  - destruct A as (_ & _ & _ & _ & G5 & _).
    apply (try_block_measures _ _ _ _ _ _ _ _
             (each_iteration_measures_grows is_prelude_event w w5 Hp G5 HQ) Et).
  - destruct A as (_ & _ & _ & _ & G5 & _).
    pose proof (try_block_measures _ _ _ _ _ _ _ _
                  (each_iteration_measures_grows is_prelude_event w w5 Hp G5 HQ) Et) as Hh.
    destruct (except_clause_run env path (path ++ ".bak")
                (List.length (measure (checker env (spawns w) (file w)))) e wh)
      as (r2 & w2 & E2 & _ & G2 & _).
    rewrite Ex in E2. injection E2 as <- <-.
    exact (each_iteration_measures_grows is_except_event wh w' ltac:(by_cases_on_event) G2 Hh).
Qed.

(** C8, as amended.  Every loop iteration, the first included, runs the
    checker again: in the trace of any session, whatever the checker
    answers and whatever fails, each announcement of an iteration is
    followed at once by a run of the checker; and in any session that
    reaches a rewrite step, exactly two measurements (the initial one
    and the one that opens the first iteration) precede the first
    rewrite. *)
Theorem two_measurements_before_first_rewrite env self path f b n :
  let run := ESLintHelper.clean_file_automatically env self path (MkWorld f b n []) in
  (measurements_before_rewrite (trace (snd run)) = None
   \/ measurements_before_rewrite (trace (snd run)) = Some 2)
  /\ iterations_measure (rev (trace (snd run))) = true.
Proof.
  intros run. split.
  - apply first_rewrite_follows_two_measurements.
  - apply each_iteration_measures_bool, session_iterations_measure,
      each_iteration_measures_nil.
Qed.

Import Scenarios.

(** ** The claims at concrete inputs *)

(** A file that already holds its arrow: one measurement, nothing else. *)
Lemma clean_file_is_left_alone_witness :
  List.length (measure (checker sound (spawns (fresh with_arrow)) (file (fresh with_arrow)))) = 0
  /\ exists w',
      ESLintHelper.clean_file_automatically sound helper "src/a.ts" (fresh with_arrow)
      = (Ok (0, 0), w')
      /\ file w' = file (fresh with_arrow) /\ bak w' = bak (fresh with_arrow)
      /\ spawns w' = S (spawns (fresh with_arrow))
      /\ grows (fun e => negb (is_mutation e)) (fresh with_arrow) w'.
Proof.
  split; [vm_compute; reflexivity|].
  apply clean_file_is_left_alone. vm_compute. reflexivity.
Defined.


Lemma no_rule_matches_with_arrow :
  no_rule_matches (ESLintHelper.parsing_fixes helper) [arrow_expected]
                  (PyStr.universal_newlines with_arrow).
Proof.
  split.
  - intros error ln pattern [<-|[]] Ht Hp.
    vm_compute in Ht. injection Ht as <-. vm_compute in Hp. discriminate.
  - intros pattern replacement Hin.
    cbv [helper ESLintHelper.init ESLintHelper.parsing_fixes In] in Hin.
    repeat (destruct Hin as [Hin|Hin]; [injection Hin as <- <-; vm_compute; reflexivity|]).
    destruct Hin.
Defined.

(** The first call inserts the arrow and the second finds nothing to
    do; on the repaired file the first call already answers [False], and
    so does the second. *)
Lemma rewrite_step_is_idempotent_witness :
  (file (snd (ESLintHelper.apply_parsing_fixes sound helper "src/a.ts" [arrow_expected]
                (fresh missing_arrow))) = Some with_arrow
   /\ no_rule_matches (ESLintHelper.parsing_fixes helper) [arrow_expected]
                      (PyStr.universal_newlines with_arrow)
   /\ exists w2,
       ESLintHelper.apply_parsing_fixes sound helper "src/a.ts" [arrow_expected]
         (snd (ESLintHelper.apply_parsing_fixes sound helper "src/a.ts" [arrow_expected]
                 (fresh missing_arrow)))
       = (Ok false, w2)
       /\ file w2 = Some with_arrow
       /\ bak w2 = bak (snd (ESLintHelper.apply_parsing_fixes sound helper "src/a.ts"
                               [arrow_expected] (fresh missing_arrow)))
       /\ grows (fun e => negb (is_mutation e))
                (snd (ESLintHelper.apply_parsing_fixes sound helper "src/a.ts"
                        [arrow_expected] (fresh missing_arrow))) w2)
  /\ ((forall n, fault sound n = false)
      /\ fst (ESLintHelper.apply_parsing_fixes sound helper "src/a.ts" [arrow_expected]
                (fresh with_arrow)) = Ok false
      /\ exists w2,
          ESLintHelper.apply_parsing_fixes sound helper "src/a.ts" [arrow_expected]
            (snd (ESLintHelper.apply_parsing_fixes sound helper "src/a.ts" [arrow_expected]
                    (fresh with_arrow)))
          = (Ok false, w2)
          /\ file w2 = file (fresh with_arrow)
          /\ bak w2 = bak (fresh with_arrow)
          /\ grows (fun e => negb (is_mutation e)) (fresh with_arrow) w2).
Proof.
  split.
  - split; [vm_compute; reflexivity|].
    split; [exact no_rule_matches_with_arrow|].
    pose proof (rewrite_step_is_idempotent sound helper "src/a.ts" [arrow_expected]
                  (fresh missing_arrow)) as H.
    cbv zeta in H. destruct H as [HA _].
    apply (HA with_arrow).
    + vm_compute. reflexivity.
    + exact no_rule_matches_with_arrow.
  - split; [reflexivity|].
    split; [vm_compute; reflexivity|].
    pose proof (rewrite_step_is_idempotent sound helper "src/a.ts" [arrow_expected]
                  (fresh with_arrow)) as H.
    cbv zeta in H. destruct H as [_ HB].
    apply HB.
    + reflexivity.
    + vm_compute. reflexivity.
Defined.




(** No reuse of the first measurement: a session that ends in its first iteration has
    run the checker twice before its rewrite step. *)
Lemma first_iteration_measures_again :
  occurrences is_iteration (trace (snd (session sound helper plain))) = 1
  /\ measurements_before_rewrite (trace (snd (session sound helper plain))) = Some 2
  /\ measurements_before_rewrite (trace (snd (session sound helper plain))) <> Some 1.
Proof. vm_compute. repeat split. discriminate. Qed.

Lemma no_rule_changes_plain :
  no_rule_changes (ESLintHelper.parsing_fixes helper) [arrow_expected]
                  (PyStr.universal_newlines plain).
Proof.
  split.
  - intros error ln [<-|[]] Ht.
    vm_compute in Ht. injection Ht as <-. vm_compute. reflexivity.
  - intros pattern replacement Hin.
    cbv [helper ESLintHelper.init ESLintHelper.parsing_fixes In] in Hin.
    repeat (destruct Hin as [Hin|Hin]; [injection Hin as <- <-; vm_compute; reflexivity|]).
    destruct Hin.
Defined.

Lemma no_common_fix_changes_plain :
  forall entry, In entry ESLintAutomation.common_fixes ->
    common_fix_result entry (PyStr.universal_newlines plain) = PyStr.universal_newlines plain.
Proof.
  intros entry Hin. cbv [ESLintAutomation.common_fixes In] in Hin.
  repeat (destruct Hin as [<-|Hin]; [vm_compute; reflexivity|]).
  destruct Hin.
Defined.

(** A file no rule applies to: neither rewrite step writes. *)
Lemma no_write_without_a_change_witness :
  file (fresh plain) = Some plain
  /\ no_rule_changes (ESLintHelper.parsing_fixes helper) [arrow_expected]
                     (PyStr.universal_newlines plain)
  /\ (forall entry, In entry ESLintAutomation.common_fixes ->
        common_fix_result entry (PyStr.universal_newlines plain)
        = PyStr.universal_newlines plain)
  /\ (exists w',
         ESLintHelper.apply_parsing_fixes sound helper "src/a.ts" [arrow_expected]
           (fresh plain) = (Ok false, w')
         /\ file w' = Some plain /\ bak w' = bak (fresh plain)
         /\ grows (fun e => negb (is_mutation e)) (fresh plain) w')
  /\ (exists w',
         ESLintAutomation.apply_common_fixes sound "src/a.ts" (fresh plain) = (Ok false, w')
         /\ file w' = Some plain /\ bak w' = bak (fresh plain)
         /\ grows (fun e => negb (is_mutation e)) (fresh plain) w').
Proof.
  split; [reflexivity|].
  split; [exact no_rule_changes_plain|].
  split; [exact no_common_fix_changes_plain|].
  destruct (no_write_without_a_change sound helper "src/a.ts" [arrow_expected]
              (fresh plain) plain eq_refl) as [Hhelper Hautomation].
  split; [exact (Hhelper no_rule_changes_plain)|exact (Hautomation no_common_fix_changes_plain)].
Defined.

(** A diagnostic on line 5 of a two-line file. *)
Lemma out_of_range_line_is_skipped_witness :
  ESLintAutomation.line on_line_five = ESLintAutomation.JInt 5
  /\ (5 < 1 \/ Z.of_nat (List.length ["a"; "b"]) < 5)%Z
  /\ ESLintAutomation.fix_error ["a"; "b"] on_line_five (fresh plain)
     = (Ok ["a"; "b"], fresh plain).
Proof.
  split; [reflexivity|].
  split; [right; cbn; lia|].
  apply (out_of_range_line_is_skipped ["a"; "b"] on_line_five 5 (fresh plain)).
  - reflexivity.
  - right. cbn. lia.
Defined.

(** ** The scenarios of the specification *)

(** One diagnostic, gone after one rewrite: the content changed and no
    backup is left. *)
Example one_pass_cleans_the_file :
  fst (session sound helper missing_arrow) = Ok (1, 0)
  /\ file (snd (session sound helper missing_arrow)) = Some with_arrow
  /\ bak (snd (session sound helper missing_arrow)) = None.
Proof. vm_compute. repeat split. Qed.

(** No rule applies: the session stops in its first iteration. *)
Example nothing_to_fix_stops_at_once :
  fst (session sound helper plain) = Ok (1, 1)
  /\ file (snd (session sound helper plain)) = Some plain
  /\ bak (snd (session sound helper plain)) = None
  /\ occurrences is_iteration (trace (snd (session sound helper plain))) = 1.
Proof. vm_compute. repeat split. Qed.

(** Two diagnostics, one after the first rewrite, four after the
    second: the second iteration reverts to the original. *)
Example second_rewrite_regresses :
  fst (session (scripted [2; 2; 1; 1; 4]) two_pass "a") = Ok (2, 2)
  /\ file (snd (session (scripted [2; 2; 1; 1; 4]) two_pass "a")) = Some "a"
  /\ bak (snd (session (scripted [2; 2; 1; 1; 4]) two_pass "a")) = None.
Proof. vm_compute. repeat split. Qed.

(** A rule table that swaps two contents and a checker that always
    reports one diagnostic: the loop runs its twenty iterations and
    stops. *)
Example cycling_table_exhausts_the_budget :
  occurrences is_iteration (trace (snd (session (scripted (repeat 1 50)) cycling "x"))) = 20
  /\ spawns (snd (session (scripted (repeat 1 50)) cycling "x")) = 42
  /\ fst (session (scripted (repeat 1 50)) cycling "x") = Ok (1, 1).
Proof. vm_compute. repeat split. Qed.

(** A write that fails inside the rewrite step never reaches the
    session: [apply_parsing_fixes] reports the exception and answers
    [False], the loop stops as if no rule had applied, the file stays
    truncated and the backup is removed. *)
Example failed_write_leaves_the_file_truncated :
  existsb is_rewrite_failure (trace (snd (session (failing_at 11) helper missing_arrow)))
  = true
  /\ fst (session (failing_at 11) helper missing_arrow) = Ok (1, 1)
  /\ file (snd (session (failing_at 11) helper missing_arrow)) = Some ""
  /\ existsb is_handler (trace (snd (session (failing_at 11) helper missing_arrow))) = false
  /\ existsb (fun e => match e with CopyFromBak => true | _ => false end)
       (trace (snd (session (failing_at 11) helper missing_arrow))) = false
  /\ bak (snd (session (failing_at 11) helper missing_arrow)) = None.
Proof. vm_compute. repeat split. Qed.

(** C1.  No regression, and where the code breaks it.  The file has one
    diagnostic; the rewrite step opens it for writing, which empties
    it, and the write fails.  [apply_parsing_fixes] reports the
    exception itself and answers [False]; the session takes that for
    [no rule applied], leaves the loop, measures the emptied file, for
    which this checker reports two diagnostics, removes the backup and
    returns [(1, 2)]: no regression was announced, nothing was restored,
    and the file is left with more diagnostics than it started with. *)
Lemma failed_write_ends_above_the_initial_count :
  fault (strict_failing_at 11) 11 = true
  /\ nth_error (rev (trace (snd (session (strict_failing_at 11) helper missing_arrow)))) 11
     = Some (Write with_arrow)
  /\ fst (session (strict_failing_at 11) helper missing_arrow) = Ok (1, 2)
  /\ file (snd (session (strict_failing_at 11) helper missing_arrow)) = Some ""
  /\ bak (snd (session (strict_failing_at 11) helper missing_arrow)) = None
  /\ List.length (measure (strict_lint (Some missing_arrow))) = 1
  /\ List.length
       (measure (strict_lint (file (snd (session (strict_failing_at 11) helper missing_arrow)))))
     = 2
  /\ existsb is_regression
       (trace (snd (session (strict_failing_at 11) helper missing_arrow))) = false
  /\ existsb (fun e => match e with CopyFromBak => true | _ => false end)
       (trace (snd (session (strict_failing_at 11) helper missing_arrow))) = false
  /\ existsb is_handler
       (trace (snd (session (strict_failing_at 11) helper missing_arrow))) = false.
Proof. vm_compute. repeat split. Qed.


(** What a rule puts in can be matched by a later rule, and by an
    earlier one.  The first rule of the table turns [): Promise< => => {]
    into [): Promise< => {], which the second rule matches; and on
    [): Promise<= =>x> => {] the first call of the rewrite step changes
    the content through the last rule, after which the first rule
    matches: the second call, with the same diagnostics, changes the
    content again and answers [True]. *)
Lemma a_replacement_can_match_again :
  nth_error (ESLintHelper.parsing_fixes helper) 0
  = Some ("\): Promise<([^>]+)>\s*=>\s*\{", "): Promise<\1> {")
  /\ nth_error (ESLintHelper.parsing_fixes helper) 1
     = Some ("\): Promise<\s*=>\s*\{", "): Promise<{")
  /\ PyRe.sub "\): Promise<([^>]+)>\s*=>\s*\{" "): Promise<\1> {" "): Promise< => => {"
     = "): Promise< => {"
  /\ matches "\): Promise<\s*=>\s*\{" "): Promise< => {" = true
  /\ ESLintHelper.apply_parsing_fixes sound helper "src/a.ts" [arrow_expected]
       (fresh "): Promise<= =>x> => {")
     = (Ok true,
        MkWorld (Some "): Promise<{x> => {") None 0
          [Write "): Promise<{x> => {"; OpenWrite; OpenRead])
  /\ ESLintHelper.apply_parsing_fixes sound helper "src/a.ts" [arrow_expected]
       (MkWorld (Some "): Promise<{x> => {") None 0
          [Write "): Promise<{x> => {"; OpenWrite; OpenRead])
     = (Ok true,
        MkWorld (Some "): Promise<{x> {") None 0
          [Write "): Promise<{x> {"; OpenWrite; OpenRead;
           Write "): Promise<{x> => {"; OpenWrite; OpenRead]).
Proof. vm_compute. repeat split. Qed.

(** [iterations_measure] tells an iteration that begins
    with a measurement from one that does not; and a session of two
    iterations measures at the start of each. *)
Example iterations_without_measurement_are_seen :
  iterations_measure [Print (MsgIteration 1); Spawn; OpenRead] = true
  /\ iterations_measure [Spawn; Print (MsgIteration 1); OpenRead] = false
  /\ occurrences is_iteration
       (trace (snd (session (scripted [2; 2; 1; 4]) helper missing_arrow))) = 2
  /\ iterations_measure
       (rev (trace (snd (session (scripted [2; 2; 1; 4]) helper missing_arrow)))) = true.
Proof. vm_compute. repeat split. Qed.

(** Every pattern the two scripts contain is read to its end by
    [re_compile]. *)
Example patterns_of_the_scripts_are_read :
  forallb readable (map fst (ESLintHelper.parsing_fixes helper)) = true
  /\ forallb readable (map fst ESLintAutomation.common_fixes) = true
  /\ forallb readable
       [ "\s+([a-z-/@]+)$"; "\s*(\d+):(\d+)\s+(error|warning)\s+(.+)";
         "async \([^)]*\) \{"; "response: async \(\) \{";
         "\): Promise<([^>]+)>\s*=>\s*\{"; "(\d+) problems";
         "async \w+ \{"; "(async \w+) \{"; "Promise<\s*=>\s*\{([^}]+)\}>" ] = true
  /\ readable "(" = false.
Proof. vm_compute. repeat split. Qed.

(** A checker that can no longer be started counts as a clean file: the
    measurement after the rewrite finds nothing, and the session reports
    the file as repaired. *)
Example lost_checker_counts_as_clean :
  fst (session checker_lost two_pass "a") = Ok (1, 0)
  /\ file (snd (session checker_lost two_pass "a")) = Some "b"
  /\ existsb is_handler (trace (snd (session checker_lost two_pass "a"))) = false
  /\ bak (snd (session checker_lost two_pass "a")) = None.
Proof. vm_compute. repeat split. Qed.

(** In the table of [__init__], the text a rule puts in when its group
    has captured [T] is matched neither by that rule nor by a later
    one.  Other captures can make it match. *)
Example replacements_of_the_table_are_at_rest :
  replacements_at_rest (ESLintHelper.parsing_fixes helper) = true.
Proof. vm_compute. reflexivity. Qed.

(** Without that premise the rewrite step is not idempotent: the
    last rule of the table can produce text the first rule matches, so a
    second pass changes the content again. *)
Example second_pass_can_change_again :
  ESLintHelper.apply_general_fixes (ESLintHelper.parsing_fixes helper)
    "): Promise<= =>x> => {" false = ("): Promise<{x> => {", true)
  /\ ESLintHelper.apply_general_fixes (ESLintHelper.parsing_fixes helper)
       "): Promise<{x> => {" false = ("): Promise<{x> {", true).
Proof. vm_compute. repeat split. Qed.

(* ================================================================== *)
(** * Part X. Further properties of the two scripts *)
(* ================================================================== *)

(** ** Strings *)

Lemma lstrip_shape s :
  PyStr.lstrip s = ""
  \/ exists c t, PyStr.lstrip s = String c t /\ PyStr.is_space c = false.
Proof.
  induction s as [|c s IH]; [now left|]. cbn [PyStr.lstrip].
  destruct (PyStr.is_space c) eqn:E; [exact IH|]. right. now exists c, s.
Qed.

Lemma rstrip_keeps_head c t :
  PyStr.is_space c = false -> exists r, PyStr.rstrip (String c t) = String c r.
Proof.
  intros H. cbn [PyStr.rstrip]. destruct (PyStr.rstrip t).
  - rewrite H. now exists "".
  - now eexists.
Qed.

Lemma strip_no_leading_space s : PyStr.startswith " " (PyStr.strip s) = false.
Proof.
  unfold PyStr.strip. destruct (lstrip_shape s) as [->|(c & t & -> & Hc)]; [reflexivity|].
  destruct (rstrip_keeps_head c t Hc) as (r & ->). cbn [PyStr.startswith].
  destruct (Ascii.eqb " " c) eqn:E; [|reflexivity].
  apply Ascii.eqb_eq in E. subst c. discriminate.
Qed.

Lemma rstrip_app_end u a rest :
  PyStr.is_space a = false -> PyStr.rstrip rest = "" ->
  PyStr.rstrip (u ++ String a rest)%string = (u ++ String a "")%string.
Proof.
  intros Ha Hr. induction u as [|c u IH].
  - cbn. now rewrite Hr, Ha.
  - cbn [String.append PyStr.rstrip]. rewrite IH. now destruct u.
Qed.

Lemma lstrip_app_end u a rest :
  PyStr.is_space a = false ->
  exists u', PyStr.lstrip (u ++ String a rest)%string = (u' ++ String a rest)%string.
Proof.
  intros Ha. induction u as [|c u IH].
  - exists "". cbn. now rewrite Ha.
  - cbn [String.append PyStr.lstrip]. destruct (PyStr.is_space c); [exact IH|].
    now exists (String c u).
Qed.

Lemma drop_app_length u v : PyStr.drop (String.length u) (u ++ v)%string = v.
Proof. induction u as [|c u IH]; [reflexivity|exact IH]. Qed.

Lemma length_app_one u a : String.length (u ++ String a "")%string = S (String.length u).
Proof. induction u as [|c u IH]; [reflexivity|]. cbn. now rewrite IH. Qed.

Lemma endswith_last u a b :
  a <> b -> PyStr.endswith (String b "") (u ++ String a "")%string = false.
Proof.
  intros H. unfold PyStr.endswith. rewrite length_app_one.
  cbn [String.length]. rewrite Nat.sub_succ, Nat.sub_0_r, drop_app_length.
  apply andb_false_iff. right. cbn. apply Ascii.eqb_neq in H. now rewrite H.
Qed.

(** ** One or more characters of a class *)

Section PlusCls.
Variable R : Type.
Variable c : PyRe.cclass.
Variable k : PyRe.cont R.

Lemma rmatch_cls (k' : PyRe.cont R) prev s cs :
  PyRe.rmatch (PyRe.Cls c) prev s cs k'
  = match s with
    | String a s' => if PyRe.class_matches c a then k' (Some a) s' cs else None
    | EmptyString => None
    end.
Proof. reflexivity. Qed.

Lemma star_cls_end :
  forall fuel prev s cs x,
    PyRe.star_loop (@PyRe.rmatch R (PyRe.Cls c)) k fuel prev s cs = Some x ->
    k prev s cs = Some x
    \/ exists mid a rest cs',
        s = (mid ++ String a rest)%string /\ PyRe.class_matches c a = true
        /\ k (Some a) rest cs' = Some x.
Proof.
  induction fuel as [|fuel IH]; intros prev s cs x; cbn [PyRe.star_loop]; [now left|].
  rewrite rmatch_cls. destruct s as [|a s]; [now left|].
  destruct (PyRe.class_matches c a) eqn:Ec; [|now left].
  assert ((String.length s <? String.length (String a s)) = true) as ->
    by (apply Nat.ltb_lt; cbn; lia).
  destruct (PyRe.star_loop (@PyRe.rmatch R (PyRe.Cls c)) k fuel (Some a) s cs) as [y|] eqn:E;
    [|now left].
  intros [= ->]. right. destruct (IH _ _ _ _ E) as [H|(mid & b & rest & cs' & -> & Hb & H)].
  - now exists "", a, s, cs.
  - now exists (String a mid), b, rest, cs'.
Qed.

Lemma plus_cls_end prev s cs x :
  PyRe.rmatch (PyRe.Plus (PyRe.Cls c)) prev s cs k = Some x ->
  exists mid a rest cs',
    s = (mid ++ String a rest)%string /\ PyRe.class_matches c a = true
    /\ k (Some a) rest cs' = Some x.
Proof.
  change (PyRe.rmatch (PyRe.Plus (PyRe.Cls c)) prev s cs k)
    with (PyRe.rmatch (PyRe.Cls c) prev s cs
            (fun prev' s' cs' =>
               PyRe.star_loop (@PyRe.rmatch R (PyRe.Cls c)) k (S (String.length s'))
                 prev' s' cs')).
  rewrite rmatch_cls. destruct s as [|a s]; [discriminate|].
  destruct (PyRe.class_matches c a) eqn:Ec; [|discriminate].
  intros E. destruct (star_cls_end _ _ _ _ _ E) as [H|(mid & b & rest & cs' & -> & Hb & H)].
  - now exists "", a, s, cs.
  - now exists (String a mid), b, rest, cs'.
Qed.
End PlusCls.

(** ** The rule name at the end of a message *)

Lemma rule_pattern :
  PyRe.re_compile "\s+([a-z-/@]+)$"
  = PyRe.Seq (PyRe.Plus (PyRe.Cls PyRe.CSpace))
      (PyRe.Seq (PyRe.Group 1 (PyRe.Plus (PyRe.Cls
                   (PyRe.CSet [("a", "z"); ("-", "-"); ("/", "/"); ("@", "@")]%char))))
                PyRe.Eol).
Proof. reflexivity. Qed.

Lemma rule_character a :
  PyRe.class_matches (PyRe.CSet [("a", "z"); ("-", "-"); ("/", "/"); ("@", "@")]%char) a = true ->
  PyStr.is_space a = false /\ a <> ")"%char.
Proof.
  destruct a as [[] [] [] [] [] [] [] []]; vm_compute; intros H; split; congruence.
Qed.

Lemma string_app_assoc (a b c : string) : ((a ++ b) ++ c = a ++ (b ++ c))%string.
Proof. induction a as [|x a IH]; [reflexivity|]. cbn. now rewrite IH. Qed.

Lemma rmatch_seq R r1 r2 prev s cs (k : PyRe.cont R) :
  PyRe.rmatch (PyRe.Seq r1 r2) prev s cs k
  = PyRe.rmatch r1 prev s cs (fun prev' s' cs' => PyRe.rmatch r2 prev' s' cs' k).
Proof. reflexivity. Qed.

Lemma rmatch_group R i r prev s cs (k : PyRe.cont R) :
  PyRe.rmatch (PyRe.Group i r) prev s cs k
  = PyRe.rmatch r prev s cs
      (fun prev' s' cs' => k prev' s' ((i, PyRe.consumed s s') :: cs')).
Proof. reflexivity. Qed.

Lemma rule_match_end prev s m rest :
  PyRe.match_at (PyRe.re_compile "\s+([a-z-/@]+)$") prev s = Some (m, rest) ->
  exists pre a tail,
    s = (pre ++ String a tail)%string /\ PyStr.is_space a = false /\ a <> ")"%char
    /\ PyStr.rstrip tail = "".
Proof.
  rewrite rule_pattern. unfold PyRe.match_at. rewrite rmatch_seq. intros E.
  apply plus_cls_end in E as (mid1 & a1 & rest1 & cs1 & -> & _ & E).
  rewrite rmatch_seq, rmatch_group in E.
  apply plus_cls_end in E as (mid2 & a2 & rest2 & cs2 & -> & Ha & E).
  destruct (rule_character a2 Ha) as (Hs & Hp).
  exists (mid1 ++ String a1 mid2)%string, a2, rest2.
  split; [now rewrite string_app_assoc|]. repeat split; try assumption.
  cbn [PyRe.rmatch] in E.
  destruct ((rest2 =? "")%string) eqn:E1.
  - apply String.eqb_eq in E1. now subst.
  - destruct ((rest2 =? String PyStr.nl "")%string) eqn:E2; [|discriminate].
    apply String.eqb_eq in E2. now subst.
Qed.

Lemma rule_search_end s :
  forall prev m,
    PyRe.search_from (PyRe.re_compile "\s+([a-z-/@]+)$") prev s = Some m ->
    exists pre a tail,
      s = (pre ++ String a tail)%string /\ PyStr.is_space a = false /\ a <> ")"%char
      /\ PyStr.rstrip tail = "".
Proof.
  induction s as [|c s IH]; intros prev m; cbn [PyRe.search_from].
  - destruct (PyRe.match_at _ prev "") as [[m' rest]|] eqn:E; [|discriminate].
    intros _. exact (rule_match_end _ _ _ _ E).
  - destruct (PyRe.match_at _ prev (String c s)) as [[m' rest]|] eqn:E.
    + intros _. exact (rule_match_end _ _ _ _ E).
    + intros H. destruct (IH _ _ H) as (pre & a & tail & -> & Hs & Hp & Ht).
      now exists (String c pre), a, tail.
Qed.

Lemma extract_rule_none msg : ESLintHelper.extract_rule msg = (msg, "").
Proof.
  unfold ESLintHelper.extract_rule.
  destruct (PyStr.endswith ")" (PyStr.strip msg)) eqn:Ee; [|reflexivity].
  destruct (PyRe.re_search _ msg) as [m|] eqn:Es; [|reflexivity].
  exfalso. apply rule_search_end in Es as (pre & a & tail & -> & Hs & Hp & Ht).
  unfold PyStr.strip in Ee.
  destruct (lstrip_app_end pre a tail Hs) as (u & Hu). rewrite Hu in Ee.
  rewrite (rstrip_app_end u a tail Hs Ht) in Ee.
  rewrite (endswith_last u a ")"%char Hp) in Ee. discriminate.
Qed.

(** ** The lines of a text report *)

(** What one line does to the state of the loop of [get_file_errors]:
    a header line replaces the current file; a diagnostic line under a
    header adds one diagnostic, with an empty rule; any other line
    changes nothing. *)
Lemma parse_line_cases st ln :
  (PyStr.endswith ".ts" (PyStr.strip ln) = true
   /\ ESLintHelper.parse_line st ln = (Some (PyStr.strip ln), snd st))
  \/ (PyStr.endswith ".ts" (PyStr.strip ln) = false
      /\ (ESLintHelper.parse_line st ln = st
          \/ exists cf m,
              fst st = Some cf
              /\ PyRe.re_match
                   (PyRe.re_compile "\s*(\d+):(\d+)\s+(error|warning)\s+(.+)") ln = Some m
              /\ ESLintHelper.parse_line st ln
                 = (Some cf,
                    ESLintHelper.MkError cf (Z.of_N (PyStr.int (PyRe.group m 1)))
                      (Z.of_N (PyStr.int (PyRe.group m 2))) (PyRe.group m 4) ""
                    :: snd st))).
Proof.
  destruct st as [current errors]. unfold ESLintHelper.parse_line.
  rewrite strip_no_leading_space. cbn [negb]. rewrite andb_true_r.
  destruct (PyStr.endswith ".ts" (PyStr.strip ln)); [left; now split|right].
  split; [reflexivity|].
  destruct (PyRe.re_match _ ln) as [m|]; [|now left].
  destruct current as [cf|]; [|now left].
  right. exists cf, m. rewrite extract_rule_none. now repeat split.
Qed.

Section Report.
Variable lines0 : list string.
Variable Q : ESLintHelper.ESLintError -> Prop.

(** A header of the report: the stripped text of one of its lines,
    ending in [.ts]. *)
Let header (cf : string) : Prop :=
  PyStr.endswith ".ts" cf = true /\ exists h, In h lines0 /\ cf = PyStr.strip h.

Hypothesis HQ :
  forall cf m,
    header cf ->
    Q (ESLintHelper.MkError cf (Z.of_N (PyStr.int (PyRe.group m 1)))
         (Z.of_N (PyStr.int (PyRe.group m 2))) (PyRe.group m 4) "").

Lemma fold_parse_line_forall :
  forall lines st,
    (forall ln, In ln lines -> In ln lines0) ->
    (forall cf, fst st = Some cf -> header cf) ->
    (forall e, In e (snd st) -> Q e) ->
    forall e, In e (snd (fold_left ESLintHelper.parse_line lines st)) -> Q e.
Proof.
  induction lines as [|ln lines IH]; intros st Hsub Hcf Herr; [exact Herr|].
  cbn [fold_left]. apply IH.
  - intros l Hl. apply Hsub. now right.
  - destruct (parse_line_cases st ln) as [(He & ->)|(He & [->|(cf & m & Hc & _ & ->)])];
      cbn [fst]; [|exact Hcf|].
    + intros cf [= <-]. split; [exact He|]. exists ln. split; [|reflexivity].
      apply Hsub. now left.
    + intros cf' [= <-]. now apply Hcf.
  - destruct (parse_line_cases st ln) as [(He & ->)|(He & [->|(cf & m & Hc & _ & ->)])];
      cbn [snd]; [exact Herr|exact Herr|].
    intros e [<-|He']; [|now apply Herr]. apply HQ. now apply Hcf.
Qed.
End Report.

Lemma parse_output_forall (Q : ESLintHelper.ESLintError -> Prop) output :
  (forall cf m,
      PyStr.endswith ".ts" cf = true ->
      (exists h, In h (PyStr.split PyStr.nl output) /\ cf = PyStr.strip h) ->
      Q (ESLintHelper.MkError cf (Z.of_N (PyStr.int (PyRe.group m 1)))
           (Z.of_N (PyStr.int (PyRe.group m 2))) (PyRe.group m 4) "")) ->
  forall e, In e (ESLintHelper.parse_output output) -> Q e.
Proof.
  intros HQ e He. unfold ESLintHelper.parse_output in He. apply in_rev in He.
  revert e He. apply (fold_parse_line_forall (PyStr.split PyStr.nl output) Q).
  - intros cf m (H1 & H2). now apply HQ.
  - auto.
  - discriminate.
  - intros e [].
Qed.


(** X2.  Every diagnostic is attributed to a header line of the report: its
    file is the stripped text of a line that ends in [.ts]; and its
    line and column are not negative. *)
Theorem diagnostics_belong_to_a_header output e :
  In e (ESLintHelper.parse_output output) ->
  PyStr.endswith ".ts" (ESLintHelper.file_path e) = true
  /\ (exists h, In h (PyStr.split PyStr.nl output) /\ ESLintHelper.file_path e = PyStr.strip h)
  /\ (0 <= ESLintHelper.line e)%Z /\ (0 <= ESLintHelper.column e)%Z.
Proof.
  revert e. apply parse_output_forall. intros cf m H1 H2. cbn.
  repeat split; try assumption; apply N2Z.is_nonneg.
Qed.

(** X3.  A report none of whose lines ends in [.ts] once stripped yields no
    diagnostic, whatever its other lines hold. *)
Theorem report_without_header_is_clean env path w out err :
  checker env (spawns w) (file w) = ProcDone out err ->
  (forall ln, In ln (PyStr.split PyStr.nl (out ++ err)) ->
              PyStr.endswith ".ts" (PyStr.strip ln) = false) ->
  exists w',
    ESLintHelper.get_file_errors env path w = (Ok [], w')
    /\ file w' = file w /\ bak w' = bak w.
Proof.
  intros Hc Hno.
  destruct (get_file_errors_step env path w) as (w' & E & Hf & Hb & _).
  exists w'. repeat split; try assumption. rewrite E, Hc. cbn [measure].
  assert (Hnone : forall e, In e (ESLintHelper.parse_output (out ++ err)) -> False).
  { apply parse_output_forall.
    intros cf m H1 (h & Hh & ->). rewrite (Hno h Hh) in H1. discriminate. }
  destruct (ESLintHelper.parse_output (out ++ err)) as [|e errors]; [reflexivity|].
  elim (Hnone e). now left.
Qed.

(** ** The runs over the whole project *)

Lemma problem_count_without_the_word lines :
  (forall ln, In ln lines -> PyStr.contains "problems" ln = false) ->
  ESLintHelper.problem_count lines = 0%N.
Proof.
  induction lines as [|ln lines IH]; intros H; [reflexivity|].
  cbn [ESLintHelper.problem_count]. rewrite (H ln (or_introl eq_refl)).
  apply IH. intros l Hl. apply H. now right.
Qed.

(** X4.  [run_lint_count] never raises: it runs the checker once, touches no
    file, and answers [0] when the checker cannot be started. *)
Theorem lint_count_never_raises env w :
  exists n w',
    ESLintHelper.run_lint_count env w = (Ok n, w')
    /\ file w' = file w /\ bak w' = bak w /\ spawns w' = S (spawns w)
    /\ grows is_measure_event w w'
    /\ (forall e, checker env (spawns w) (file w) = ProcRaise e -> n = 0%N).
Proof.
  unfold ESLintHelper.run_lint_count, try_except, bind, subprocess_run.
  destruct (checker env (spawns w) (file w)) as [e|out err].
  - eexists _, _. split; [reflexivity|]. repeat split.
    exists [Print (MsgErrorGettingFileErrors e); Spawn]. now split.
  - eexists _, _. split; [reflexivity|]. repeat split.
    + exists [Spawn]. now split.
    + discriminate.
Qed.

(** X5.  The count is looked for only on lines that hold the word
    [problems]: a report without it, such as the summary of a single
    problem, counts as none. *)
Theorem lint_count_needs_the_plural env w out err :
  checker env (spawns w) (file w) = ProcDone out err ->
  (forall ln, In ln (PyStr.split PyStr.nl (out ++ err)) ->
              PyStr.contains "problems" ln = false) ->
  exists w', ESLintHelper.run_lint_count env w = (Ok 0%N, w').
Proof.
  intros Hc Hno.
  unfold ESLintHelper.run_lint_count, try_except, bind, subprocess_run. rewrite Hc.
  rewrite (problem_count_without_the_word _ Hno). now eexists.
Qed.

Lemma problem_lines_spec lines :
  forall files x,
    In x (ESLintHelper.problem_lines lines files)
    <-> In x files
        \/ exists h, In h lines /\ x = PyStr.strip h /\ PyStr.endswith ".ts" x = true.
Proof.
  induction lines as [|ln lines IH]; intros files x; cbn [ESLintHelper.problem_lines].
  - split; [now left|]. intros [H|(h & [] & _)]. exact H.
  - rewrite strip_no_leading_space. cbn [negb]. rewrite andb_true_r.
    destruct (PyStr.endswith ".ts" (PyStr.strip ln)) eqn:E; rewrite IH.
    + rewrite in_app_iff. cbn [In]. split.
      * intros [[H|[<-|[]]]|(h & Hh & Hx & He)].
        -- now left.
        -- right. exists ln. repeat split; [now left|exact E].
        -- right. exists h. repeat split; [now right|exact Hx|exact He].
      * intros [H|(h & [<-|Hh] & -> & He)].
        -- now left; left.
        -- left. right. now left.
        -- right. exists h. now repeat split.
    + split.
      * intros [H|(h & Hh & Hx & He)]; [now left|].
        right. exists h. repeat split; [now right|exact Hx|exact He].
      * intros [H|(h & [<-|Hh] & -> & He)]; [now left|congruence|].
        right. exists h. now repeat split.
Qed.

Section ProblemFiles.
Variable list_of_set : list string -> list string.
Hypothesis list_of_set_spec :
  forall l, NoDup (list_of_set l) /\ forall x, In x (list_of_set l) <-> In x l.

(** X6.  [get_problem_files] never raises and touches no file; the list it
    returns has no duplicates, and holds exactly the stripped lines of
    the report that end in [.ts]; it is empty when the checker cannot
    be started. *)
Theorem problem_files_are_the_headers env w :
  exists files w',
    ESLintHelper.get_problem_files env list_of_set w = (Ok files, w')
    /\ file w' = file w /\ bak w' = bak w /\ spawns w' = S (spawns w)
    /\ NoDup files
    /\ (forall e, checker env (spawns w) (file w) = ProcRaise e -> files = [])
    /\ (forall out err,
           checker env (spawns w) (file w) = ProcDone out err ->
           forall x,
             In x files
             <-> exists h, In h (PyStr.split PyStr.nl (out ++ err))
                           /\ x = PyStr.strip h /\ PyStr.endswith ".ts" x = true).
Proof.
  unfold ESLintHelper.get_problem_files, try_except, bind, subprocess_run.
  destruct (checker env (spawns w) (file w)) as [e|out err].
  - eexists _, _. split; [reflexivity|]. repeat split; try discriminate.
    constructor.
  - eexists _, _. split; [reflexivity|].
    split; [reflexivity|]. split; [reflexivity|]. split; [reflexivity|].
    split; [apply list_of_set_spec|]. split; [discriminate|].
    intros out' err' [= <- <-] x. split.
    + intros H. apply list_of_set_spec, problem_lines_spec in H. now destruct H as [[]|H].
    + intros H. apply list_of_set_spec, problem_lines_spec. now right.
Qed.

(** X7.  Every diagnostic [get_file_errors] makes of a report is attributed
    to a file [get_problem_files] lists for the same report. *)
Theorem diagnosed_files_are_listed env w out err e :
  checker env (spawns w) (file w) = ProcDone out err ->
  In e (measure (checker env (spawns w) (file w))) ->
  exists files w',
    ESLintHelper.get_problem_files env list_of_set w = (Ok files, w')
    /\ In (ESLintHelper.file_path e) files.
Proof.
  intros Hc He. rewrite Hc in He. cbn [measure] in He.
  unfold ESLintHelper.get_problem_files, try_except, bind, subprocess_run. rewrite Hc.
  eexists _, _. split; [reflexivity|].
  apply list_of_set_spec, problem_lines_spec. right.
  revert e He. apply parse_output_forall. intros cf m H1 (h & Hh & ->).
  exists h. now repeat split.
Qed.
End ProblemFiles.

(** ** The loop over the diagnostics *)

Lemma length_update {A} (l : list A) k v : List.length (update l k v) = List.length l.
Proof.
  revert k. induction l as [|h t IH]; intros k; [reflexivity|].
  destruct k; cbn; [reflexivity|]. now rewrite IH.
Qed.

Lemma norm_index_minus_one {A} (l : list A) :
  l <> [] -> norm_index l (-1) = Some (List.length l - 1).
Proof.
  intros H. unfold norm_index. destruct l as [|h t]; [now elim H|].
  cbn [List.length]. rewrite Nat.sub_succ, Nat.sub_0_r.
  assert ((-1 + Z.of_nat (S (List.length t)))%Z = Z.of_nat (List.length t)) as -> by lia.
  rewrite Nat2Z.id.
  assert ((0 <=? Z.of_nat (List.length t))%Z = true) as -> by (apply Z.leb_le; lia).
  reflexivity.
Qed.

Lemma nth_error_last {A} (l : list A) d :
  l <> [] -> nth_error l (List.length l - 1) = Some (last l d).
Proof.
  induction l as [|h t IH]; intros H; [now elim H|].
  destruct t as [|h' t']; [reflexivity|].
  change (last (h :: h' :: t') d) with (last (h' :: t') d).
  rewrite <- IH by discriminate.
  cbn [List.length]. now rewrite !Nat.sub_succ, !Nat.sub_0_r.
Qed.

(** X8.  A parsing diagnostic on line 0 makes the loop of
    [apply_parsing_fixes] work on the last line of the file: its index
    [-1] passes the test against [len(lines)] and Python counts it from
    the end. *)
Theorem line_zero_targets_the_last_line error lines changes w :
  PyStr.contains "Parsing error" (ESLintHelper.message error) = true ->
  ESLintHelper.line error = 0%Z ->
  lines <> [] ->
  let original := last lines "" in
  let fixed := ESLintHelper.fix_line (ESLintHelper.message error) original in
  ESLintHelper.fix_error_lines [error] lines changes w
  = if String.eqb fixed original then (Ok (lines, changes), w)
    else (Ok (update lines (List.length lines - 1) fixed, true),
          log (Print (MsgFixedLine 0 (ESLintHelper.message error))) w).
Proof.
  intros Hp Hl Hne original fixed. cbn [ESLintHelper.fix_error_lines].
  rewrite Hp, Hl. cbn [negb]. change (0 - 1)%Z with (-1)%Z.
  assert ((Z.of_nat (List.length lines) <=? -1)%Z = false) as -> by (apply Z.leb_gt; lia).
  unfold getitem, setitem.
  rewrite (norm_index_minus_one lines Hne), (nth_error_last lines "" Hne).
  rewrite bind_ret. fold original. fold fixed.
  destruct (String.eqb fixed original); reflexivity.
Qed.

Lemma fix_error_lines_flag :
  forall errors lines changes w,
    match ESLintHelper.fix_error_lines errors lines changes w with
    | (Ok (lines', changes'), w') =>
        List.length lines' = List.length lines
        /\ (changes = true -> changes' = true)
        /\ (changes' = false -> lines' = lines /\ w' = w)
    | (Raise e, _) => e = IndexError
    end.
Proof.
  induction errors as [|error rest IH]; intros lines changes w;
    cbn [ESLintHelper.fix_error_lines].
  - unfold ret. auto.
  - destruct (negb (PyStr.contains "Parsing error" (ESLintHelper.message error)));
      [apply IH|].
    destruct (Z.of_nat (List.length lines) <=? ESLintHelper.line error - 1)%Z; [apply IH|].
    unfold getitem, setitem.
    destruct (norm_index lines (ESLintHelper.line error - 1)) as [k|]; [|reflexivity].
    destruct (nth_error lines k) as [original|]; [|reflexivity].
    rewrite bind_ret.
    destruct (negb (ESLintHelper.fix_line (ESLintHelper.message error) original =? original)%string);
      [|apply IH].
    rewrite bind_ret, bind_print.
    specialize (IH (update lines k (ESLintHelper.fix_line (ESLintHelper.message error) original))
                   true (log (Print (MsgFixedLine (ESLintHelper.line error)
                                                  (ESLintHelper.message error))) w)).
    destruct (ESLintHelper.fix_error_lines rest _ true _) as [[[lines' changes']|e] w'];
      [|exact IH].
    destruct IH as (Hlen & Htrue & _). rewrite length_update in Hlen.
    rewrite (Htrue eq_refl). split; [exact Hlen|]. split; [reflexivity|discriminate].
Qed.

(** On a file with at least one line, diagnostics whose line numbers
    are not negative never make the loop raise. *)
Lemma fix_error_lines_total :
  forall errors lines changes w,
    (forall e, In e errors -> (0 <= ESLintHelper.line e)%Z) ->
    lines <> [] ->
    exists lines' changes' w',
      ESLintHelper.fix_error_lines errors lines changes w = (Ok (lines', changes'), w').
Proof.
  induction errors as [|error rest IH]; intros lines changes w Hpos Hne;
    cbn [ESLintHelper.fix_error_lines].
  - now eexists _, _, _.
  - assert (Hrest : forall e, In e rest -> (0 <= ESLintHelper.line e)%Z)
      by (intros e He; apply Hpos; now right).
    destruct (negb (PyStr.contains "Parsing error" (ESLintHelper.message error)));
      [now apply IH|].
    destruct (Z.of_nat (List.length lines) <=? ESLintHelper.line error - 1)%Z eqn:Hi;
      [now apply IH|].
    apply Z.leb_gt in Hi.
    pose proof (Hpos error (or_introl eq_refl)) as H0.
    assert (exists k, norm_index lines (ESLintHelper.line error - 1) = Some k
                      /\ k < List.length lines) as (k & Hk & Hlt).
    { unfold norm_index.
      destruct (0 <=? ESLintHelper.line error - 1)%Z eqn:E0.
      - apply Z.leb_le in E0.
        assert ((ESLintHelper.line error - 1 <? Z.of_nat (List.length lines))%Z = true) as ->
          by (apply Z.ltb_lt; lia).
        eexists. split; [reflexivity|]. lia.
      - apply Z.leb_gt in E0. cbn [andb].
        assert (ESLintHelper.line error - 1 = -1)%Z as -> by lia.
        destruct lines as [|h t]; [now elim Hne|].
        assert ((-1 <? 0)%Z && (0 <=? -1 + Z.of_nat (List.length (h :: t)))%Z = true) as ->.
        { apply andb_true_intro. split; [reflexivity|]. apply Z.leb_le. cbn [List.length]. lia. }
        eexists. split; [reflexivity|]. cbn [List.length]. lia. }
    unfold getitem, setitem. rewrite Hk.
    destruct (nth_error lines k) as [original|] eqn:Hn.
    2:{ apply nth_error_None in Hn. lia. }
    rewrite bind_ret.
    destruct (negb (ESLintHelper.fix_line (ESLintHelper.message error) original =? original)%string);
      [|now apply IH].
    rewrite bind_ret, bind_print. apply IH; [exact Hrest|].
    intros H. apply (f_equal (@List.length string)) in H. rewrite length_update in H.
    destruct lines; [now elim Hne|discriminate].
Qed.

(** The loop over the rule table raises its flag whenever it changes
    the text, and never lowers it. *)
Lemma apply_general_fixes_flag fixes :
  forall content changes,
    (changes = true -> snd (ESLintHelper.apply_general_fixes fixes content changes) = true)
    /\ (snd (ESLintHelper.apply_general_fixes fixes content changes) = false ->
        fst (ESLintHelper.apply_general_fixes fixes content changes) = content).
Proof.
  induction fixes as [|[pattern replacement] rest IH]; intros content changes;
    cbn [ESLintHelper.apply_general_fixes]; [now split|].
  destruct (negb (PyRe.sub pattern replacement content =? content)%string).
  - destruct (IH (PyRe.sub pattern replacement content) true) as (Ht & _).
    split; [intros _; now apply Ht|]. intros H. rewrite (Ht eq_refl) in H. discriminate.
  - apply IH.
Qed.

(** X9.  The two loops of [apply_parsing_fixes] keep [changes_made] honest.
    The loop over the diagnostics keeps the number of lines, raises
    nothing but [IndexError], and hands back a false flag only together
    with the lines it was given, having printed nothing; the loop over
    the rule table hands back a false flag only together with the text
    it was given; neither lowers a flag that was raised. *)
Theorem change_flags_are_sound errors lines fixes content changes w :
  match ESLintHelper.fix_error_lines errors lines changes w with
  | (Ok (lines', changes'), w') =>
      List.length lines' = List.length lines
      /\ (changes = true -> changes' = true)
      /\ (changes' = false -> lines' = lines /\ w' = w)
  | (Raise e, _) => e = IndexError
  end
  /\ (changes = true -> snd (ESLintHelper.apply_general_fixes fixes content changes) = true)
  /\ (snd (ESLintHelper.apply_general_fixes fixes content changes) = false ->
      fst (ESLintHelper.apply_general_fixes fixes content changes) = content).
Proof.
  split; [apply fix_error_lines_flag|apply apply_general_fixes_flag].
Qed.

Lemma lines_keepends_nonempty s : s <> "" -> PyStr.lines_keepends s <> [].
Proof.
  destruct s as [|c s]; [now intros H; elim H|]. intros _. cbn [PyStr.lines_keepends].
  destruct (Ascii.eqb c PyStr.nl); [discriminate|].
  destruct (PyStr.lines_keepends s); discriminate.
Qed.

Lemma universal_newlines_nonempty s : s <> "" -> PyStr.universal_newlines s <> "".
Proof.
  destruct s as [|c s]; [now intros H; elim H|]. intros _. cbn [PyStr.universal_newlines].
  destruct (Ascii.eqb c PyStr.cr); [|discriminate].
  destruct s as [|d s]; [discriminate|]. destruct (Ascii.eqb d PyStr.nl); discriminate.
Qed.

(** X10.  With the rule table of [__init__], the [except] clause of
    [apply_parsing_fixes] is never entered for what [get_file_errors]
    makes of a report, when no file operation fails and the file is not
    empty: the line numbers it parses cannot send the loop over the
    diagnostics outside the file. *)
Theorem measured_diagnostics_fit_the_file env project_dir path output w c :
  (forall n, fault env n = false) ->
  file w = Some c -> c <> "" ->
  exists b w',
    ESLintHelper.apply_parsing_fixes env (ESLintHelper.init project_dir) path
      (ESLintHelper.parse_output output) w
    = (Ok b, w')
    /\ occurrences is_rewrite_failure (trace w') = occurrences is_rewrite_failure (trace w).
Proof.
  intros Hnf Hfile Hc.
  unfold ESLintHelper.apply_parsing_fixes, try_except.
  unfold bind at 1. unfold read_text, faulty. rewrite Hnf, Hfile.
  unfold bind at 1.
  set (lines := PyStr.lines_keepends (PyStr.universal_newlines c)).
  destruct (fix_error_lines_total (ESLintHelper.parse_output output) lines false (log OpenRead w))
    as (lines' & changes' & w1 & E).
  { intros e He. revert e He. apply parse_output_forall. intros cf m _ _. apply N2Z.is_nonneg. }
  { apply lines_keepends_nonempty, universal_newlines_nonempty, Hc. }
  destruct (fix_error_lines_run (ESLintHelper.parse_output output) lines false (log OpenRead w))
    as (r & evs & E' & F).
  rewrite E in E'. injection E' as <- ->. rewrite E.
  assert (N : occurrences is_rewrite_failure (evs ++ OpenRead :: trace w)
              = occurrences is_rewrite_failure (trace w)).
  { rewrite occurrences_app.
    rewrite (occurrences_none is_rewrite_failure is_fixed_line evs ltac:(by_cases_on_event) F).
    reflexivity. }
  destruct (ESLintHelper.apply_general_fixes _ _ _) as [content [|]].
  - unfold bind, write_text, faulty. rewrite !Hnf. eexists _, _. split; [reflexivity|].
    cbn [trace log set_file]. exact N.
  - eexists _, _. split; [reflexivity|]. exact N.
Qed.

(** ** Backups *)

(** X11.  Snapshot and restore: when no file operation fails, whatever
    happens to the file between [create_backup] and [restore_backup],
    the restore brings back the content the snapshot was taken of and
    removes the backup. *)
Theorem backup_round_trip env path w c :
  (forall n, fault env n = false) ->
  file w = Some c ->
  exists w1,
    ESLintHelper.create_backup env path w = (Ok (path ++ ".bak")%string, w1)
    /\ bak w1 = Some c
    /\ forall w2, bak w2 = bak w1 ->
         exists w3,
           ESLintHelper.restore_backup env path (path ++ ".bak")%string w2 = (Ok tt, w3)
           /\ file w3 = Some c /\ bak w3 = None.
Proof.
  intros Hnf Hfile.
  unfold ESLintHelper.create_backup, bind, copy_to_bak, faulty. rewrite Hnf, Hfile.
  eexists. split; [reflexivity|]. split; [reflexivity|].
  intros w2 Hb. cbn [bak set_bak log] in Hb.
  destruct (restore_backup_run env path (path ++ ".bak")%string w2)
    as (r & w3 & E & _ & _ & Hr & Hff).
  assert (r = Ok tt) as -> by (apply Hff; [exact Hnf|rewrite Hb; discriminate]).
  exists w3. destruct Hr as (Hf & Hn & _). rewrite Hb in Hf. auto.
Qed.

(** ** Sessions *)

(** X12.  A session that ends in an exception has not lost the original:
    either the file is as it was found, or the backup holds what the
    file held when the session began. *)
Theorem raised_session_keeps_the_original env self path w e w' :
  ESLintHelper.clean_file_automatically env self path w = (Raise e, w') ->
  file w' = file w \/ (bak w' = file w /\ file w <> None).
Proof.
  intros Hrun.
  destruct (session_cases env self path w) as (r & w1 & E & Hc).
  rewrite Hrun in E. injection E as <- <-. cbv zeta in Hc.
  destruct Hc as [(_ & Hr & _)
                 |[(_ & _ & Hf & _)
                  |[(_ & w5 & counts & _ & _ & Hr)
                   |(_ & w5 & e0 & wh & A & Et & Ex)]]]; try discriminate.
  - now left.
  - right. destruct A as (_ & B5 & Hne & _).
    destruct (try_block_run env self path (path ++ ".bak")
                (List.length (measure (checker env (spawns w) (file w)))) w5)
      as (r1 & w1 & E1 & _ & _ & _ & Hr1 & _).
    rewrite Et in E1. injection E1 as <- <-. destruct Hr1 as (Bh & _).
    rewrite (except_clause_raise _ _ _ _ _ _ _ _ Ex). split; [congruence|exact Hne].
Qed.


(** X14.  One snapshot per session.  A session whose first measurement finds
    diagnostics calls for the copy to the backup path exactly once,
    before anything is written, copied back or removed; a session on a
    clean file never does. *)
Theorem snapshot_is_taken_once_and_first env self path w :
  let initial := List.length (measure (checker env (spawns w) (file w))) in
  exists r w',
    ESLintHelper.clean_file_automatically env self path w = (r, w')
    /\ if initial =? 0
       then occurrences is_snapshot (trace w') = occurrences is_snapshot (trace w)
       else exists after before,
              trace w' = after ++ CopyToBak :: before ++ trace w
              /\ existsb is_mutation before = false
              /\ existsb is_snapshot after = false.
Proof.
  intros init. unfold ESLintHelper.clean_file_automatically.
  rewrite bind_print.
  set (w1 := log (Print (MsgAutoCleaning path)) w).
  destruct (get_file_errors_run env path w1) as (evs & E2 & F2).
  rewrite (bind_ok _ _ _ _ _ E2).
  change (measure (checker env (spawns w1) (file w1)))
    with (measure (checker env (spawns w) (file w))) in *.
  fold init. rewrite bind_print.
  set (w2 := MkWorld (file w1) (bak w1) (S (spawns w1)) (evs ++ Spawn :: trace w1)) in *.
  set (w3 := log (Print (MsgInitialFileErrors init)) w2).
  set (before := Print (MsgInitialFileErrors init) :: evs
                 ++ [Spawn; Print (MsgAutoCleaning path)]).
  assert (T3 : trace w3 = before ++ trace w).
  { unfold before, w3, w2, w1. cbn. now rewrite <- app_assoc. }
  assert (M3 : existsb is_mutation before = false).
  { unfold before. cbn [existsb is_mutation orb]. rewrite existsb_app. cbn.
    rewrite orb_false_r. apply not_true_is_false. intros H.
    apply existsb_exists in H as (e & He & Hm).
    rewrite forallb_forall in F2. specialize (F2 e He).
    destruct e as [| | | | | | | |[]]; discriminate. }
  assert (S3 : occurrences is_snapshot before = 0).
  { apply (occurrences_none is_snapshot (fun e => negb (is_mutation e))).
    - by_cases_on_event.
    - apply forallb_forall. intros e He. destruct (is_mutation e) eqn:Em; [|reflexivity].
      assert (existsb is_mutation before = true) by (apply existsb_exists; eauto).
      congruence. }
  destruct (init =? 0).
  { rewrite bind_print. eexists _, _. split; [reflexivity|].
    rewrite occurrences_log. cbn [is_snapshot plus].
    rewrite T3, occurrences_app, S3. reflexivity. }
  destruct (create_backup_run env path w3) as (r4 & w4 & E4 & _ & _ & Ht4 & _ & _).
  destruct r4 as [bp|e].
  2:{ rewrite (bind_raise _ _ _ _ _ E4). eexists _, _. split; [reflexivity|].
      exists [], before. rewrite Ht4, T3. now repeat split. }
  rewrite (bind_ok _ _ _ _ _ E4), bind_print.
  set (w5 := log (Print MsgCreatedBackup) w4).
  assert (Hafter : forall w6, grows (fun e => is_try_event e || is_except_event e) w5 w6 ->
             exists after, trace w6 = after ++ CopyToBak :: before ++ trace w
                           /\ existsb is_snapshot after = false).
  { intros w6 (evs6 & H6 & F6). exists (evs6 ++ [Print MsgCreatedBackup]). split.
    - rewrite H6. unfold w5. cbn [trace log]. rewrite Ht4, T3, <- app_assoc. reflexivity.
    - rewrite existsb_app. cbn. rewrite orb_false_r. apply not_true_is_false. intros H.
      apply existsb_exists in H as (e & He & Hm).
      rewrite forallb_forall in F6. specialize (F6 e He).
      destruct e as [| | | | | | | |[]]; discriminate. }
  unfold try_except.
  destruct (try_block_run env self path bp init w5) as (r6 & w6 & E6 & _ & G6 & _).
  rewrite E6. destruct r6 as [counts|e].
  - eexists _, _. split; [reflexivity|].
    destruct (Hafter w6) as (after & Ha & Hs).
    { apply (grows_weaken is_try_event); [|exact G6]. intros e ->. reflexivity. }
    exists after, before. auto.
  - destruct (except_clause_run env path bp init e w6) as (r7 & w7 & E7 & _ & G7 & _).
    rewrite E7. eexists _, _. split; [reflexivity|].
    destruct (Hafter w7) as (after & Ha & Hs).
    { apply grows_trans with w6.
      - apply (grows_weaken is_try_event); [|exact G6]. intros e0 ->. reflexivity.
      - apply (grows_weaken is_except_event); [|exact G7].
        intros e0 ->. apply orb_true_r. }
    exists after, before. auto.
Qed.

(** ** The check at the start of an iteration *)

Section StartCheck.
Variable lint : option string -> proc.
Variable sep : string.
Variable self : ESLintHelper.t.
Variables path backup_path : string.
Variable initial : nat.

Let env := MkEnv (fun _ => lint) (fun _ => false) sep.
Let count (f : option string) : nat := List.length (measure (lint f)).
Let calm (e : event) : bool := is_loop_event e && negb (is_start_regression e).

Lemma while_loop_start_check :
  forall remaining iteration w,
    file w <> None -> bak w <> None -> count (file w) <= initial ->
    exists r w',
      ESLintHelper.while_loop env self path backup_path initial remaining iteration w
      = (r, w')
      /\ grows calm w w'.
Proof.
  assert (Hnf : forall n, fault env n = false) by reflexivity.
  induction remaining as [|remaining IH]; intros iteration w Hfile Hbak Hcount;
    cbn [ESLintHelper.while_loop].
  { eexists _, _. split; [reflexivity|apply grows_refl]. }
  rewrite bind_print.
  set (w1 := log (Print (MsgIteration (S iteration))) w).
  destruct (get_file_errors_step env path w1) as (w2 & E2 & Hf2 & Hb2 & Hs2 & G2).
  rewrite (bind_ok _ _ _ _ _ E2).
  change (measure (checker env (spawns w1) (file w1))) with (measure (lint (file w))) in *.
  set (current := measure (lint (file w))) in *.
  destruct (List.length current =? 0).
  { rewrite bind_print. eexists _, _. split; [reflexivity|].
    unfold w1 in *. unfold calm. grows_tac. }
  destruct (initial <? List.length current) eqn:Elt.
  { apply Nat.ltb_lt in Elt. unfold count, current in *. lia. }
  apply Nat.ltb_ge in Elt.
  rewrite bind_print.
  set (w3 := log (Print (MsgFileHasErrors (List.length current))) w2).
  destruct (print_errors_step (firstn 3 current) w3) as (w4 & E4 & Hf4 & Hb4 & Hs4 & G4).
  rewrite (bind_ok _ _ _ _ _ E4).
  assert (exists w5, (if 3 <? List.length current
                      then print (MsgAndMore (List.length current - 3)) else ret tt) w4
                     = (Ok tt, w5)
                     /\ file w5 = file w4 /\ bak w5 = bak w4
                     /\ grows is_quiet w4 w5) as (w5 & E5 & Hf5 & Hb5 & G5).
  { destruct (3 <? List.length current); eexists; (split; [reflexivity|]); repeat split;
      [now apply grows_log|apply grows_refl]. }
  rewrite (bind_ok _ _ _ _ _ E5).
  assert (F5 : file w5 = file w) by (rewrite Hf5, Hf4; cbn; exact Hf2).
  assert (B5 : bak w5 = bak w) by (rewrite Hb5, Hb4; cbn; exact Hb2).
  destruct (apply_parsing_fixes_step env self path current w5)
    as (changed & w6 & E6 & Hb6 & Hs6 & G6 & Htrue & Hfalse).
  rewrite (bind_ok _ _ _ _ _ E6).
  destruct changed; cbn [negb].
  2:{ rewrite bind_print. eexists _, _. split; [reflexivity|].
      unfold w3, w1 in *. unfold calm. grows_tac. }
  destruct (Htrue eq_refl) as (c6 & Hc6).
  rewrite bind_print.
  set (w7 := log (Print MsgAppliedFixes) w6).
  destruct (get_file_errors_step env path w7) as (w8 & E8 & Hf8 & Hb8 & Hs8 & G8).
  rewrite (bind_ok _ _ _ _ _ E8).
  change (measure (checker env (spawns w7) (file w7))) with (measure (lint (file w6))) in *.
  set (post := measure (lint (file w6))) in *.
  assert (G : grows calm w w8) by (unfold w7, w3, w1 in *; unfold calm; grows_tac).
  destruct (List.length current <? List.length post) eqn:Eworse.
  { rewrite !bind_print.
    set (w9 := log (Print MsgRevertingIteration)
                   (log (Print (MsgFixesCreatedMoreErrors (List.length current)
                                                          (List.length post))) w8)).
    destruct (restore_backup_run env path backup_path w9)
      as (r10 & w10 & E10 & _ & G10 & _ & _).
    destruct r10 as [[]|e].
    - rewrite (bind_ok _ _ _ _ _ E10). eexists _, _. split; [reflexivity|].
      unfold w9 in *. unfold calm in *. grows_tac.
    - rewrite (bind_raise _ _ _ _ _ E10). eexists _, _. split; [reflexivity|].
      unfold w9 in *. unfold calm in *. grows_tac. }
  apply Nat.ltb_ge in Eworse.
  destruct (IH (S iteration) w8) as (r & w' & E & G').
  - rewrite Hf8. cbn. rewrite Hc6. discriminate.
  - rewrite Hb8. cbn. now rewrite Hb6, B5.
  - rewrite Hf8. cbn. unfold count, post, current in *. lia.
  - exists r, w'. split; [exact E|]. now apply grows_trans with w8.
Qed.
End StartCheck.

(** X15.  When the checker's verdict is a function of the file content and
    no file operation fails, the check at the start of an iteration
    never fires: a count above the initial one is always met first by
    the check that follows the rewrite. *)
Theorem start_check_never_fires lint sep self path c b n tr :
  let env := MkEnv (fun _ => lint) (fun _ => false) sep in
  let run := ESLintHelper.clean_file_automatically env self path (MkWorld (Some c) b n tr) in
  occurrences is_start_regression (trace (snd run)) = occurrences is_start_regression tr.
Proof.
  intros env run.
  set (w := MkWorld (Some c) b n tr) in *.
  destruct (session_cases env self path w) as (r & w' & E & Hc).
  unfold run. rewrite E. cbn [snd]. cbv zeta in Hc.
  set (initial := List.length (measure (checker env (spawns w) (file w)))) in *.
  assert (Hp : forall e, is_prelude_event e = true -> is_start_regression e = false)
    by by_cases_on_event.
  change tr with (trace w).
  destruct Hc as [(_ & _ & _ & _ & _ & G)
                 |[(_ & _ & _ & _ & _ & G & _)
                  |[(_ & w5 & counts & A & Et & _)
                   |(_ & w5 & e & wh & A & Et & Ex)]]].
  - apply (grows_occurrences _ (fun e => is_prelude_event e && negb (is_mutation e)));
      [|exact G].
    intros e He. apply andb_prop in He. now apply Hp.
  - exact (grows_occurrences _ _ _ _ Hp G).
  - destruct A as (F5 & B5 & Hne & _ & G5 & _).
    rewrite <- (grows_occurrences _ _ _ _ Hp G5).
    unfold ESLintHelper.try_block in Et.
    destruct (while_loop_start_check lint sep self path (path ++ ".bak") initial
                (ESLintHelper.max_iterations self) 0 w5) as (r6 & w6 & E6 & G6).
    { congruence. } { congruence. } { rewrite F5. apply le_n. }
    fold env in E6.
    assert (N6 : occurrences is_start_regression (trace w6)
                 = occurrences is_start_regression (trace w5)).
    { apply (grows_occurrences is_start_regression
               (fun e => is_loop_event e && negb (is_start_regression e))); [|exact G6].
      intros e He. apply andb_prop in He as [_ He]. now apply negb_true_iff in He. }
    rewrite <- N6.
    destruct r6 as [[p|it]|e6].
    + rewrite (bind_ok _ _ _ _ _ E6) in Et. now injection Et as _ <-.
    + rewrite (bind_ok _ _ _ _ _ E6) in Et.
      destruct (final_results_run env self path initial it w6)
        as (r8 & w8 & E8 & _ & _ & G8 & _).
      rewrite Et in E8. injection E8 as _ <-.
      apply (grows_occurrences is_start_regression is_final_event);
        [by_cases_on_event|exact G8].
    + rewrite (bind_raise _ _ _ _ _ E6) in Et. discriminate.
  - destruct A as (_ & B5 & _ & _ & _ & _). cbn in B5.
    destruct (try_block_run env self path (path ++ ".bak") initial w5)
      as (r1 & w1 & E1 & _ & _ & _ & _ & Hff).
    rewrite Et in E1. injection E1 as <- <-.
    destruct (Hff ltac:(reflexivity)) as (p & Hp'); [rewrite B5|]; discriminate.
Qed.

(** ** [test_single_file] *)

(** X16.  [test_single_file] is a session with the budget [__init__] sets:
    whatever the checker answers and whatever fails, it goes through at
    most 20 iterations and runs the checker at most 42 times. *)
Theorem test_single_file_stays_within_budget env path w :
  exists r w',
    ESLintHelper.test_single_file env path w = (r, w')
    /\ occurrences is_iteration (trace w') <= occurrences is_iteration (trace w) + 20
    /\ spawns w' <= spawns w + 42.
Proof.
  unfold ESLintHelper.test_single_file.
  set (self := ESLintHelper.init ".").
  destruct (session_cases env self path w) as (r & w' & E & Hc).
  assert (exists r', bind (ESLintHelper.clean_file_automatically env self path)
                          (fun _ => ret tt) w = (r', w')) as (r' & E').
  { unfold bind. rewrite E. destruct r as [counts|e]; now eexists. }
  exists r', w'. split; [exact E'|].
  cbv zeta in Hc.
  set (initial := List.length (measure (checker env (spawns w) (file w)))) in *.
  assert (Hp : forall e, is_prelude_event e = true -> is_iteration e = false)
    by by_cases_on_event.
  change 42 with (2 * ESLintHelper.max_iterations self + 2).
  change 20 with (ESLintHelper.max_iterations self).
  destruct Hc as [(_ & _ & _ & _ & Hs & G)
                 |[(_ & _ & _ & _ & Hs & G & _)
                  |[(_ & w5 & counts & A & Et & _)
                   |(_ & w5 & e & wh & A & Et & Ex)]]].
  - split; [|lia].
    rewrite (grows_occurrences is_iteration
               (fun e => is_prelude_event e && negb (is_mutation e)) w w'); [lia| |exact G].
    intros e He. apply andb_prop in He. now apply Hp.
  - split; [|lia].
    rewrite (grows_occurrences is_iteration is_prelude_event w w' Hp G). lia.
  - destruct A as (_ & _ & _ & S5 & G5 & _).
    destruct (try_block_run env self path (path ++ ".bak") initial w5)
      as (r1 & w1 & E1 & Hs1 & _ & Hi1 & _).
    rewrite Et in E1. injection E1 as <- <-.
    rewrite (grows_occurrences is_iteration is_prelude_event w w5 Hp G5) in Hi1. lia.
  - destruct A as (_ & _ & _ & S5 & G5 & _).
    destruct (try_block_run env self path (path ++ ".bak") initial w5)
      as (r1 & w1 & E1 & Hs1 & _ & Hi1 & _).
    rewrite Et in E1. injection E1 as <- <-.
    destruct (except_clause_run env path (path ++ ".bak") initial e wh)
      as (r2 & w2 & E2 & Hs2 & G2 & _).
    rewrite Ex in E2. injection E2 as <- <-.
    rewrite (grows_occurrences is_iteration is_prelude_event w w5 Hp G5) in Hi1.
    rewrite (grows_occurrences is_iteration is_except_event wh w'
               ltac:(by_cases_on_event) G2).
    lia.
Qed.

(** ** The JSON report *)

Lemma read_messages_run path :
  forall msgs acc w,
    match ESLintAutomation.read_messages path msgs acc w with
    | (Ok errors, w') =>
        w' = w
        /\ exists new,
            errors = acc ++ new /\ List.length new = List.length msgs
            /\ forall e, In e new ->
                 ESLintAutomation.file_path e = path
                 /\ (ESLintAutomation.severity e = "error"
                     \/ ESLintAutomation.severity e = "warning")
    | (Raise e, w') => w' = w /\ e = AttributeError
    end.
Proof.
  induction msgs as [|msg msgs IH]; intros acc w; cbn [ESLintAutomation.read_messages].
  - split; [reflexivity|]. exists []. rewrite app_nil_r.
    split; [reflexivity|]. split; [reflexivity|]. intros e [].
  - destruct msg; cbv [ESLintAutomation.py_get bind raise ret]; try (now split).
    match goal with
    | |- context [ESLintAutomation.read_messages path msgs ?a w] =>
        specialize (IH a w);
        destruct (ESLintAutomation.read_messages path msgs a w) as [[errors|e] w']
    end; [|exact IH].
    destruct IH as (-> & new & -> & Hlen & Hnew). split; [reflexivity|].
    eexists (_ :: new). rewrite <- app_assoc. split; [reflexivity|].
    split; [cbn; now rewrite Hlen|].
    intros e [<-|He]; [|now apply Hnew]. cbn. split; [reflexivity|].
    destruct (ESLintAutomation.is_two _); auto.
Qed.

Lemma read_results_run path :
  forall results acc w,
    (forall e, In e acc ->
       ESLintAutomation.file_path e = path
       /\ (ESLintAutomation.severity e = "error" \/ ESLintAutomation.severity e = "warning")) ->
    match ESLintAutomation.read_results path results acc w with
    | (Ok errors, w') =>
        w' = w
        /\ forall e, In e errors ->
             ESLintAutomation.file_path e = path
             /\ (ESLintAutomation.severity e = "error"
                 \/ ESLintAutomation.severity e = "warning")
    | (Raise e, w') => w' = w
    end.
Proof.
  induction results as [|res results IH]; intros acc w Hacc;
    cbn [ESLintAutomation.read_results].
  - now split.
  - destruct res; cbv [ESLintAutomation.py_get bind raise ret]; try reflexivity.
    destruct (match ESLintAutomation.assoc "messages" fields with
              | Some v => v | None => ESLintAutomation.JArr [] end) eqn:Em;
      cbv [ESLintAutomation.py_iter raise ret]; try reflexivity;
      match goal with
      | |- context [ESLintAutomation.read_messages path ?ms acc w] =>
          pose proof (read_messages_run path ms acc w) as Hm;
          destruct (ESLintAutomation.read_messages path ms acc w) as [[errs|e] w2]
      end;
      try (destruct Hm as (-> & _); reflexivity);
      destruct Hm as (-> & new & -> & _ & Hnew);
      apply IH; intros e He; apply in_app_iff in He as [He|He]; auto.
Qed.

Lemma automation_get_file_errors_step env json_loads path w :
  exists errors w',
    ESLintAutomation.get_file_errors env json_loads path w = (Ok errors, w')
    /\ file w' = file w /\ bak w' = bak w /\ spawns w' = S (spawns w)
    /\ grows is_measure_event w w'
    /\ forall e, In e errors ->
         ESLintAutomation.file_path e = path
         /\ (ESLintAutomation.severity e = "error"
             \/ ESLintAutomation.severity e = "warning").
Proof.
  unfold ESLintAutomation.get_file_errors, try_except, bind at 1, subprocess_run.
  set (w1 := MkWorld (file w) (bak w) (S (spawns w)) (Spawn :: trace w)).
  assert (G1 : grows is_measure_event w w1) by (exists [Spawn]; now split).
  assert (G2 : forall e, grows is_measure_event w (log (Print (MsgErrorGettingFileErrors e)) w1))
    by (intros e; exists [Print (MsgErrorGettingFileErrors e); Spawn]; now split).
  destruct (checker env (spawns w) (file w)) as [e|out err].
  { eexists _, _. split; [reflexivity|]. do 3 (split; [reflexivity|]).
    split; [apply G2|intros ? []]. }
  destruct (json_loads out) as [v|].
  2:{ eexists _, _. split; [reflexivity|]. do 3 (split; [reflexivity|]).
      split; [apply G1|intros ? []]. }
  unfold bind. fold w1.
  destruct (ESLintAutomation.py_iter v w1) as [[results|e] w2] eqn:Ei.
  2:{ assert (w2 = w1) as ->
        by (destruct v; cbv [ESLintAutomation.py_iter raise ret] in Ei; congruence).
      eexists _, _. split; [reflexivity|]. do 3 (split; [reflexivity|]).
      split; [apply G2|intros ? []]. }
  assert (w2 = w1) as ->
    by (destruct v; cbv [ESLintAutomation.py_iter raise ret] in Ei; congruence).
  pose proof (read_results_run path results [] w1 ltac:(intros ? [])) as Hr.
  destruct (ESLintAutomation.read_results path results [] w1) as [[errors|e] w3].
  - destruct Hr as (-> & Hall). eexists _, _. split; [reflexivity|].
    do 3 (split; [reflexivity|]). split; [apply G1|exact Hall].
  - subst w3. eexists _, _. split; [reflexivity|]. do 3 (split; [reflexivity|]).
    split; [apply G2|intros ? []].
Qed.

(** X17.  Every diagnostic read from the JSON report carries the path the
    measurement was asked for, whatever file the report names, and its
    severity is one of the two words. *)
Theorem json_diagnostics_carry_the_requested_path env json_loads path w :
  exists errors w',
    ESLintAutomation.get_file_errors env json_loads path w = (Ok errors, w')
    /\ forall e, In e errors ->
         ESLintAutomation.file_path e = path
         /\ (ESLintAutomation.severity e = "error"
             \/ ESLintAutomation.severity e = "warning").
Proof.
  destruct (automation_get_file_errors_step env json_loads path w)
    as (errors & w' & E & _ & _ & _ & _ & H).
  now exists errors, w'.
Qed.

(** ** Reading and writing in [eslint-automation.py] *)

Lemma read_file_run env path w :
  exists r w' evs,
    ESLintAutomation.read_file env path w = (Ok r, w')
    /\ file w' = file w /\ bak w' = bak w /\ spawns w' = spawns w
    /\ trace w' = evs ++ trace w
    /\ forallb is_edit_event evs = true /\ existsb is_write evs = false
    /\ match r with
       | Some text => exists c, file w = Some c /\ text = PyStr.universal_newlines c
       | None => True
       end
    /\ ((forall n, fault env n = false) ->
        match file w with
        | Some c => r = Some (PyStr.universal_newlines c)
        | None => r = None
        end).
Proof.
  unfold ESLintAutomation.read_file, try_except, bind, read_text.
  destruct (faulty env w) eqn:Ef.
  { eexists None, _, [Print (MsgErrorReading OSError); OpenRead].
    split; [reflexivity|]. do 6 (split; [reflexivity|]). split; [exact I|].
    intros Hnf. unfold faulty in Ef. now rewrite Hnf in Ef. }
  destruct (file w) as [c|] eqn:Efile.
  - eexists (Some (PyStr.universal_newlines c)), _, [OpenRead].
    split; [reflexivity|]. cbn [file bak spawns trace log].
    split; [exact Efile|]. do 5 (split; [reflexivity|]).
    split; [now exists c|reflexivity].
  - eexists None, _, [Print (MsgErrorReading OSError); OpenRead].
    split; [reflexivity|]. cbn [file bak spawns trace log].
    split; [exact Efile|]. do 5 (split; [reflexivity|]). split; [exact I|reflexivity].
Qed.

Section WriteBack.
Variable env : Env.
Variable path : string.

(** The last lines of both rewrite steps: write back if changed. *)
Let write_back (new original : string) : M bool :=
  if negb (String.eqb new original) then ESLintAutomation.write_file env path new
  else ret false.

Lemma write_back_run new original w :
  exists b w' evs,
    write_back new original w = (Ok b, w')
    /\ bak w' = bak w /\ spawns w' = spawns w
    /\ trace w' = evs ++ trace w
    /\ forallb is_edit_event evs = true
    /\ (b = true -> existsb is_write evs = true)
    /\ (existsb is_write evs = false -> file w' = file w)
    /\ ((forall n, fault env n = false) -> b = false -> file w' = file w)
    /\ (forall content, existsb (writes content) evs = true -> content <> original).
Proof.
  unfold write_back.
  destruct (String.eqb new original) eqn:En; cbn [negb].
  { exists false, w, []. do 5 (split; [reflexivity|]).
    split; [discriminate|]. split; [reflexivity|]. split; [reflexivity|]. discriminate. }
  apply String.eqb_neq in En.
  assert (Hw : forall content tail,
             existsb (writes content) (tail ++ [Write new; OpenWrite]) = true ->
             forallb (fun e => negb (writes content e)) tail = true ->
             content <> original).
  { intros content tail H F. rewrite existsb_app in H. apply orb_prop in H as [H|H].
    - apply existsb_exists in H as (e & He & Hm).
      rewrite forallb_forall in F. specialize (F e He). rewrite Hm in F. discriminate.
    - cbn in H. rewrite orb_false_r in H. apply String.eqb_eq in H. now subst. }
  unfold ESLintAutomation.write_file, try_except, bind, write_text.
  destruct (faulty env w) eqn:Ef.
  { exists false, (log (Print (MsgErrorWriting OSError)) (log OpenWrite w)),
      [Print (MsgErrorWriting OSError); OpenWrite].
    do 5 (split; [reflexivity|]).
    split; [discriminate|]. split; [discriminate|].
    split; [intros Hnf; unfold faulty in Ef; now rewrite Hnf in Ef|]. discriminate. }
  destruct (faulty env (log OpenWrite w)) eqn:Ef1.
  { eexists false, _, [Print (MsgErrorWriting OSError); Write new; OpenWrite].
    split; [reflexivity|]. do 4 (split; [reflexivity|]).
    split; [discriminate|]. split; [discriminate|].
    split; [intros Hnf; unfold faulty in Ef1; now rewrite Hnf in Ef1|].
    intros content H. now apply (Hw content [Print (MsgErrorWriting OSError)]). }
  eexists true, _, [Write new; OpenWrite]. split; [reflexivity|].
  do 4 (split; [reflexivity|]).
  split; [reflexivity|]. split; [discriminate|]. split; [discriminate|].
  intros content H. now apply (Hw content []).
Qed.
End WriteBack.

(** ** Computations that only print *)

Lemma only_logs_ret {A} P (a : A) : only_logs P (ret a).
Proof. intros w. exists (Ok a), []. destruct w. now split. Qed.

Lemma only_logs_raise {A} P e : only_logs P (@raise A e).
Proof. intros w. exists (Raise e), []. destruct w. now split. Qed.

Lemma only_logs_print (P : event -> bool) m : P (Print m) = true -> only_logs P (print m).
Proof. intros H w. exists (Ok tt), [Print m]. cbn. now rewrite H. Qed.

Lemma only_logs_bind {A B} P (m : M A) (k : A -> M B) :
  only_logs P m -> (forall a, only_logs P (k a)) -> only_logs P (bind m k).
Proof.
  intros Hm Hk w. destruct (Hm w) as (r & evs & E & F). unfold bind. rewrite E.
  destruct r as [a|e].
  - destruct (Hk a (MkWorld (file w) (bak w) (spawns w) (evs ++ trace w)))
      as (r2 & evs2 & E2 & F2).
    exists r2, (evs2 ++ evs). rewrite E2. cbn. split; [now rewrite app_assoc|].
    rewrite forallb_app. now rewrite F, F2.
  - now exists (Raise e), evs.
Qed.

Lemma only_logs_getitem {A} P (l : list A) i : only_logs P (getitem l i).
Proof.
  unfold getitem. destruct (norm_index l i) as [k|]; [|apply only_logs_raise].
  destruct (nth_error l k); [apply only_logs_ret|apply only_logs_raise].
Qed.

Lemma only_logs_setitem {A} P (l : list A) i v : only_logs P (setitem l i v).
Proof.
  unfold setitem. destruct (norm_index l i); [apply only_logs_ret|apply only_logs_raise].
Qed.

Lemma only_logs_py_in P needle v : only_logs P (ESLintAutomation.py_in needle v).
Proof. destruct v; first [apply only_logs_ret|apply only_logs_raise]. Qed.

Lemma only_logs_py_minus_one P v : only_logs P (ESLintAutomation.py_minus_one v).
Proof. destruct v; first [apply only_logs_ret|apply only_logs_raise]. Qed.

Ltac only_logs_tac :=
  repeat first
    [ apply only_logs_ret
    | apply only_logs_raise
    | apply only_logs_print; reflexivity
    | apply only_logs_getitem
    | apply only_logs_setitem
    | apply only_logs_py_in
    | apply only_logs_py_minus_one
    | apply only_logs_bind; [|intros ?]
    | match goal with
      | |- only_logs _ (if ?c then _ else _) => destruct c
      | |- only_logs _ (match ?x with _ => _ end) => destruct x
      end ].

Lemma only_logs_fix_error lines error :
  only_logs is_fixed_on_line (ESLintAutomation.fix_error lines error).
Proof. unfold ESLintAutomation.fix_error. only_logs_tac. Qed.

Lemma only_logs_fix_errors errors :
  forall lines, only_logs is_fixed_on_line (ESLintAutomation.fix_errors errors lines).
Proof.
  induction errors as [|error rest IH]; intros lines; cbn [ESLintAutomation.fix_errors].
  - apply only_logs_ret.
  - apply only_logs_bind; [apply only_logs_fix_error|exact IH].
Qed.

Lemma only_logs_parsing_errors_of errors :
  only_logs (fun _ => false) (ESLintAutomation.parsing_errors_of errors).
Proof.
  induction errors as [|error rest IH]; cbn [ESLintAutomation.parsing_errors_of].
  - apply only_logs_ret.
  - apply only_logs_bind; [apply only_logs_py_in|intros keep].
    apply only_logs_bind; [exact IH|intros kept]. apply only_logs_ret.
Qed.

Lemma only_logs_apply_fixes fixes :
  forall content, only_logs is_common_event (ESLintAutomation.apply_fixes fixes content).
Proof.
  induction fixes as [|entry rest IH]; intros content; cbn [ESLintAutomation.apply_fixes].
  - apply only_logs_ret.
  - apply only_logs_bind; [|exact IH].
    unfold ESLintAutomation.apply_fix. destruct entry as [pattern fix_func].
    only_logs_tac.
Qed.

Lemma only_logs_nothing {A} (m : M A) w :
  only_logs (fun _ => false) m -> exists r, m w = (r, w).
Proof.
  intros H. destruct (H w) as (r & evs & E & F). exists r. rewrite E.
  destruct evs as [|e evs]; [now destruct w|discriminate].
Qed.

(** ** The two rewrite steps of [eslint-automation.py] *)

Lemma apply_fixes_run fixes :
  forall content w,
  exists content' evs,
    ESLintAutomation.apply_fixes fixes content w
    = (Ok content', MkWorld (file w) (bak w) (spawns w) (evs ++ trace w))
    /\ forallb is_common_event evs = true.
Proof.
  induction fixes as [|entry rest IH]; intros content w; cbn [ESLintAutomation.apply_fixes].
  - exists content, []. destruct w. now split.
  - destruct (apply_fix_run entry content w) as (evs1 & E1 & F1).
    rewrite (bind_ok _ _ _ _ _ E1).
    destruct (IH (common_fix_result entry content)
                 (MkWorld (file w) (bak w) (spawns w) (evs1 ++ trace w)))
      as (content' & evs2 & E2 & F2).
    exists content', (evs2 ++ evs1). rewrite E2. cbn. split.
    + now rewrite app_assoc.
    + rewrite forallb_app. now rewrite F1, F2.
Qed.

Lemma falsy_file env path w r w1 :
  ESLintAutomation.read_file env path w = (Ok r, w1) ->
  file w = None \/ file w = Some "" -> ESLintAutomation.falsy r = true.
Proof.
  destruct (read_file_run env path w) as (r' & w' & evs & E & _ & _ & _ & _ & _ & _ & Hr & _).
  rewrite E. intros [= <- <-] H. destruct r' as [text|]; [|reflexivity].
  destruct Hr as (c & Hc & ->). destruct H as [H|H]; rewrite H in Hc; [discriminate|].
  now injection Hc as <-.
Qed.

Ltac weaken_events F :=
  let e := fresh "e" in
  let He := fresh "He" in
  apply forallb_forall; intros e He;
  rewrite forallb_forall in F; specialize (F e He);
  destruct e as [| | | | | | | |[]]; try discriminate; reflexivity.

Ltac no_such_event F :=
  let H := fresh "H" in
  let e := fresh "e" in
  let He := fresh "He" in
  let Hm := fresh "Hm" in
  apply not_true_is_false; intros H;
  apply existsb_exists in H as (e & He & Hm);
  rewrite forallb_forall in F; specialize (F e He);
  destruct e as [| | | | | | | |[]]; discriminate.

Lemma apply_common_fixes_step env path w :
  exists b w' evs,
    ESLintAutomation.apply_common_fixes env path w = (Ok b, w')
    /\ bak w' = bak w /\ spawns w' = spawns w
    /\ trace w' = evs ++ trace w
    /\ forallb is_edit_event evs = true
    /\ (b = true -> existsb is_write evs = true)
    /\ (existsb is_write evs = false -> file w' = file w)
    /\ ((forall n, fault env n = false) -> b = false -> file w' = file w)
    /\ (forall c content, file w = Some c -> existsb (writes content) evs = true ->
                          content <> PyStr.universal_newlines c)
    /\ (file w = None \/ file w = Some "" -> b = false /\ existsb is_write evs = false).
Proof.
  unfold ESLintAutomation.apply_common_fixes.
  destruct (read_file_run env path w)
    as (r & w1 & evs1 & E1 & F1 & B1 & S1 & T1 & P1 & W1 & Hr & _).
  rewrite (bind_ok _ _ _ _ _ E1).
  assert (N1 : forall content, existsb (writes content) evs1 = false).
  { intros content. apply not_true_is_false. intros H.
    apply existsb_exists in H as (e & He & Hm).
    assert (existsb is_write evs1 = true); [|congruence].
    apply existsb_exists. exists e. split; [exact He|]. now destruct e. }
  destruct (ESLintAutomation.falsy r) eqn:Ef.
  { exists false, w1, evs1. do 5 (split; [assumption || reflexivity|]).
    split; [discriminate|]. split; [intros _; exact F1|]. split; [intros _ _; exact F1|].
    split; [intros c content _ H; now rewrite N1 in H|].
    intros _. now split. }
  destruct r as [text|]; [|discriminate]. destruct Hr as (c0 & Hc0 & Htext).
  destruct (apply_fixes_run ESLintAutomation.common_fixes text w1)
    as (content' & evs2 & E2 & P2).
  rewrite (bind_ok _ _ _ _ _ E2).
  set (w2 := MkWorld (file w1) (bak w1) (spawns w1) (evs2 ++ trace w1)) in *.
  destruct (write_back_run env path content' text w2)
    as (b & w3 & evs3 & E3 & B3 & S3 & T3 & P3 & Htrue & Hsame & Hfalse & Hne).
  rewrite E3. exists b, w3, (evs3 ++ evs2 ++ evs1).
  assert (W2 : existsb is_write evs2 = false) by no_such_event P2.
  assert (N2 : forall content, existsb (writes content) evs2 = false)
    by (intros content; no_such_event P2).
  split; [reflexivity|]. split; [rewrite B3; exact B1|]. split; [rewrite S3; exact S1|].
  split; [rewrite T3; unfold w2; cbn [trace]; now rewrite T1, !app_assoc|].
  split; [rewrite !forallb_app, P3, P1, andb_true_r; weaken_events P2|].
  split; [intros Hb; rewrite !existsb_app, (Htrue Hb); reflexivity|].
  split.
  { intros H. rewrite !existsb_app in H. apply orb_false_elim in H as (H & _).
    rewrite (Hsame H). exact F1. }
  split; [intros Hnf Hb; rewrite (Hfalse Hnf Hb); exact F1|].
  split.
  { intros c content Hc H. rewrite Hc in Hc0. injection Hc0 as <-. rewrite <- Htext.
    rewrite !existsb_app, N1, N2, !orb_false_r in H. now apply Hne. }
  intros H. rewrite (falsy_file env path w _ _ E1 H) in Ef. discriminate.
Qed.

Lemma parsing_errors_of_typed errors w :
  (forall e, In e errors -> well_typed e) ->
  exists kept,
    ESLintAutomation.parsing_errors_of errors w = (Ok kept, w)
    /\ forall e, In e kept -> In e errors.
Proof.
  induction errors as [|error rest IH]; intros H; cbn [ESLintAutomation.parsing_errors_of].
  - now exists [].
  - destruct (H error (or_introl eq_refl)) as ((s & Hs) & _). rewrite Hs.
    cbn [ESLintAutomation.py_in]. rewrite bind_ret.
    destruct IH as (kept & E & Hk); [intros e He; apply H; now right|].
    rewrite (bind_ok _ _ _ _ _ E).
    eexists. split; [reflexivity|].
    destruct (PyStr.contains "Parsing error" s).
    + intros e [<-|He]; [now left|right; now apply Hk].
    + intros e He. right. now apply Hk.
Qed.

Lemma norm_index_in_range {A} (l : list A) i :
  (0 <=? i)%Z && (i <? Z.of_nat (List.length l))%Z = true ->
  norm_index l i = Some (Z.to_nat i) /\ Z.to_nat i < List.length l.
Proof.
  intros H. unfold norm_index. rewrite H. split; [reflexivity|].
  apply andb_prop in H as (H0 & H1). apply Z.leb_le in H0. apply Z.ltb_lt in H1. lia.
Qed.

Lemma fix_error_typed lines error w :
  well_typed error ->
  exists lines' w', ESLintAutomation.fix_error lines error w = (Ok lines', w').
Proof.
  intros ((s & Hs) & (n & Hn)). unfold ESLintAutomation.fix_error. rewrite Hs, Hn.
  cbn [ESLintAutomation.py_minus_one ESLintAutomation.py_in]. rewrite bind_ret.
  destruct ((0 <=? n - 1)%Z && (n - 1 <? Z.of_nat (List.length lines))%Z) eqn:Hr;
    [|now eexists _, _].
  destruct (norm_index_in_range lines (n - 1)%Z Hr) as (Hk & Hlt).
  unfold getitem, setitem. rewrite Hk.
  destruct (nth_error lines (Z.to_nat (n - 1))) as [ln|] eqn:Hnth.
  2:{ apply nth_error_None in Hnth. lia. }
  rewrite !bind_ret.
  repeat match goal with
         | |- context [if ?c then _ else _] => destruct c
         | |- context [match PyRe.re_search ?r ?t with _ => _ end] =>
             destruct (PyRe.re_search r t)
         | |- _ => rewrite bind_ret
         | |- _ => rewrite bind_print
         end;
    now eexists _, _.
Qed.

Lemma fix_errors_typed errors :
  forall lines w,
    (forall e, In e errors -> well_typed e) ->
    exists lines' w', ESLintAutomation.fix_errors errors lines w = (Ok lines', w').
Proof.
  induction errors as [|error rest IH]; intros lines w H; cbn [ESLintAutomation.fix_errors].
  - now eexists _, _.
  - destruct (fix_error_typed lines error w (H error (or_introl eq_refl)))
      as (lines1 & w1 & E1).
    rewrite (bind_ok _ _ _ _ _ E1). apply IH. intros e He. apply H. now right.
Qed.

Lemma fix_parsing_errors_step env path errors w :
  exists r w' evs,
    ESLintAutomation.fix_parsing_errors env path errors w = (r, w')
    /\ bak w' = bak w /\ spawns w' = spawns w
    /\ trace w' = evs ++ trace w
    /\ forallb is_edit_event evs = true
    /\ (r = Ok true -> existsb is_write evs = true)
    /\ (existsb is_write evs = false -> file w' = file w)
    /\ ((forall n, fault env n = false) -> r <> Ok true -> file w' = file w)
    /\ (forall c content, file w = Some c -> existsb (writes content) evs = true ->
                          content <> PyStr.universal_newlines c)
    /\ (file w = None \/ file w = Some "" -> r <> Ok true /\ existsb is_write evs = false)
    /\ ((forall e, In e errors -> well_typed e) -> exists b, r = Ok b).
Proof.
  unfold ESLintAutomation.fix_parsing_errors.
  destruct (only_logs_nothing (ESLintAutomation.parsing_errors_of errors) w
              (only_logs_parsing_errors_of errors)) as (r0 & E0).
  assert (Hstop : forall (r : result bool),
             r <> Ok true -> ((forall e, In e errors -> well_typed e) -> exists b, r = Ok b) ->
             exists r' w' evs,
               (r, w) = (r', w')
               /\ bak w' = bak w /\ spawns w' = spawns w
               /\ trace w' = evs ++ trace w
               /\ forallb is_edit_event evs = true
               /\ (r' = Ok true -> existsb is_write evs = true)
               /\ (existsb is_write evs = false -> file w' = file w)
               /\ ((forall n, fault env n = false) -> r' <> Ok true -> file w' = file w)
               /\ (forall c content, file w = Some c ->
                     existsb (writes content) evs = true ->
                     content <> PyStr.universal_newlines c)
               /\ (file w = None \/ file w = Some "" ->
                   r' <> Ok true /\ existsb is_write evs = false)
               /\ ((forall e, In e errors -> well_typed e) -> exists b, r' = Ok b)).
  { intros r Hr Ht. exists r, w, []. do 5 (split; [reflexivity|]).
    split; [intros H; now elim Hr|]. split; [reflexivity|]. split; [reflexivity|].
    split; [discriminate|]. split; [now split|exact Ht]. }
  destruct r0 as [kept|e0].
  2:{ rewrite (bind_raise _ _ _ _ _ E0). apply Hstop; [discriminate|].
      intros Ht. destruct (parsing_errors_of_typed errors w Ht) as (k & Ek & _). congruence. }
  rewrite (bind_ok _ _ _ _ _ E0).
  destruct kept as [|k0 kept']; [apply Hstop; [discriminate|intros _; now eexists]|].
  set (kept := k0 :: kept') in *.
  destruct (read_file_run env path w)
    as (r & w1 & evs1 & E1 & F1 & B1 & S1 & T1 & P1 & W1 & Hr & _).
  rewrite (bind_ok _ _ _ _ _ E1).
  assert (N1 : forall content, existsb (writes content) evs1 = false).
  { intros content. apply not_true_is_false. intros H.
    apply existsb_exists in H as (e & He & Hm).
    assert (existsb is_write evs1 = true); [|congruence].
    apply existsb_exists. exists e. split; [exact He|]. now destruct e. }
  destruct (ESLintAutomation.falsy r) eqn:Ef.
  { exists (Ok false), w1, evs1. do 5 (split; [assumption || reflexivity|]).
    split; [discriminate|]. split; [intros _; exact F1|]. split; [intros _ _; exact F1|].
    split; [intros c content _ H; now rewrite N1 in H|].
    split; [intros _; now split|intros _; now eexists]. }
  destruct r as [text|]; [|discriminate]. destruct Hr as (c0 & Hc0 & Htext).
  destruct (only_logs_fix_errors kept (PyStr.split PyStr.nl text) w1)
    as (r2 & evs2 & E2 & P2).
  set (w2 := MkWorld (file w1) (bak w1) (spawns w1) (evs2 ++ trace w1)) in *.
  assert (W2 : existsb is_write evs2 = false) by no_such_event P2.
  assert (N2 : forall content, existsb (writes content) evs2 = false)
    by (intros content; no_such_event P2).
  assert (Q2 : forallb is_edit_event evs2 = true) by weaken_events P2.
  assert (Hfalsy : file w = None \/ file w = Some "" -> False).
  { intros H. rewrite (falsy_file env path w _ _ E1 H) in Ef. discriminate. }
  destruct r2 as [lines'|e2].
  2:{ rewrite (bind_raise _ _ _ _ _ E2). exists (Raise e2), w2, (evs2 ++ evs1).
      split; [reflexivity|]. split; [exact B1|]. split; [exact S1|].
      split; [unfold w2; cbn [trace]; now rewrite T1, app_assoc|].
      split; [rewrite forallb_app; now rewrite Q2, P1|].
      split; [discriminate|]. split; [intros _; exact F1|]. split; [intros _ _; exact F1|].
      split; [intros c content _ H; now rewrite existsb_app, N1, N2 in H|].
      split; [intros H; now elim (Hfalsy H)|].
      intros Ht.
      destruct (fix_errors_typed kept (PyStr.split PyStr.nl text) w1) as (l & w' & El).
      { intros e He. apply Ht.
        destruct (parsing_errors_of_typed errors w Ht) as (k & Ek & Hk).
        rewrite E0 in Ek. injection Ek as <-. now apply Hk. }
      congruence. }
  rewrite (bind_ok _ _ _ _ _ E2).
  destruct (write_back_run env path (PyStr.join (String PyStr.nl "") lines') text w2)
    as (b & w3 & evs3 & E3 & B3 & S3 & T3 & P3 & Htrue & Hsame & Hfalse & Hne).
  rewrite E3. exists (Ok b), w3, (evs3 ++ evs2 ++ evs1).
  split; [reflexivity|]. split; [rewrite B3; exact B1|]. split; [rewrite S3; exact S1|].
  split; [rewrite T3; unfold w2; cbn [trace]; now rewrite T1, !app_assoc|].
  split; [rewrite !forallb_app; now rewrite P3, Q2, P1|].
  split; [intros [= Hb]; rewrite !existsb_app, (Htrue Hb); reflexivity|].
  split.
  { intros H. rewrite !existsb_app in H. apply orb_false_elim in H as (H & _).
    rewrite (Hsame H). exact F1. }
  split.
  { intros Hnf Hb. rewrite (Hfalse Hnf); [exact F1|]. destruct b; [now elim Hb|reflexivity]. }
  split.
  { intros c content Hc H. rewrite Hc in Hc0. injection Hc0 as <-. rewrite <- Htext.
    rewrite !existsb_app, N1, N2, !orb_false_r in H. now apply Hne. }
  split; [intros H; now elim (Hfalsy H)|intros _; now eexists].
Qed.

(** ** Computations that do not touch the world *)

Lemma answers_ret {A} (a : A) : answers (ret a) (Ok a).
Proof. now intros w. Qed.

Lemma answers_raise {A} e : answers (@raise A e) (Raise e).
Proof. now intros w. Qed.

Lemma answers_bind {A B} (m : M A) (k : A -> M B) :
  (exists r, answers m r) -> (forall a, exists r, answers (k a) r) ->
  exists r, answers (bind m k) r.
Proof.
  intros ([a|e] & Hm) Hk.
  - destruct (Hk a) as (r & Hr). exists r. intros w. unfold bind. now rewrite Hm.
  - exists (Raise e). intros w. unfold bind. now rewrite Hm.
Qed.

Lemma answers_py_get d key default : exists r, answers (ESLintAutomation.py_get d key default) r.
Proof. destruct d; eexists; first [apply answers_ret|apply answers_raise]. Qed.

Lemma answers_py_iter v : exists r, answers (ESLintAutomation.py_iter v) r.
Proof. destruct v; eexists; first [apply answers_ret|apply answers_raise]. Qed.

Lemma answers_read_messages path msgs :
  forall acc, exists r, answers (ESLintAutomation.read_messages path msgs acc) r.
Proof.
  induction msgs as [|msg msgs IH]; intros acc; cbn [ESLintAutomation.read_messages].
  - eexists. apply answers_ret.
  - repeat (apply answers_bind; [apply answers_py_get|intros ?]). apply IH.
Qed.

Lemma answers_read_results path results :
  forall acc, exists r, answers (ESLintAutomation.read_results path results acc) r.
Proof.
  induction results as [|res results IH]; intros acc; cbn [ESLintAutomation.read_results].
  - eexists. apply answers_ret.
  - apply answers_bind; [apply answers_py_get|intros messages].
    apply answers_bind; [apply answers_py_iter|intros items].
    apply answers_bind; [apply answers_read_messages|intros errors']. apply IH.
Qed.

(** The measurement of [eslint-automation.py] never raises: it returns
    what [report_errors] makes of the checker's run, leaves both files
    alone and runs the checker once. *)
Lemma automation_measure env json_loads path w :
  exists w',
    ESLintAutomation.get_file_errors env json_loads path w
    = (Ok (report_errors json_loads path (checker env (spawns w) (file w))), w')
    /\ file w' = file w /\ bak w' = bak w /\ spawns w' = S (spawns w)
    /\ grows is_measure_event w w'.
Proof.
  unfold ESLintAutomation.get_file_errors, try_except, bind at 1, subprocess_run,
    report_errors.
  set (w1 := MkWorld (file w) (bak w) (S (spawns w)) (Spawn :: trace w)).
  assert (G1 : grows is_measure_event w w1) by (exists [Spawn]; now split).
  assert (G2 : forall e, grows is_measure_event w (log (Print (MsgErrorGettingFileErrors e)) w1))
    by (intros e; exists [Print (MsgErrorGettingFileErrors e); Spawn]; now split).
  destruct (checker env (spawns w) (file w)) as [e|out err].
  { eexists. split; [reflexivity|]. do 3 (split; [reflexivity|]). apply G2. }
  destruct (json_loads out) as [v|].
  2:{ eexists. split; [reflexivity|]. do 3 (split; [reflexivity|]). apply G1. }
  destruct (answers_bind (ESLintAutomation.py_iter v)
              (fun results => ESLintAutomation.read_results path results [])
              (answers_py_iter v) (fun results => answers_read_results path results []))
    as (r & Hr).
  rewrite !Hr. destruct r as [errors|e].
  - eexists. split; [reflexivity|]. do 3 (split; [reflexivity|]). apply G1.
  - eexists. split; [reflexivity|]. do 3 (split; [reflexivity|]). apply G2.
Qed.

Lemma existsb_false_forallb {A} (P : A -> bool) l :
  existsb P l = false -> forallb (fun e => negb (P e)) l = true.
Proof.
  induction l as [|a l IH]; [reflexivity|]. cbn. intros H.
  apply orb_false_elim in H as (-> & H). now rewrite IH.
Qed.

(** ** [fix_parsing_errors] and [apply_common_fixes] *)

(** X18.  Without a diagnostic whose message holds [Parsing error],
    [fix_parsing_errors] answers [False] at once: the file is not even
    opened. *)
Theorem no_parsing_diagnostic_no_read env path errors w :
  (forall e, In e errors ->
     exists s, ESLintAutomation.message e = ESLintAutomation.JStr s
               /\ PyStr.contains "Parsing error" s = false) ->
  ESLintAutomation.fix_parsing_errors env path errors w = (Ok false, w).
Proof.
  intros H. unfold ESLintAutomation.fix_parsing_errors.
  assert (E : ESLintAutomation.parsing_errors_of errors w = (Ok [], w)).
  { induction errors as [|error rest IH]; [reflexivity|].
    cbn [ESLintAutomation.parsing_errors_of].
    destruct (H error (or_introl eq_refl)) as (s & -> & Hs).
    cbn [ESLintAutomation.py_in]. rewrite bind_ret, Hs.
    rewrite (bind_ok _ _ _ _ _ (IH (fun e He => H e (or_intror He)))). reflexivity. }
  now rewrite (bind_ok _ _ _ _ _ E).
Qed.

(** X19.  A file that is missing or empty is never written: both rewrite
    steps take what they read for nothing to work on. *)
Theorem empty_file_is_never_written env path errors w :
  file w = None \/ file w = Some "" ->
  (exists w',
      ESLintAutomation.apply_common_fixes env path w = (Ok false, w')
      /\ file w' = file w /\ grows (fun e => negb (is_write e)) w w')
  /\ (exists r w',
         ESLintAutomation.fix_parsing_errors env path errors w = (r, w')
         /\ r <> Ok true
         /\ file w' = file w /\ grows (fun e => negb (is_write e)) w w').
Proof.
  intros H. split.
  - destruct (apply_common_fixes_step env path w)
      as (b & w' & evs & E & _ & _ & T & _ & _ & Hsame & _ & _ & Hempty).
    destruct (Hempty H) as (-> & Hw). exists w'. split; [exact E|].
    split; [exact (Hsame Hw)|]. exists evs. split; [exact T|].
    now apply existsb_false_forallb.
  - destruct (fix_parsing_errors_step env path errors w)
      as (r & w' & evs & E & _ & _ & T & _ & _ & Hsame & _ & _ & Hempty & _).
    destruct (Hempty H) as (Hr & Hw). exists r, w'. split; [exact E|].
    split; [exact Hr|]. split; [exact (Hsame Hw)|]. exists evs. split; [exact T|].
    now apply existsb_false_forallb.
Qed.

(** X20.  Neither rewrite step writes back the text it has read: a write is
    attempted only with a text that differs from it. *)
Theorem unchanged_text_is_not_written env path errors w c :
  file w = Some c ->
  (exists b w' evs,
      ESLintAutomation.apply_common_fixes env path w = (Ok b, w')
      /\ trace w' = evs ++ trace w
      /\ existsb (writes (PyStr.universal_newlines c)) evs = false)
  /\ (exists r w' evs,
         ESLintAutomation.fix_parsing_errors env path errors w = (r, w')
         /\ trace w' = evs ++ trace w
         /\ existsb (writes (PyStr.universal_newlines c)) evs = false).
Proof.
  intros Hc. split.
  - destruct (apply_common_fixes_step env path w)
      as (b & w' & evs & E & _ & _ & T & _ & _ & _ & _ & Hne & _).
    exists b, w', evs. split; [exact E|]. split; [exact T|].
    apply not_true_is_false. intros H. now apply (Hne c _ Hc H).
  - destruct (fix_parsing_errors_step env path errors w)
      as (r & w' & evs & E & _ & _ & T & _ & _ & _ & _ & Hne & _).
    exists r, w', evs. split; [exact E|]. split; [exact T|].
    apply not_true_is_false. intros H. now apply (Hne c _ Hc H).
Qed.

(** X21.  On diagnostics whose message is a text and whose line is an
    integer, [fix_parsing_errors] never raises. *)
Theorem well_typed_diagnostics_never_raise env path errors w :
  (forall e, In e errors -> well_typed e) ->
  exists b w', ESLintAutomation.fix_parsing_errors env path errors w = (Ok b, w').
Proof.
  intros H.
  destruct (fix_parsing_errors_step env path errors w)
    as (r & w' & evs & E & _ & _ & _ & _ & _ & _ & _ & _ & _ & Ht).
  destruct (Ht H) as (b & ->). now exists b, w'.
Qed.

(** ** [clean_single_file] *)

Section SingleFile.
Variable env : Env.
Variable json_loads : string -> option ESLintAutomation.json.
Variable path : string.

Let quiet (e : event) : bool := negb (is_backup_event e).

Lemma single_file_loop_run :
  forall remaining iterations changes w,
  exists r w' evs,
    ESLintAutomation.single_file_loop env json_loads path remaining iterations changes w
    = (r, w')
    /\ bak w' = bak w
    /\ spawns w' <= spawns w + remaining
    /\ trace w' = evs ++ trace w
    /\ forallb quiet evs = true
    /\ occurrences is_iteration evs <= remaining
    /\ (r = Ok true -> changes = true \/ existsb is_write evs = true)
    /\ (r = Ok false -> changes = false)
    /\ ((forall n, fault env n = false) -> r = Ok false -> file w' = file w).
Proof.
  induction remaining as [|remaining IH]; intros iterations changes w;
    cbn [ESLintAutomation.single_file_loop].
  { exists (Ok changes), w, []. do 5 (split; [reflexivity || lia|]).
    split; [apply Nat.le_refl|]. split; [intros [= ->]; now left|].
    split; [now intros [= ->]|reflexivity]. }
  destruct (automation_measure env json_loads path w) as (w1 & E1 & F1 & B1 & S1 & G1).
  rewrite (bind_ok _ _ _ _ _ E1).
  destruct G1 as (evs1 & T1 & P1).
  assert (Q1 : forallb quiet evs1 = true) by weaken_events P1.
  assert (I1 : occurrences is_iteration evs1 = 0)
    by (apply (occurrences_none is_iteration is_measure_event); [by_cases_on_event|exact P1]).
  destruct (report_errors json_loads path (checker env (spawns w) (file w)))
    as [|error0 errors0].
  { rewrite bind_print. eexists (Ok changes), _, (Print MsgFileIsClean :: evs1).
    split; [reflexivity|]. cbn [bak spawns trace file log].
    split; [exact B1|]. split; [lia|]. split; [now rewrite T1|].
    split; [cbn; exact Q1|]. split; [unfold occurrences in *; cbn; lia|].
    split; [intros [= ->]; now left|]. split; [now intros [= ->]|intros _ _; exact F1]. }
  set (current := error0 :: errors0).
  rewrite bind_print.
  set (w2 := log (Print (MsgIteration (S iterations))) w1).
  destruct (fix_parsing_errors_step env path current w2)
    as (r3 & w3 & evs3 & E3 & B3 & S3 & T3 & P3 & Htrue3 & _ & Hfalse3 & _).
  assert (Q3 : forallb quiet evs3 = true) by weaken_events P3.
  assert (I3 : occurrences is_iteration evs3 = 0)
    by (apply (occurrences_none is_iteration is_edit_event); [by_cases_on_event|exact P3]).
  destruct r3 as [fixed|e3].
  2:{ rewrite (bind_raise _ _ _ _ _ E3).
      exists (Raise e3), w3, (evs3 ++ Print (MsgIteration (S iterations)) :: evs1).
      split; [reflexivity|]. split; [rewrite B3; exact B1|].
      split; [rewrite S3; cbn; lia|].
      split; [rewrite T3; cbn; now rewrite T1, <- app_assoc|].
      split; [rewrite forallb_app, Q3; cbn; exact Q1|].
      split; [rewrite occurrences_app, I3; unfold occurrences in *; cbn; lia|].
      split; [discriminate|]. split; discriminate. }
  rewrite (bind_ok _ _ _ _ _ E3).
  assert (exists w4 evs4,
             (if fixed then print MsgAppliedFixes else ret tt) w3 = (Ok tt, w4)
             /\ file w4 = file w3 /\ bak w4 = bak w3 /\ spawns w4 = spawns w3
             /\ trace w4 = evs4 ++ trace w3 /\ forallb quiet evs4 = true
             /\ occurrences is_iteration evs4 = 0)
    as (w4 & evs4 & E4 & F4 & B4 & S4 & T4 & Q4 & I4).
  { destruct fixed.
    - eexists _, [Print MsgAppliedFixes]. split; [reflexivity|]. now repeat split.
    - eexists _, []. split; [reflexivity|]. now repeat split. }
  rewrite (bind_ok _ _ _ _ _ E4).
  destruct (apply_common_fixes_step env path w4)
    as (common & w5 & evs5 & E5 & B5 & S5 & T5 & P5 & Htrue5 & _ & Hfalse5 & _).
  assert (Q5 : forallb quiet evs5 = true) by weaken_events P5.
  assert (I5 : occurrences is_iteration evs5 = 0)
    by (apply (occurrences_none is_iteration is_edit_event); [by_cases_on_event|exact P5]).
  rewrite (bind_ok _ _ _ _ _ E5).
  assert (exists w6 evs6,
             (if common then print MsgAppliedFixes else ret tt) w5 = (Ok tt, w6)
             /\ file w6 = file w5 /\ bak w6 = bak w5 /\ spawns w6 = spawns w5
             /\ trace w6 = evs6 ++ trace w5 /\ forallb quiet evs6 = true
             /\ occurrences is_iteration evs6 = 0)
    as (w6 & evs6 & E6 & F6 & B6 & S6 & T6 & Q6 & I6).
  { destruct common.
    - eexists _, [Print MsgAppliedFixes]. split; [reflexivity|]. now repeat split.
    - eexists _, []. split; [reflexivity|]. now repeat split. }
  rewrite (bind_ok _ _ _ _ _ E6).
  set (body := evs6 ++ evs5 ++ evs4 ++ evs3 ++ Print (MsgIteration (S iterations)) :: evs1).
  assert (HT : trace w6 = body ++ trace w).
  { rewrite T6, T5, T4, T3. unfold w2, body. cbn. rewrite T1.
    now rewrite <- !app_assoc. }
  assert (HQ : forallb quiet body = true).
  { unfold body. rewrite !forallb_app, Q6, Q5, Q4, Q3. cbn. exact Q1. }
  assert (HI : occurrences is_iteration body = 1).
  { unfold body. rewrite !occurrences_app, I6, I5, I4, I3.
    unfold occurrences in *. cbn. now rewrite I1. }
  assert (HB : bak w6 = bak w) by (rewrite B6, B5, B4, B3; exact B1).
  assert (HS : spawns w6 = S (spawns w)) by (rewrite S6, S5, S4, S3; exact S1).
  assert (HW : fixed || common = true -> existsb is_write body = true).
  { intros H. unfold body. rewrite !existsb_app.
    apply orb_prop in H as [->| ->].
    - rewrite (Htrue3 eq_refl). now rewrite !orb_true_r.
    - rewrite (Htrue5 eq_refl). now rewrite !orb_true_r. }
  destruct (fixed || common) eqn:Ech; cbn [negb].
  2:{ apply orb_false_elim in Ech as (-> & ->). rewrite bind_print.
      eexists (Ok (changes || false)), _, (Print MsgNoAutomaticFixes :: body).
      split; [reflexivity|]. cbn [bak spawns trace file log].
      split; [exact HB|]. split; [lia|]. split; [now rewrite HT|].
      split; [cbn; exact HQ|]. split; [unfold occurrences in *; cbn; lia|].
      rewrite orb_false_r.
      split; [intros [= ->]; now left|]. split; [now intros [= ->]|].
      intros Hnf _. rewrite F6, (Hfalse5 Hnf eq_refl), F4.
      rewrite (Hfalse3 Hnf ltac:(discriminate)). exact F1. }
  destruct (IH (S iterations) (changes || true) w6)
    as (r & w' & evs & E & B' & S' & T' & Q' & I' & _ & Hmono & _).
  exists r, w', (evs ++ body).
  split; [exact E|]. split; [now rewrite B'|]. split; [lia|].
  split; [now rewrite T', HT, app_assoc|].
  split; [rewrite forallb_app; now rewrite Q', HQ|].
  split; [rewrite occurrences_app; lia|].
  split.
  { intros _. right. rewrite existsb_app, (HW eq_refl). apply orb_true_r. }
  split.
  - intros Hr. specialize (Hmono Hr). rewrite orb_true_r in Hmono. discriminate.
  - intros _ Hr. specialize (Hmono Hr). rewrite orb_true_r in Hmono. discriminate.
Qed.

Lemma clean_single_file_run w :
  let initial :=
    List.length (report_errors json_loads path (checker env (spawns w) (file w))) in
  exists r w' evs,
    ESLintAutomation.clean_single_file env json_loads path w = (r, w')
    /\ bak w' = bak w
    /\ spawns w' <= spawns w + 12
    /\ trace w' = evs ++ trace w
    /\ forallb quiet evs = true
    /\ occurrences is_iteration evs <= 10
    /\ (initial = 0 ->
        r = Ok (true, 0, 0) /\ file w' = file w /\ spawns w' = S (spawns w)
        /\ existsb is_mutation evs = false)
    /\ (initial <> 0 ->
        forall changed i f,
          r = Ok (changed, i, f) ->
          i = initial
          /\ (changed = true -> existsb is_write evs = true)
          /\ ((forall n, fault env n = false) -> changed = false -> file w' = file w)).
Proof.
  intros initial. unfold ESLintAutomation.clean_single_file. rewrite bind_print.
  set (w0 := log (Print (MsgAutoCleaning path)) w).
  destruct (automation_measure env json_loads path w0) as (w1 & E1 & F1 & B1 & S1 & G1).
  rewrite (bind_ok _ _ _ _ _ E1).
  change (checker env (spawns w0) (file w0)) with (checker env (spawns w) (file w)) in *.
  fold initial.
  destruct G1 as (evs1 & T1 & P1).
  assert (Q1 : forallb quiet evs1 = true) by weaken_events P1.
  assert (I1 : occurrences is_iteration evs1 = 0)
    by (apply (occurrences_none is_iteration is_measure_event); [by_cases_on_event|exact P1]).
  assert (M1 : existsb is_mutation evs1 = false) by no_such_event P1.
  assert (W1 : existsb is_write evs1 = false) by no_such_event P1.
  destruct (initial =? 0) eqn:E0.
  { apply Nat.eqb_eq in E0. rewrite bind_print.
    eexists _, _, (Print MsgAlreadyClean :: evs1 ++ [Print (MsgAutoCleaning path)]).
    split; [reflexivity|]. cbn [bak spawns trace file log].
    split; [exact B1|]. split; [rewrite S1; cbn; lia|].
    split; [rewrite T1; cbn; now rewrite <- app_assoc|].
    split; [cbn; rewrite forallb_app, Q1; reflexivity|].
    split; [unfold occurrences in *; cbn; rewrite filter_app, length_app, I1; cbn; lia|].
    split; [|intros H; now elim H].
    intros _. split; [reflexivity|]. split; [exact F1|]. split; [exact S1|].
    cbn. rewrite existsb_app, M1. reflexivity. }
  apply Nat.eqb_neq in E0. rewrite bind_print.
  set (w2 := log (Print (MsgInitialFileErrors initial)) w1).
  destruct (single_file_loop_run 10 0 false w2)
    as (r3 & w3 & evs3 & E3 & B3 & S3 & T3 & Q3 & I3 & Htrue3 & _ & Hfalse3).
  set (before := Print (MsgInitialFileErrors initial) :: evs1 ++ [Print (MsgAutoCleaning path)]).
  assert (T2 : trace w2 = before ++ trace w).
  { unfold w2, before. cbn. rewrite T1. cbn. now rewrite <- app_assoc. }
  assert (Q2 : forallb quiet before = true).
  { unfold before. cbn. rewrite forallb_app, Q1. reflexivity. }
  assert (I2 : occurrences is_iteration before = 0).
  { unfold before, occurrences in *. cbn. now rewrite filter_app, length_app, I1. }
  destruct r3 as [changed|e3].
  2:{ rewrite (bind_raise _ _ _ _ _ E3). exists (Raise e3), w3, (evs3 ++ before).
      split; [reflexivity|]. split; [rewrite B3; exact B1|].
      split; [cbn in S3; rewrite S1 in S3; cbn in S3; lia|].
      split; [now rewrite T3, T2, app_assoc|].
      split; [rewrite forallb_app; now rewrite Q3, Q2|].
      split; [rewrite occurrences_app; lia|].
      split; [intros H; now elim E0|]. discriminate. }
  rewrite (bind_ok _ _ _ _ _ E3).
  destruct (automation_measure env json_loads path w3) as (w4 & E4 & F4 & B4 & S4 & G4).
  rewrite (bind_ok _ _ _ _ _ E4), bind_print.
  destruct G4 as (evs4 & T4 & P4).
  assert (Q4 : forallb quiet evs4 = true) by weaken_events P4.
  assert (I4 : occurrences is_iteration evs4 = 0)
    by (apply (occurrences_none is_iteration is_measure_event); [by_cases_on_event|exact P4]).
  eexists _, _, (Print (MsgFinalResult initial _) :: evs4 ++ evs3 ++ before).
  split; [reflexivity|]. cbn [bak spawns trace file log].
  split; [rewrite B4, B3; exact B1|].
  split; [rewrite S4; cbn in S3; rewrite S1 in S3; cbn in S3; lia|].
  split; [rewrite T4, T3, T2, <- app_comm_cons, <- !app_assoc; reflexivity|].
  split; [cbn; rewrite !forallb_app; now rewrite Q4, Q3, Q2|].
  split.
  { change (Print (MsgFinalResult initial ?n) :: ?l) with ([Print (MsgFinalResult initial n)] ++ l).
    rewrite !occurrences_app, I4, I2. unfold occurrences at 1. cbn. lia. }
  split; [intros H; now elim E0|].
  intros _ changed' i f [= <- <- <-]. split; [reflexivity|]. split.
  - intros ->. destruct (Htrue3 eq_refl) as [H|H]; [discriminate|].
    cbn. rewrite !existsb_app, H. now rewrite orb_true_r.
  - intros Hnf ->. rewrite F4, (Hfalse3 Hnf eq_refl). exact F1.
Qed.
End SingleFile.

(** X22.  A file that [clean_single_file] measures clean is left alone: one
    measurement, no file operation; the answer is [(True, 0, 0)], with
    [True] for a change that was never made. *)
Theorem single_file_session_on_a_clean_file env json_loads path w :
  report_errors json_loads path (checker env (spawns w) (file w)) = [] ->
  exists w',
    ESLintAutomation.clean_single_file env json_loads path w = (Ok (true, 0, 0), w')
    /\ file w' = file w /\ bak w' = bak w /\ spawns w' = S (spawns w)
    /\ grows (fun e => negb (is_mutation e)) w w'.
Proof.
  intros H0.
  destruct (clean_single_file_run env json_loads path w)
    as (r & w' & evs & E & B & _ & T & _ & _ & Hclean & _).
  rewrite H0 in Hclean. destruct (Hclean eq_refl) as (-> & F & S1 & M).
  exists w'. split; [exact E|]. do 3 (split; [assumption|]).
  exists evs. split; [exact T|]. now apply existsb_false_forallb.
Qed.

(** X23.  Whatever the checker answers and whatever fails,
    [clean_single_file] runs the checker at most twelve times and goes
    through its loop at most ten times. *)
Theorem single_file_session_is_bounded env json_loads path w :
  exists r w',
    ESLintAutomation.clean_single_file env json_loads path w = (r, w')
    /\ spawns w' <= spawns w + 12
    /\ occurrences is_iteration (trace w') <= occurrences is_iteration (trace w) + 10.
Proof.
  destruct (clean_single_file_run env json_loads path w)
    as (r & w' & evs & E & _ & S1 & T & _ & I & _).
  exists r, w'. split; [exact E|]. split; [exact S1|].
  rewrite T, occurrences_app. lia.
Qed.

(** X24.  [clean_single_file] works without a net: it never copies the file
    to the backup path, never copies a backup back and never looks for
    one or removes one. *)
Theorem single_file_session_has_no_backup env json_loads path w :
  exists r w',
    ESLintAutomation.clean_single_file env json_loads path w = (r, w')
    /\ bak w' = bak w
    /\ grows (fun e => negb (is_backup_event e)) w w'.
Proof.
  destruct (clean_single_file_run env json_loads path w)
    as (r & w' & evs & E & B & _ & T & Q & _).
  exists r, w'. split; [exact E|]. split; [exact B|]. now exists evs.
Qed.

(** X25.  The first component of what [clean_single_file] returns for a file
    with diagnostics: it is [True] only if the file was opened for
    writing, and, when no file operation fails, [False] only if the
    file is as it was. *)
Theorem single_file_flag_is_sound env json_loads path w changed i f w' :
  ESLintAutomation.clean_single_file env json_loads path w = (Ok (changed, i, f), w') ->
  i <> 0 ->
  exists evs,
    trace w' = evs ++ trace w
    /\ (changed = true -> existsb is_write evs = true)
    /\ ((forall n, fault env n = false) -> changed = false -> file w' = file w).
Proof.
  intros Hrun Hi.
  destruct (clean_single_file_run env json_loads path w)
    as (r & w1 & evs & E & _ & _ & T & _ & _ & Hclean & Hdirty).
  rewrite Hrun in E. injection E as <- <-.
  destruct (Nat.eq_dec
              (List.length (report_errors json_loads path (checker env (spawns w) (file w)))) 0)
    as [H0|H0].
  - destruct (Hclean H0) as ([= _ Hz _] & _). now elim Hi.
  - destruct (Hdirty H0 _ _ _ eq_refl) as (_ & Ht & Hf). now exists evs.
Qed.

(** ** Line endings *)

Lemma universal_newlines_replace sep s :
  sep = String PyStr.nl "" \/ sep = String PyStr.cr (String PyStr.nl "") ->
  PyStr.contains (String PyStr.cr "") s = false ->
  PyStr.universal_newlines (PyStr.replace (String PyStr.nl "") sep s) = s.
Proof.
  intros Hsep. unfold PyStr.replace.
  induction s as [|c s IH]; intros Hc; [reflexivity|].
  cbn [PyStr.contains PyStr.startswith] in Hc.
  apply orb_false_elim in Hc as (Hc & Hs). rewrite andb_true_r in Hc.
  cbn [PyStr.replace_from PyStr.startswith String.length Nat.sub].
  rewrite andb_true_r.
  destruct (Ascii.eqb PyStr.nl c) eqn:En.
  - apply Ascii.eqb_eq in En. subst c.
    destruct Hsep as [-> | ->]; cbn; now rewrite IH.
  - cbn [PyStr.universal_newlines]. rewrite Ascii.eqb_sym, Hc. now rewrite IH.
Qed.

(** X26.  What [write_file] has written, [read_file] reads back: when no
    file operation fails, the line separator of the platform is LF or
    CR LF, and the text holds no carriage return, the text read is the
    text written. *)
Theorem write_then_read_gives_back env path content w :
  (forall n, fault env n = false) ->
  linesep env = String PyStr.nl "" \/ linesep env = String PyStr.cr (String PyStr.nl "") ->
  PyStr.contains (String PyStr.cr "") content = false ->
  exists w1 w2,
    ESLintAutomation.write_file env path content w = (Ok true, w1)
    /\ ESLintAutomation.read_file env path w1 = (Ok (Some content), w2)
    /\ file w2 = file w1.
Proof.
  intros Hnf Hsep Hc.
  unfold ESLintAutomation.write_file, ESLintAutomation.read_file, try_except, bind,
    write_text, read_text, faulty.
  rewrite !Hnf. eexists _, _. split; [reflexivity|].
  cbn [file set_file log]. rewrite Hnf.
  rewrite (universal_newlines_replace _ _ Hsep Hc). split; reflexivity.
Qed.

(** ** Witnesses *)


Lemma diagnostics_belong_to_a_header_witness :
  In arrow_expected (ESLintHelper.parse_output ("src/a.ts" ++ NL ++ diagnostics 2))
  /\ PyStr.endswith ".ts" (ESLintHelper.file_path arrow_expected) = true
  /\ (exists h, In h (PyStr.split PyStr.nl ("src/a.ts" ++ NL ++ diagnostics 2))
                /\ ESLintHelper.file_path arrow_expected = PyStr.strip h)
  /\ (0 <= ESLintHelper.line arrow_expected)%Z
  /\ (0 <= ESLintHelper.column arrow_expected)%Z.
Proof.
  assert (H : In arrow_expected
                (ESLintHelper.parse_output ("src/a.ts" ++ NL ++ diagnostics 2)))
    by (vm_compute; left; reflexivity).
  split; [exact H|].
  exact (diagnostics_belong_to_a_header ("src/a.ts" ++ NL ++ diagnostics 2) arrow_expected H).
Defined.

(** Two diagnostics under the header of a [.tsx] file: none is seen. *)
Lemma report_without_header_is_clean_witness :
  checker tsx_only (spawns (fresh plain)) (file (fresh plain))
  = ProcDone ("src/App.tsx" ++ NL ++ diagnostics 2) ""
  /\ exists w',
      ESLintHelper.get_file_errors tsx_only "src/App.tsx" (fresh plain) = (Ok [], w')
      /\ file w' = file (fresh plain) /\ bak w' = bak (fresh plain).
Proof.
  split; [reflexivity|].
  apply (report_without_header_is_clean tsx_only "src/App.tsx" (fresh plain)
           ("src/App.tsx" ++ NL ++ diagnostics 2) "").
  - reflexivity.
  - intros ln H. vm_compute in H.
    repeat (destruct H as [<-|H]; [vm_compute; reflexivity|]). destruct H.
Defined.

(** The summary of a single problem does not hold the word. *)
Lemma lint_count_needs_the_plural_witness :
  exists w', ESLintHelper.run_lint_count one_problem (fresh plain) = (Ok 0%N, w').
Proof.
  apply (lint_count_needs_the_plural one_problem (fresh plain)
           ("src/a.ts" ++ NL ++ diagnostics 1 ++ NL
            ++ "1 problem (1 error, 0 warnings)" ++ NL) "").
  - reflexivity.
  - intros ln H. vm_compute in H.
    repeat (destruct H as [<-|H]; [vm_compute; reflexivity|]). destruct H.
Defined.

Lemma in_order_spec l :
  NoDup (in_order l) /\ forall x, In x (in_order l) <-> In x l.
Proof.
  split; [apply NoDup_nodup|]. intros x. apply nodup_In.
Defined.

Lemma problem_files_are_the_headers_witness :
  exists files w',
    ESLintHelper.get_problem_files (scripted [2]) in_order (fresh plain) = (Ok files, w')
    /\ file w' = file (fresh plain) /\ bak w' = bak (fresh plain)
    /\ spawns w' = S (spawns (fresh plain))
    /\ NoDup files
    /\ (forall e, checker (scripted [2]) (spawns (fresh plain)) (file (fresh plain))
                  = ProcRaise e -> files = [])
    /\ (forall out err,
           checker (scripted [2]) (spawns (fresh plain)) (file (fresh plain))
           = ProcDone out err ->
           forall x,
             In x files
             <-> exists h, In h (PyStr.split PyStr.nl (out ++ err))
                           /\ x = PyStr.strip h /\ PyStr.endswith ".ts" x = true).
Proof.
  exact (problem_files_are_the_headers in_order in_order_spec (scripted [2]) (fresh plain)).
Defined.

Lemma diagnosed_files_are_listed_witness :
  checker (scripted [2]) (spawns (fresh plain)) (file (fresh plain))
  = ProcDone ("src/a.ts" ++ NL ++ diagnostics 2) ""
  /\ In arrow_expected
        (measure (checker (scripted [2]) (spawns (fresh plain)) (file (fresh plain))))
  /\ exists files w',
      ESLintHelper.get_problem_files (scripted [2]) in_order (fresh plain) = (Ok files, w')
      /\ In (ESLintHelper.file_path arrow_expected) files.
Proof.
  assert (H : In arrow_expected
                (measure (checker (scripted [2]) (spawns (fresh plain)) (file (fresh plain)))))
    by (vm_compute; left; reflexivity).
  split; [reflexivity|]. split; [exact H|].
  exact (diagnosed_files_are_listed in_order in_order_spec (scripted [2]) (fresh plain)
           ("src/a.ts" ++ NL ++ diagnostics 2) "" arrow_expected eq_refl H).
Defined.

(** A diagnostic on line 0 of a two-line file: the arrow goes into the
    second line. *)
Lemma line_zero_targets_the_last_line_witness :
  PyStr.contains "Parsing error" (ESLintHelper.message on_line_zero) = true
  /\ ESLintHelper.line on_line_zero = 0%Z
  /\ [plain; "f = async () {"] <> []
  /\ ESLintHelper.fix_error_lines [on_line_zero] [plain; "f = async () {"] false (fresh plain)
     = (Ok ([plain; "f = async () => {"], true),
        log (Print (MsgFixedLine 0 "Parsing error: '=>' expected")) (fresh plain)).
Proof.
  split; [reflexivity|]. split; [reflexivity|]. split; [discriminate|].
  rewrite (line_zero_targets_the_last_line on_line_zero [plain; "f = async () {"] false
             (fresh plain) eq_refl eq_refl ltac:(discriminate)).
  vm_compute. reflexivity.
Defined.

Lemma measured_diagnostics_fit_the_file_witness :
  (forall n, fault sound n = false)
  /\ file (fresh missing_arrow) = Some missing_arrow
  /\ missing_arrow <> ""
  /\ exists b w',
      ESLintHelper.apply_parsing_fixes sound helper "src/a.ts"
        (ESLintHelper.parse_output ("src/a.ts" ++ NL ++ diagnostics 1)) (fresh missing_arrow)
      = (Ok b, w')
      /\ occurrences is_rewrite_failure (trace w')
         = occurrences is_rewrite_failure (trace (fresh missing_arrow)).
Proof.
  split; [reflexivity|]. split; [reflexivity|]. split; [discriminate|].
  apply (measured_diagnostics_fit_the_file sound "." "src/a.ts"
           ("src/a.ts" ++ NL ++ diagnostics 1) (fresh missing_arrow) missing_arrow).
  - reflexivity.
  - reflexivity.
  - discriminate.
Defined.

Lemma backup_round_trip_witness :
  (forall n, fault sound n = false)
  /\ file (fresh plain) = Some plain
  /\ exists w1,
      ESLintHelper.create_backup sound "src/a.ts" (fresh plain)
      = (Ok ("src/a.ts" ++ ".bak")%string, w1)
      /\ bak w1 = Some plain
      /\ forall w2, bak w2 = bak w1 ->
           exists w3,
             ESLintHelper.restore_backup sound "src/a.ts" ("src/a.ts" ++ ".bak")%string w2
             = (Ok tt, w3)
             /\ file w3 = Some plain /\ bak w3 = None.
Proof.
  split; [reflexivity|]. split; [reflexivity|].
  apply (backup_round_trip sound "src/a.ts" (fresh plain) plain); reflexivity.
Defined.

(** A regression is detected, the copy that should restore the file
    fails, and so does the copy the [except] clause tries: the session
    raises, the file holds the rewritten text, the backup the original. *)
Lemma raised_session_keeps_the_original_witness :
  fst (session (scripted_failing_twice [2; 2; 1; 4] 19 23) helper missing_arrow)
  = Raise OSError
  /\ file (snd (session (scripted_failing_twice [2; 2; 1; 4] 19 23) helper missing_arrow))
     = Some with_arrow
  /\ (file (snd (session (scripted_failing_twice [2; 2; 1; 4] 19 23) helper missing_arrow))
      = file (fresh missing_arrow)
      \/ (bak (snd (session (scripted_failing_twice [2; 2; 1; 4] 19 23) helper missing_arrow))
          = file (fresh missing_arrow)
          /\ file (fresh missing_arrow) <> None)).
Proof.
  split; [vm_compute; reflexivity|]. split; [vm_compute; reflexivity|].
  apply (raised_session_keeps_the_original (scripted_failing_twice [2; 2; 1; 4] 19 23)
           helper "src/a.ts" (fresh missing_arrow) OSError).
  vm_compute. reflexivity.
Defined.


Lemma no_parsing_diagnostic_no_read_witness :
  (forall e, In e [any_warning] ->
     exists s, ESLintAutomation.message e = ESLintAutomation.JStr s
               /\ PyStr.contains "Parsing error" s = false)
  /\ ESLintAutomation.fix_parsing_errors sound "src/a.ts" [any_warning] (fresh plain)
     = (Ok false, fresh plain).
Proof.
  assert (H : forall e, In e [any_warning] ->
     exists s, ESLintAutomation.message e = ESLintAutomation.JStr s
               /\ PyStr.contains "Parsing error" s = false).
  { intros e [<-|[]]. eexists. split; [reflexivity|vm_compute; reflexivity]. }
  split; [exact H|].
  exact (no_parsing_diagnostic_no_read sound "src/a.ts" [any_warning] (fresh plain) H).
Defined.

Lemma empty_file_is_never_written_witness :
  (file (fresh "") = None \/ file (fresh "") = Some "")
  /\ (exists w',
         ESLintAutomation.apply_common_fixes sound "src/a.ts" (fresh "") = (Ok false, w')
         /\ file w' = file (fresh "") /\ grows (fun e => negb (is_write e)) (fresh "") w')
  /\ (exists r w',
         ESLintAutomation.fix_parsing_errors sound "src/a.ts" [on_line_five] (fresh "")
         = (r, w')
         /\ r <> Ok true
         /\ file w' = file (fresh "") /\ grows (fun e => negb (is_write e)) (fresh "") w').
Proof.
  split; [right; reflexivity|].
  apply (empty_file_is_never_written sound "src/a.ts" [on_line_five] (fresh "")).
  right. reflexivity.
Defined.

Lemma unchanged_text_is_not_written_witness :
  file (fresh missing_arrow) = Some missing_arrow
  /\ (exists b w' evs,
         ESLintAutomation.apply_common_fixes sound "src/a.ts" (fresh missing_arrow)
         = (Ok b, w')
         /\ trace w' = evs ++ trace (fresh missing_arrow)
         /\ existsb (writes (PyStr.universal_newlines missing_arrow)) evs = false)
  /\ (exists r w' evs,
         ESLintAutomation.fix_parsing_errors sound "src/a.ts" [on_line_five]
           (fresh missing_arrow) = (r, w')
         /\ trace w' = evs ++ trace (fresh missing_arrow)
         /\ existsb (writes (PyStr.universal_newlines missing_arrow)) evs = false).
Proof.
  split; [reflexivity|].
  apply (unchanged_text_is_not_written sound "src/a.ts" [on_line_five]
           (fresh missing_arrow) missing_arrow).
  reflexivity.
Defined.

Lemma on_line_five_is_well_typed : forall e, In e [on_line_five] -> well_typed e.
Proof.
  intros e [<-|[]]. split; eexists; reflexivity.
Defined.

Lemma well_typed_diagnostics_never_raise_witness :
  (forall e, In e [on_line_five] -> well_typed e)
  /\ exists b w',
      ESLintAutomation.fix_parsing_errors sound "src/a.ts" [on_line_five] (fresh missing_arrow)
      = (Ok b, w').
Proof.
  split; [exact on_line_five_is_well_typed|].
  exact (well_typed_diagnostics_never_raise sound "src/a.ts" [on_line_five]
           (fresh missing_arrow) on_line_five_is_well_typed).
Defined.

Lemma single_file_session_on_a_clean_file_witness :
  report_errors loads "src/a.ts"
    (checker sound_json (spawns (fresh with_arrow)) (file (fresh with_arrow))) = []
  /\ exists w',
      ESLintAutomation.clean_single_file sound_json loads "src/a.ts" (fresh with_arrow)
      = (Ok (true, 0, 0), w')
      /\ file w' = file (fresh with_arrow) /\ bak w' = bak (fresh with_arrow)
      /\ spawns w' = S (spawns (fresh with_arrow))
      /\ grows (fun e => negb (is_mutation e)) (fresh with_arrow) w'.
Proof.
  split; [vm_compute; reflexivity|].
  apply (single_file_session_on_a_clean_file sound_json loads "src/a.ts" (fresh with_arrow)).
  vm_compute. reflexivity.
Defined.

(** One parsing error, repaired in the first iteration; the second
    iteration finds the file clean. *)
Lemma single_file_flag_is_sound_witness :
  fst (ESLintAutomation.clean_single_file sound_json loads "src/a.ts" (fresh missing_arrow))
  = Ok (true, 1, 0)
  /\ 1 <> 0
  /\ exists evs,
      trace (snd (ESLintAutomation.clean_single_file sound_json loads "src/a.ts"
                    (fresh missing_arrow)))
      = evs ++ trace (fresh missing_arrow)
      /\ (true = true -> existsb is_write evs = true)
      /\ ((forall n, fault sound_json n = false) -> true = false ->
          file (snd (ESLintAutomation.clean_single_file sound_json loads "src/a.ts"
                       (fresh missing_arrow)))
          = file (fresh missing_arrow)).
Proof.
  split; [vm_compute; reflexivity|]. split; [discriminate|].
  apply (single_file_flag_is_sound sound_json loads "src/a.ts" (fresh missing_arrow)
           true 1 0).
  - vm_compute. reflexivity.
  - discriminate.
Defined.

Lemma write_then_read_gives_back_witness :
  (forall n, fault sound n = false)
  /\ (linesep sound = String PyStr.nl ""
      \/ linesep sound = String PyStr.cr (String PyStr.nl ""))
  /\ PyStr.contains (String PyStr.cr "") with_arrow = false
  /\ exists w1 w2,
      ESLintAutomation.write_file sound "src/a.ts" with_arrow (fresh plain) = (Ok true, w1)
      /\ ESLintAutomation.read_file sound "src/a.ts" w1 = (Ok (Some with_arrow), w2)
      /\ file w2 = file w1.
Proof.
  split; [reflexivity|]. split; [left; reflexivity|]. split; [vm_compute; reflexivity|].
  apply (write_then_read_gives_back sound "src/a.ts" with_arrow (fresh plain)).
  - reflexivity.
  - left. reflexivity.
  - vm_compute. reflexivity.
Defined.

(** ** Further scenarios *)

(** The count is read off the summary line, and a file named twice is
    listed once. *)
Example summary_and_headers_of_a_report :
  fst (ESLintHelper.run_lint_count twelve_problems (fresh plain)) = Ok 12%N
  /\ fst (ESLintHelper.get_problem_files twelve_problems in_order (fresh plain))
     = Ok ["src/a.ts"]
  /\ List.length (measure (checker twelve_problems 0 (Some plain))) = 3.
Proof. vm_compute. repeat split. Qed.

(** A checker whose answers drift: one diagnostic at first, two at the
    start of the first iteration.  The check at the start of the
    iteration fires. *)
Example start_check_fires_when_the_checker_drifts :
  occurrences is_start_regression (trace (snd (session (scripted [1; 2]) helper plain))) = 1
  /\ fst (session (scripted [1; 2]) helper plain) = Ok (1, 1).
Proof. vm_compute. split; reflexivity. Qed.

(** A diagnostic on line 0 of an empty file: the [IndexError] is caught
    inside [apply_parsing_fixes], which answers [False]. *)
Example line_zero_of_an_empty_file :
  ESLintHelper.apply_parsing_fixes sound helper "src/a.ts" [on_line_zero] (fresh "")
  = (Ok false,
     MkWorld (Some "") None 0 [Print (MsgErrorApplyingFixes IndexError); OpenRead]).
Proof. vm_compute. reflexivity. Qed.

(** A diagnostic of the JSON report without a line number:
    [fix_parsing_errors] raises, and nothing in [clean_single_file]
    would catch it. *)
Example missing_line_number_raises :
  fst (ESLintAutomation.fix_parsing_errors sound "src/a.ts" [without_line]
         (fresh missing_arrow)) = Raise TypeError.
Proof. vm_compute. reflexivity. Qed.

(** A lone carriage return is read back as a line feed. *)
Example carriage_return_is_not_read_back :
  fst (ESLintAutomation.read_file sound "src/a.ts"
         (snd (ESLintAutomation.write_file sound "src/a.ts" (String PyStr.cr "x")
                 (fresh plain))))
  = Ok (Some (String PyStr.nl "x")).
Proof. vm_compute. reflexivity. Qed.
